(** * LinkedIn post agent: post pipeline, LinkedIn client and entry point

    A shallow embedding of
    - [src/services/autogen_gemini_service.py] (configuration, prompt,
      fence stripping, disclosure injection, rendering),
    - [src/services/linkedin_service.py] (configuration and the three REST
      operations) and
    - [main.py] (the wrappers and the top-level handler),
    followed by the properties the specification states about them.

    Python values are modelled as they are at run time: a [str] is a
    sequence of code points, the result of [json.loads] is a dynamically
    typed value, an exception is a class together with its [str(e)], and a
    call of an external collaborator (HTTP request, agent conversation,
    [print]) is recorded in a trace. *)

From Stdlib Require Import String Ascii.
From Stdlib Require Import List ZArith NArith Bool Lia.
From Stdlib Require Import Floats.SpecFloat.
From Stdlib Require Import DecimalString.
From Equations Require Import Equations.
Import ListNotations.

Set Warnings "-register-all".
Open Scope list_scope.

(** ** Python strings *)

(** A Python [str] is a sequence of Unicode code points. *)
Definition pychar := N.
Definition pystr := list pychar.

(** An ASCII literal of the source, as a Python string. *)
Definition py (s : string) : pystr :=
  map N_of_ascii (list_ascii_of_string s).

(** Characters that cannot be written inside a literal here. *)
Definition DQ : pychar := 34%N.          (* the double quote *)
Definition ROBOT : pychar := 129302%N.   (* U+1F916, the robot face *)

Definition pystr_eqb (a b : pystr) : bool :=
  if list_eq_dec N.eq_dec a b then true else false.

Lemma pystr_eqb_eq a b : pystr_eqb a b = true <-> a = b.
Proof.
  unfold pystr_eqb. destruct (list_eq_dec N.eq_dec a b); split; congruence.
Qed.

Lemma pystr_eqb_refl a : pystr_eqb a a = true.
Proof. apply pystr_eqb_eq. reflexivity. Qed.

Lemma pystr_eqb_neq a b : pystr_eqb a b = false <-> a <> b.
Proof.
  unfold pystr_eqb. destruct (list_eq_dec N.eq_dec a b); split; congruence.
Qed.

(** [s.startswith(p)], returning what follows the prefix. *)
Fixpoint strip_prefix (p s : pystr) : option pystr :=
  match p, s with
  | [], _ => Some s
  | _ :: _, [] => None
  | a :: p', b :: s' => if N.eqb a b then strip_prefix p' s' else None
  end.

(** [needle in hay] for two strings. *)
Fixpoint is_infix (needle hay : pystr) : bool :=
  match strip_prefix needle hay with
  | Some _ => true
  | None => match hay with
            | [] => false
            | _ :: hay' => is_infix needle hay'
            end
  end.

Definition infix_of (needle hay : pystr) : Prop :=
  exists a b, hay = a ++ needle ++ b.

(** [sep.join(parts)] when every part is a string. *)
Fixpoint join (sep : pystr) (parts : list pystr) : pystr :=
  match parts with
  | [] => []
  | [p] => p
  | p :: rest => p ++ sep ++ join sep rest
  end.

(** [str(n)] for an integer. *)
Definition str_of_Z (z : Z) : pystr :=
  py (NilZero.string_of_int (Z.to_int z)).

(** ** Python values, as [json.loads] produces them *)

Inductive pyval : Type :=
| PNone
| PBool (b : bool)
| PInt (z : Z)
| PFloat (f : spec_float)
| PStr (s : pystr)
| PList (l : list pyval)
| PDict (d : list (pystr * pyval)).

(** A [dict] keeps its keys in insertion order. *)
Definition pydict := list (pystr * pyval).

(** [type(v).__name__] *)
Definition type_name (v : pyval) : pystr :=
  match v with
  | PNone => py "NoneType"
  | PBool _ => py "bool"
  | PInt _ => py "int"
  | PFloat _ => py "float"
  | PStr _ => py "str"
  | PList _ => py "list"
  | PDict _ => py "dict"
  end.

(** [bool(v)]: what [not v] and [if v] test. *)
Definition truthy (v : pyval) : bool :=
  match v with
  | PNone => false
  | PBool b => b
  | PInt z => negb (Z.eqb z 0)
  | PFloat (S754_zero _) => false
  | PFloat _ => true
  | PStr [] => false
  | PStr _ => true
  | PList [] => false
  | PList _ => true
  | PDict [] => false
  | PDict _ => true
  end.

(** [d.get(k)] on a dict, [None] of Rocq standing for Python's [None]
    default (absent key). *)
Fixpoint dict_get (k : pystr) (d : pydict) : option pyval :=
  match d with
  | [] => None
  | (k', v) :: d' => if pystr_eqb k k' then Some v else dict_get k d'
  end.

(** [d[k] = v]: an existing key keeps its place, a new one goes last. *)
Fixpoint dict_set (k : pystr) (v : pyval) (d : pydict) : pydict :=
  match d with
  | [] => [(k, v)]
  | (k', v') :: d' =>
      if pystr_eqb k k' then (k', v) :: d' else (k', v') :: dict_set k v d'
  end.

Definition dict_keys (d : pydict) : list pystr := map fst d.

(** The value [d.get(k)] evaluates to. *)
Definition get_or_none (k : pystr) (d : pydict) : pyval :=
  match dict_get k d with Some v => v | None => PNone end.

(** ** Exceptions *)

Inductive exn_class : Type :=
| ValueError
| JSONDecodeError          (* json: a ValueError *)
| KeyError
| TypeError
| AttributeError
| RequestException         (* requests: base class *)
| HTTPError                (* requests: a RequestException *)
| LinkedInAPIError
| LinkedInAuthError        (* a LinkedInAPIError *)
| LinkedInPostError        (* a LinkedInAPIError *)
| OtherException           (* any other subclass of Exception *)
| KeyboardInterrupt.       (* a BaseException that is not an Exception *)

(** The class caught by an [except] clause; [Exception] is the root of
    everything an [except Exception] catches. *)
Inductive handler_class : Type :=
| Exactly (c : exn_class)
| Exception.

Definition exn_class_eqb (a b : exn_class) : bool :=
  match a, b with
  | ValueError, ValueError | JSONDecodeError, JSONDecodeError
  | KeyError, KeyError | TypeError, TypeError
  | AttributeError, AttributeError
  | RequestException, RequestException | HTTPError, HTTPError
  | LinkedInAPIError, LinkedInAPIError
  | LinkedInAuthError, LinkedInAuthError
  | LinkedInPostError, LinkedInPostError
  | OtherException, OtherException
  | KeyboardInterrupt, KeyboardInterrupt => true
  | _, _ => false
  end.

(** Direct base class inside the modelled hierarchy. *)
Definition base_class (c : exn_class) : option exn_class :=
  match c with
  | JSONDecodeError => Some ValueError
  | HTTPError => Some RequestException
  | LinkedInAuthError => Some LinkedInAPIError
  | LinkedInPostError => Some LinkedInAPIError
  | _ => None
  end.

(** [isinstance(e, h)] *)
Definition isinstance (c : exn_class) (h : handler_class) : bool :=
  match h with
  | Exception => negb (exn_class_eqb c KeyboardInterrupt)
  | Exactly k =>
      exn_class_eqb c k
      || match base_class c with
         | Some b => exn_class_eqb b k
         | None => false
         end
  end.

(** A raised exception: its class and [str(e)]. *)
Record exn : Type := Exn { exn_cls : exn_class; exn_str : pystr }.

Inductive result (A : Type) : Type :=
| Ok (a : A)
| Raise (e : exn).
Arguments Ok {A} a.
Arguments Raise {A} e.

Definition rbind {A B} (r : result A) (f : A -> result B) : result B :=
  match r with
  | Ok a => f a
  | Raise e => Raise e
  end.

Notation "x <-r m ;; k" := (rbind m (fun x => k))
  (at level 61, m at next level, right associativity).

(** [try: r except h as e: k e] *)
Definition try_except {A} (r : result A) (h : handler_class)
    (k : exn -> result A) : result A :=
  match r with
  | Ok a => Ok a
  | Raise e => if isinstance (exn_cls e) h then k e else Raise e
  end.

(** ** Operations of the interpreter on dynamically typed values *)

Definition NL : pychar := 10%N.
Definition quoted (s : pystr) : pystr := py "'" ++ s ++ py "'".

(** [v.get(k)]: only a dict has the method. *)
Definition method_get (v : pyval) (k : pystr) : result pyval :=
  match v with
  | PDict d => Ok (get_or_none k d)
  | _ => Raise (Exn AttributeError
           (quoted (type_name v) ++ py " object has no attribute 'get'"))
  end.

(** [v[k]] for a string key [k] (a literal of the source, so that
    [str(KeyError(k))] is the key between single quotes). *)
Definition subscript (v : pyval) (k : pystr) : result pyval :=
  match v with
  | PDict d =>
      match dict_get k d with
      | Some x => Ok x
      | None => Raise (Exn KeyError (quoted k))
      end
  | PList _ =>
      Raise (Exn TypeError
               (py "list indices must be integers or slices, not str"))
  | PStr _ =>
      Raise (Exn TypeError (py "string indices must be integers, not 'str'"))
  | _ =>
      Raise (Exn TypeError
               (quoted (type_name v) ++ py " object is not subscriptable"))
  end.

(** [v[k] = x] for a string key. *)
Definition setitem (v : pyval) (k : pystr) (x : pyval) : result pyval :=
  match v with
  | PDict d => Ok (PDict (dict_set k x d))
  | PList _ =>
      Raise (Exn TypeError
               (py "list indices must be integers or slices, not str"))
  | _ =>
      Raise (Exn TypeError
               (quoted (type_name v)
                ++ py " object does not support item assignment"))
  end.

(** The items a [for] loop over a string yields. *)
Definition chars_of (s : pystr) : list pyval :=
  map (fun c => PStr [c]) s.

(** [v += s] for a string [s]: concatenation on a string, in-place
    extension by the characters of [s] on a list, [TypeError] otherwise. *)
Definition iadd_str (v : pyval) (s : pystr) : result pyval :=
  match v with
  | PStr c => Ok (PStr (c ++ s))
  | PList l => Ok (PList (l ++ chars_of s))
  | _ =>
      Raise (Exn TypeError
               (py "unsupported operand type(s) for +=: "
                ++ quoted (type_name v) ++ py " and 'str'"))
  end.

(** [iter(v)], where it exists. *)
Definition iterate (v : pyval) : option (list pyval) :=
  match v with
  | PList l => Some l
  | PStr s => Some (chars_of s)
  | PDict d => Some (map (fun kv => PStr (fst kv)) d)
  | _ => None
  end.

(** The items of a join must all be strings; [i] is the index of the
    first item of [items] in the sequence being joined. *)
Fixpoint expect_strs (i : Z) (items : list pyval) : result (list pystr) :=
  match items with
  | [] => Ok []
  | PStr s :: rest =>
      strs <-r expect_strs (i + 1) rest ;; Ok (s :: strs)
  | v :: _ =>
      Raise (Exn TypeError
               (py "sequence item " ++ str_of_Z i
                ++ py ": expected str instance, " ++ type_name v
                ++ py " found"))
  end.

(** [sep.join(v)] *)
Definition str_join (sep : pystr) (v : pyval) : result pystr :=
  match iterate v with
  | None => Raise (Exn TypeError (py "can only join an iterable"))
  | Some items => strs <-r expect_strs 0 items ;; Ok (join sep strs)
  end.

(** ** Fence stripping:
    [re.sub(r'```json\s*|\s*```', '', summary, flags=re.DOTALL)] *)

(** [\s] of a [str] pattern: the code points with [str.isspace()]. *)
Definition is_space (c : pychar) : bool :=
  ((9 <=? c) && (c <=? 13) || (28 <=? c) && (c <=? 32)
   || (c =? 133) || (c =? 160) || (c =? 5760)
   || (8192 <=? c) && (c <=? 8202)
   || (c =? 8232) || (c =? 8233) || (c =? 8239) || (c =? 8287)
   || (c =? 12288))%N.

Definition BQ : pychar := 96%N.          (* the backtick *)
Definition fence : pystr := [BQ; BQ; BQ].
Definition fence_json : pystr := fence ++ py "json".

(** The regular expressions the pattern is made of. *)
Inductive regex : Type :=
| Lit (text : pystr)        (* the text itself *)
| Spaces                    (* [\s*], greedy *)
| Seq (a b : regex)         (* [ab] *)
| Alt (a b : regex).        (* [a|b], [a] first *)

(** Greedy [\s*] before the continuation [k]: the longest run of white
    space first, one space less each time [k] fails. *)
Fixpoint spaces_then {A} (k : pystr -> option A) (s : pystr) : option A :=
  match s with
  | c :: s' =>
      if is_space c then
        match spaces_then k s' with
        | Some x => Some x
        | None => k s
        end
      else k s
  | [] => k []
  end.

(** The backtracking matcher of [re], at the head of [s]: [k] is given what
    follows the part matched so far, and the first success wins. *)
Fixpoint match_re {A} (r : regex) (k : pystr -> option A) (s : pystr)
    : option A :=
  match r with
  | Lit text =>
      match strip_prefix text s with
      | Some rest => k rest
      | None => None
      end
  | Spaces => spaces_then k s
  | Seq a b => match_re a (match_re b k) s
  | Alt a b =>
      match match_re a k s with
      | Some x => Some x
      | None => match_re b k s
      end
  end.

(** [r'```json\s*|\s*```'] *)
Definition fence_pattern : regex :=
  Alt (Seq (Lit fence_json) Spaces) (Seq Spaces (Lit fence)).

(** The pattern tried at the head of [s]; the result is what follows the
    match.  ([re.DOTALL] only changes the meaning of a dot, and the pattern
    has none.) *)
Definition match_fence (s : pystr) : option pystr :=
  match_re fence_pattern Some s.

(** What is left after the longest run of white space. *)
Fixpoint skip_spaces (s : pystr) : pystr :=
  match s with
  | c :: s' => if is_space c then skip_spaces s' else s
  | [] => []
  end.

Lemma spaces_then_greedy s : spaces_then Some s = Some (skip_spaces s).
Proof.
  induction s as [|c s IH]; [reflexivity|].
  cbn [spaces_then skip_spaces].
  destruct (is_space c); [rewrite IH|]; reflexivity.
Qed.

Lemma spaces_then_fence s :
  spaces_then (match_re (Lit fence) Some) s
  = strip_prefix fence (skip_spaces s).
Proof.
  assert (K : forall r, match_re (Lit fence) Some r = strip_prefix fence r).
  { intros r. cbn [match_re]. destruct (strip_prefix fence r); reflexivity. }
  induction s as [|c s IH]; [reflexivity|].
  cbn [spaces_then skip_spaces].
  destruct (is_space c) eqn:Hc; [|apply K].
  rewrite IH. destruct (strip_prefix fence (skip_spaces s)); [reflexivity|].
  rewrite K. unfold fence. cbn [strip_prefix].
  destruct (N.eqb BQ c) eqn:Hq; [|reflexivity].
  apply N.eqb_eq in Hq. subst c. discriminate.
Qed.

(** No backtracking is needed for this pattern: [\s*] cannot give a space
    back to let the fence match, as a fence starts with a backtick. *)
Lemma match_fence_eq s :
  match_fence s
  = match strip_prefix fence_json s with
    | Some rest => Some (skip_spaces rest)
    | None => strip_prefix fence (skip_spaces s)
    end.
Proof.
  unfold match_fence, fence_pattern. cbn [match_re].
  destruct (strip_prefix fence_json s) as [rest|].
  - rewrite spaces_then_greedy. reflexivity.
  - apply spaces_then_fence.
Qed.

Lemma strip_prefix_length p s r :
  strip_prefix p s = Some r -> length s = length p + length r.
Proof.
  revert s; induction p as [|a p IH]; intros s; simpl.
  - intros [= <-]. reflexivity.
  - destruct s as [|b s]; [discriminate|].
    destruct (N.eqb a b); [|discriminate].
    intros H. simpl. rewrite (IH _ H). reflexivity.
Qed.

Lemma skip_spaces_length s : length (skip_spaces s) <= length s.
Proof.
  induction s as [|c s IH]; simpl; [lia|].
  destruct (is_space c); simpl; lia.
Qed.

Lemma match_fence_shorter s r :
  match_fence s = Some r -> length r < length s.
Proof.
  rewrite match_fence_eq.
  destruct (strip_prefix fence_json s) as [rest|] eqn:E.
  - intros [= <-]. apply strip_prefix_length in E.
    pose proof (skip_spaces_length rest). simpl in E. lia.
  - intros H. apply strip_prefix_length in H.
    pose proof (skip_spaces_length s). simpl in H. lia.
Qed.

(** A value with the equation that names it, kept for the proof that the
    scan below ends. *)
Definition inspect {A} (a : A) : {b : A | a = b} := exist _ a eq_refl.

(** [re.sub] with the empty replacement: scan from the left; where the
    pattern matches, drop the match and go on after it; elsewhere keep the
    character.  Every match is non-empty, as it contains a fence. *)
Equations? strip_fences (s : pystr) : pystr by wf (length s) lt :=
  strip_fences [] := [];
  strip_fences (c :: t) with inspect (match_fence (c :: t)) => {
    | exist _ (Some rest) E := strip_fences rest;
    | exist _ None _ := c :: strip_fences t }.
Proof.
  apply match_fence_shorter in E. exact E.
Qed.

(** ** Collaborators and effects *)

Definition headers := list (pystr * pystr).

(** A call of the [requests] library. *)
Inductive request : Type :=
| Get (url : pystr) (hdrs : headers)
| PostJson (url : pystr) (hdrs : headers) (payload : pyval)
| PostForm (url : pystr) (data : list (pystr * pystr)).

(** What a [requests.Response] offers to this program; [resp_json] is the
    outcome of [response.json()]. *)
Record response : Type := Response {
  status_code : Z;
  reason : pystr;
  resp_url : pystr;
  resp_json : result pyval
}.

(** [response.raise_for_status()] of the [requests] library: an
    [HTTPError] for a 4xx or 5xx status, nothing otherwise. *)
Definition raise_for_status (r : response) : result unit :=
  if ((400 <=? status_code r) && (status_code r <? 500))%Z then
    Raise (Exn HTTPError
             (str_of_Z (status_code r) ++ py " Client Error: " ++ reason r
              ++ py " for url: " ++ resp_url r))
  else if ((500 <=? status_code r) && (status_code r <? 600))%Z then
    Raise (Exn HTTPError
             (str_of_Z (status_code r) ++ py " Server Error: " ++ reason r
              ++ py " for url: " ++ resp_url r))
  else Ok tt.

(** An [autogen.AssistantAgent] as this program configures it. *)
Record agent : Type := AssistantAgent {
  agent_name : pystr;
  system_message : pystr;
  agent_llm_config : list (pystr * pystr)
}.

(** The arguments of [initiate_chat]. *)
Record chat_request : Type := ChatRequest {
  chat_sender : agent;
  chat_recipient : agent;
  chat_message : pystr;
  chat_max_turns : Z;
  chat_summary_method : pystr
}.

Inductive stream : Type := Stdout | Stderr.

(** What the program does to the outside, in order. *)
Inductive event : Type :=
| EvChat (c : chat_request)
| EvHttp (r : request)
| EvPrint (f : stream) (args : list pyval).

Definition trace := list event.

(** The outside: the process environment (after [load_dotenv]), the HTTP
    service and the agent conversation.  A collaborator may answer
    according to everything that happened before. *)
Record world : Type := World {
  environ : pystr -> option pystr;
  http : trace -> request -> result response;
  chat : trace -> chat_request -> result pystr
}.

(** Computations that may raise and that extend the trace. *)
Definition M (A : Type) : Type := trace -> result A * trace.

Definition ret {A} (a : A) : M A := fun t => (Ok a, t).
Definition raise {A} (e : exn) : M A := fun t => (Raise e, t).
Definition lift {A} (r : result A) : M A := fun t => (r, t).

Definition bind {A B} (m : M A) (f : A -> M B) : M B :=
  fun t =>
    match m t with
    | (Ok a, t') => f a t'
    | (Raise e, t') => (Raise e, t')
    end.

Notation "x <- m ;; k" := (bind m (fun x => k))
  (at level 61, m at next level, right associativity).
Notation "m ;;; k" := (bind m (fun _ => k))
  (at level 61, right associativity).

(** [try: m except h as e: k e] *)
Definition try_catch {A} (m : M A) (h : handler_class) (k : exn -> M A)
    : M A :=
  fun t =>
    match m t with
    | (Ok a, t') => (Ok a, t')
    | (Raise e, t') =>
        if isinstance (exn_cls e) h then k e t' else (Raise e, t')
    end.

Definition emit (ev : event) : M unit := fun t => (Ok tt, t ++ [ev]).

Definition print (f : stream) (args : list pyval) : M unit :=
  emit (EvPrint f args).

Definition requests_send (w : world) (r : request) : M response :=
  fun t => (http w t r, t ++ [EvHttp r]).

Definition initiate_chat (w : world) (c : chat_request) : M pystr :=
  fun t => (chat w t c, t ++ [EvChat c]).

(** [os.getenv(k)] *)
Definition getenv (w : world) (k : string) : option pystr :=
  environ w (py k).

(** [bool(v)] for the result of [os.getenv]. *)
Definition is_set (v : option pystr) : bool :=
  match v with
  | Some (_ :: _) => true
  | _ => false
  end.

(** The string held by a variable that passed the [is_set] test. *)
Definition env_value (v : option pystr) : pystr :=
  match v with
  | Some s => s
  | None => []
  end.

Definition missing_vars_message (missing : list pystr) : pystr :=
  py "Missing required environment variables: " ++ join (py ", ") missing.

(** ** [autogen_gemini_service.py] *)

Record GeminiConfig : Type := MkGeminiConfig {
  gemini_api_key : pystr;
  gemini_model : pystr
}.

(** [GeminiConfig.from_env] *)
Definition GeminiConfig_from_env (w : world) : result GeminiConfig :=
  let api_key := getenv w "GEMINI_API_KEY" in
  let model := getenv w "GEMINI_MODEL" in
  if negb (is_set api_key) || negb (is_set model) then
    let missing :=
      (if negb (is_set api_key) then [py "GEMINI_API_KEY"] else [])
      ++ (if negb (is_set model) then [py "GEMINI_MODEL"] else []) in
    Raise (Exn ValueError (missing_vars_message missing))
  else
    Ok (MkGeminiConfig (env_value api_key) (env_value model)).

(** The generator object: its only attribute is [llm_config]. *)
Record LinkedInPostGenerator : Type := MkGenerator {
  llm_config : list (pystr * pystr)
}.

(** [LinkedInPostGenerator.__init__] *)
Definition LinkedInPostGenerator_init (w : world)
    : result LinkedInPostGenerator :=
  config <-r GeminiConfig_from_env w ;;
  Ok (MkGenerator [ (py "model", gemini_model config);
                    (py "api_key", gemini_api_key config);
                    (py "api_type", py "google") ]).

(** A string literal of the source between double quotes. *)
Definition qq (s : string) : pystr := [DQ] ++ py s ++ [DQ].

Definition prompt_head : pystr := py "Create an engaging LinkedIn post about ".

Definition prompt_tail : pystr :=
  py ". The post should:" ++ [NL]
  ++ py "        - Be optimized for LinkedIn's professional audience" ++ [NL]
  ++ py "        - Be between 150-200 words" ++ [NL]
  ++ py "        - Include line breaks for readability" ++ [NL]
  ++ py "        - Focus on providing value and insights" ++ [NL]
  ++ py "        - Include a short, relevant code snippet (3-5 lines max) that demonstrates a key concept" ++ [NL]
  ++ py "        - Format the code properly with ```c# ``` markdown syntax" ++ [NL]
  ++ py "        - End with an engaging question that encourages discussion" ++ [NL]
  ++ py "        - Add 3-4 relevant hashtags" ++ [NL]
  ++ py "        - Use a professional and approachable tone" ++ [NL]
  ++ py "        - Avoid using emojis" ++ [NL]
  ++ py "        - provide output in json format {"
  ++ qq "title" ++ py ": " ++ qq "" ++ py ", "
  ++ qq "content" ++ py ": " ++ qq "" ++ py ", "
  ++ qq "code" ++ py ": " ++ qq "" ++ py ", "
  ++ qq "hashtags" ++ py ": [], "
  ++ qq "question" ++ py ": " ++ qq "" ++ py "}" ++ [NL]
  ++ py "        ".

(** [_create_linkedin_prompt]: the f-string with [topic] in its hole. *)
Definition _create_linkedin_prompt (topic : pystr) : pystr :=
  prompt_head ++ topic ++ prompt_tail.

Definition technical_writer_message : pystr :=
  py "You are an expert technical content creator who specializes in crafting engaging " ++ [NL]
  ++ py "                LinkedIn posts about programming concepts. Your writing process:" ++ [NL]
  ++ py "                1. Create an initial technical post that includes:" ++ [NL]
  ++ py "                   - A compelling technical headline/title" ++ [NL]
  ++ py "                   - Clear, technically accurate main content" ++ [NL]
  ++ py "                   - Relevant technical hashtags (3-5)" ++ [NL]
  ++ py "                   - An engaging technical question to drive discussion" ++ [NL]
  ++ py "                2. When receiving feedback from the optimizer, carefully analyze it" ++ [NL]
  ++ py "                3. Create an improved version incorporating the feedback" ++ [NL]
  ++ py "                4. Only return the final post content without any additional comments or explanations".

Definition content_optimizer_message : pystr :=
  py "You are an expert LinkedIn content strategist and editor. Your role is to:" ++ [NL]
  ++ py "                1. Review the writer's LinkedIn posts for:" ++ [NL]
  ++ py "                   - Professional tone and clarity" ++ [NL]
  ++ py "                   - Engagement potential" ++ [NL]
  ++ py "                   - Appropriate length for LinkedIn" ++ [NL]
  ++ py "                   - Effective headline and hook" ++ [NL]
  ++ py "                   - Strategic use of hashtags" ++ [NL]
  ++ py "                2. Provide specific, actionable feedback on:" ++ [NL]
  ++ py "                   - What works well and should be kept" ++ [NL]
  ++ py "                   - What needs improvement and why" ++ [NL]
  ++ py "                   - Suggested changes or enhancements" ++ [NL]
  ++ py "                3. Keep feedback constructive and focused on improving viral potential and professional impact".

(** [_create_agents]: the writer and the optimizer, built without any call
    to the backend. *)
Definition _create_agents (self : LinkedInPostGenerator) : agent * agent :=
  (AssistantAgent (py "TechnicalWriter") technical_writer_message
     (llm_config self),
   AssistantAgent (py "ContentOptimizer") content_optimizer_message
     (llm_config self)).

Definition disclosure : pystr :=
  [NL; NL] ++ py "---" ++ [NL; ROBOT]
  ++ py " This post was generated with the help of AI.".

Definition ai_hashtags : list pyval :=
  [PStr (py "#AIGenerated"); PStr (py "#GeminiAI")].

Definition required_fields : list pystr :=
  [py "title"; py "content"; py "hashtags"; py "question"].

Definition invalid_json (e : exn) : exn :=
  Exn ValueError (py "Invalid JSON format: " ++ exn_str e).

Section Program.

(** The [json] module of the standard library. *)
Variable json_loads : pystr -> result pyval.
Variable json_dumps : pyval -> pystr.

(** [str(v)] of the interpreter for a value that is not a string. *)
Variable str_of_value : pyval -> pystr.

(** [_add_ai_disclosure] *)
Definition _add_ai_disclosure (post_json : pystr) : result pystr :=
  try_except
    (post_dict <-r json_loads post_json ;;
     content <-r subscript post_dict (py "content") ;;
     content <-r iadd_str content disclosure ;;
     post_dict <-r setitem post_dict (py "content") content ;;
     hashtags <-r method_get post_dict (py "hashtags") ;;
     post_dict <-r
       match hashtags with
       | PList l =>
           setitem post_dict (py "hashtags") (PList (l ++ ai_hashtags))
       | _ => setitem post_dict (py "hashtags") (PList ai_hashtags)
       end ;;
     Ok (json_dumps post_dict))
    (Exactly JSONDecodeError)
    (fun e => Raise (invalid_json e)).

(** The list comprehension
    [[field for field in fields if not post_dict.get(field)]]. *)
Fixpoint falsy_fields (post_dict : pyval) (fields : list pystr)
    : result (list pystr) :=
  match fields with
  | [] => Ok []
  | field :: rest =>
      v <-r method_get post_dict field ;;
      more <-r falsy_fields post_dict rest ;;
      Ok (if truthy v then more else field :: more)
  end.

(** [_convert_to_linkedin_post] *)
Definition _convert_to_linkedin_post (post_json : pystr) : result pystr :=
  try_except
    (post_dict <-r json_loads post_json ;;
     missing_fields <-r falsy_fields post_dict required_fields ;;
     match missing_fields with
     | _ :: _ =>
         Raise (Exn ValueError
                  (py "Missing required fields: "
                   ++ join (py ", ") missing_fields))
     | [] =>
         title <-r subscript post_dict (py "title") ;;
         content <-r subscript post_dict (py "content") ;;
         let post_parts := [title; PStr [NL; NL]; content] in
         code <-r method_get post_dict (py "code") ;;
         post_parts <-r
           (if truthy code then
              code <-r subscript post_dict (py "code") ;;
              Ok (post_parts
                  ++ [PStr ([NL; NL] ++ py "```c#" ++ [NL]); code;
                      PStr ([NL] ++ py "```")])
            else Ok post_parts) ;;
         question <-r subscript post_dict (py "question") ;;
         hashtags <-r subscript post_dict (py "hashtags") ;;
         tags <-r str_join (py " ") hashtags ;;
         str_join []
           (PList (post_parts
                   ++ [PStr [NL; NL]; question; PStr [NL; NL]; PStr tags]))
     end)
    (Exactly JSONDecodeError)
    (fun e => Raise (invalid_json e)).

(** [generate_post] *)
Definition generate_post (w : world) (self : LinkedInPostGenerator)
    (topic : pystr) (add_ai_disclosure : bool) : M pystr :=
  match topic with
  | [] => raise (Exn ValueError (py "Topic is required"))
  | _ :: _ =>
      let '(technical_writer, content_optimizer) := _create_agents self in
      let prompt := _create_linkedin_prompt topic in
      summary <- initiate_chat w
                   (ChatRequest content_optimizer technical_writer prompt 2
                      (py "last_msg")) ;;
      let cleaned_summary := strip_fences summary in
      cleaned_summary <-
        (if add_ai_disclosure
         then lift (_add_ai_disclosure cleaned_summary)
         else ret cleaned_summary) ;;
      lift (_convert_to_linkedin_post cleaned_summary)
  end.

(** ** [linkedin_service.py] *)

Record LinkedInConfig : Type := MkLinkedInConfig {
  api_url : pystr;
  client_id : pystr;
  client_secret : pystr;
  redirect_uri : pystr
}.

(** [required_vars[k]] *)
Fixpoint var_lookup (k : pystr) (vars : list (pystr * option pystr))
    : option pystr :=
  match vars with
  | [] => None
  | (k', v) :: rest => if pystr_eqb k k' then v else var_lookup k rest
  end.

Definition linkedin_vars (w : world) : list (pystr * option pystr) :=
  [ (py "LINKEDIN_API_URL", getenv w "LINKEDIN_API_URL");
    (py "LINKEDIN_CLIENT_ID", getenv w "LINKEDIN_CLIENT_ID");
    (py "LINKEDIN_CLIENT_SECRET", getenv w "LINKEDIN_CLIENT_SECRET");
    (py "LINKEDIN_REDIRECT_URI", getenv w "LINKEDIN_REDIRECT_URI") ].

(** [[key for key, value in required_vars.items() if not value]] *)
Definition missing_of (vars : list (pystr * option pystr)) : list pystr :=
  map fst (filter (fun kv => negb (is_set (snd kv))) vars).

(** [LinkedInConfig.from_env] *)
Definition LinkedInConfig_from_env (w : world) : result LinkedInConfig :=
  let required_vars := linkedin_vars w in
  let missing_vars := missing_of required_vars in
  match missing_vars with
  | _ :: _ => Raise (Exn ValueError (missing_vars_message missing_vars))
  | [] =>
      Ok (MkLinkedInConfig
            (env_value (var_lookup (py "LINKEDIN_API_URL") required_vars))
            (env_value (var_lookup (py "LINKEDIN_CLIENT_ID") required_vars))
            (env_value
               (var_lookup (py "LINKEDIN_CLIENT_SECRET") required_vars))
            (env_value
               (var_lookup (py "LINKEDIN_REDIRECT_URI") required_vars)))
  end.

(** [f"{v}"] *)
Definition format_value (v : pyval) : pystr :=
  match v with
  | PStr s => s
  | _ => str_of_value v
  end.

(** [item in v] for a string [item]. *)
Definition contains_str (item : pystr) (v : pyval) : result bool :=
  match v with
  | PDict d => Ok (existsb (pystr_eqb item) (dict_keys d))
  | PList l =>
      Ok (existsb (fun x => match x with
                            | PStr s => pystr_eqb item s
                            | _ => false
                            end) l)
  | PStr s => Ok (is_infix item s)
  | _ =>
      Raise (Exn TypeError
               (py "argument of type " ++ quoted (type_name v)
                ++ py " is not iterable"))
  end.

Definition ugc_headers (access_token : pystr) : headers :=
  [ (py "Authorization", py "Bearer " ++ access_token);
    (py "Content-Type", py "application/json");
    (py "X-Restli-Protocol-Version", py "2.0.0") ].

Definition ugc_payload (author_id : pyval) (text : pystr) : pyval :=
  PDict
    [ (py "author", PStr (py "urn:li:person:" ++ format_value author_id));
      (py "lifecycleState", PStr (py "PUBLISHED"));
      (py "specificContent",
       PDict
         [ (py "com.linkedin.ugc.ShareContent",
            PDict [ (py "shareCommentary", PDict [(py "text", PStr text)]);
                    (py "shareMediaCategory", PStr (py "NONE")) ]) ]);
      (py "visibility",
       PDict [ (py "com.linkedin.ugc.MemberNetworkVisibility",
                PStr (py "PUBLIC")) ]) ].

(** [create_linkedin_ugc_post] *)
Definition create_linkedin_ugc_post (w : world) (access_token : pystr)
    (author_id : pyval) (text : pystr) : M pyval :=
  if negb (forallb truthy [PStr access_token; author_id; PStr text]) then
    raise (Exn ValueError
             (py "access_token, author_id, and text are all required"))
  else
    config <- lift (LinkedInConfig_from_env w) ;;
    let headers := ugc_headers access_token in
    let payload := ugc_payload author_id text in
    try_catch
      (response <- requests_send w
                     (PostJson (api_url config ++ py "/v2/ugcPosts")
                        headers payload) ;;
       lift (raise_for_status response) ;;;
       lift (resp_json response))
      (Exactly RequestException)
      (fun e =>
         raise (Exn LinkedInPostError
                  (py "Failed to create UGC post: " ++ exn_str e))).

(** [get_linkedin_access_token] *)
Definition get_linkedin_access_token (w : world) (code : pystr)
    : M pyval :=
  match code with
  | [] => raise (Exn ValueError (py "Authorization code is required"))
  | _ :: _ =>
      config <- lift (LinkedInConfig_from_env w) ;;
      let payload :=
        [ (py "grant_type", py "authorization_code");
          (py "code", code);
          (py "redirect_uri", redirect_uri config);
          (py "client_id", client_id config);
          (py "client_secret", client_secret config) ] in
      try_catch
        (response <- requests_send w
                       (PostForm
                          (api_url config ++ py "/oauth/v2/accessToken")
                          payload) ;;
         lift (raise_for_status response) ;;;
         token_data <- lift (resp_json response) ;;
         present <- lift (contains_str (py "access_token") token_data) ;;
         if negb present then
           raise (Exn LinkedInAuthError
                    (py "Access token not found in response"))
         else lift (subscript token_data (py "access_token")))
        (Exactly RequestException)
        (fun e =>
           raise (Exn LinkedInAuthError
                    (py "Failed to get access token: " ++ exn_str e)))
  end.

(** [linkedin_auth] *)
Definition linkedin_auth (w : world) (code : pystr) : M pyval :=
  access_token <- get_linkedin_access_token w code ;;
  ret (PDict [(py "access_token", access_token)]).

(** [get_linkedin_userinfo] *)
Definition get_linkedin_userinfo (w : world) (access_token : pystr)
    : M pyval :=
  match access_token with
  | [] => raise (Exn ValueError (py "Access token is required"))
  | _ :: _ =>
      config <- lift (LinkedInConfig_from_env w) ;;
      let headers := [(py "Authorization", py "Bearer " ++ access_token)] in
      try_catch
        (response <- requests_send w
                       (Get (api_url config ++ py "/v2/userinfo") headers) ;;
         lift (raise_for_status response) ;;;
         lift (resp_json response))
        (Exactly RequestException)
        (fun e =>
           raise (Exn LinkedInAuthError
                    (py "Failed to fetch userinfo: " ++ exn_str e)))
  end.

(** ** [main.py] *)

(** [authenticate_linkedin] *)
Definition authenticate_linkedin (w : world) (code : pystr) : M pyval :=
  try_catch
    (response <- linkedin_auth w code ;;
     absent <-
       (if negb (truthy response) then ret true
        else present <- lift (contains_str (py "access_token") response) ;;
             ret (negb present)) ;;
     if (absent : bool) then
       raise (Exn LinkedInAuthError
                (py "Failed to get access token from LinkedIn"))
     else ret response)
    Exception
    (fun e =>
       raise (Exn LinkedInAuthError
                (py "LinkedIn authentication failed: " ++ exn_str e))).

(** [fetch_linkedin_userinfo] *)
Definition fetch_linkedin_userinfo (w : world) (access_token : pystr)
    : M pyval :=
  match access_token with
  | [] => raise (Exn ValueError (py "Access token is required"))
  | _ :: _ =>
      try_catch
        (user_info <- get_linkedin_userinfo w access_token ;;
         invalid <-
           (if negb (truthy user_info) then ret true
            else present <- lift (contains_str (py "sub") user_info) ;;
                 ret (negb present)) ;;
         if (invalid : bool) then
           raise (Exn ValueError
                    (py "Invalid user info response from LinkedIn"))
         else ret user_info)
        Exception
        (fun e =>
           raise (Exn ValueError
                    (py "Failed to fetch LinkedIn user info: "
                     ++ exn_str e)))
  end.

(** [post_linkedin_ugc] *)
Definition post_linkedin_ugc (w : world) (access_token : pystr)
    (author_id : pyval) (text : pystr) : M pyval :=
  if negb (forallb truthy [PStr access_token; author_id; PStr text]) then
    raise (Exn ValueError
             (py "Access token, author ID, and text are all required"))
  else
    try_catch
      (post_response <- create_linkedin_ugc_post w access_token author_id
                          text ;;
       ret post_response)
      Exception
      (fun e =>
         raise (Exn ValueError
                  (py "Failed to create LinkedIn post: " ++ exn_str e))).

(** The body of the [try] of [main]. *)
Definition main_body (w : world) : M unit :=
  _ <- lift (LinkedInConfig_from_env w) ;;
  post_generator <- lift (LinkedInPostGenerator_init w) ;;
  let access_token := getenv w "LINKEDIN_ACCESS_TOKEN" in
  if negb (is_set access_token) then
    raise (Exn ValueError
             (py "LINKEDIN_ACCESS_TOKEN environment variable is not set"))
  else
    let access_token := env_value access_token in
    print Stdout [PStr (py "Generating LinkedIn post about C# generics...")] ;;;
    post_content <- generate_post w post_generator (py "C# generics") true ;;
    print Stdout [PStr (py "Generated Post:" ++ [NL]); PStr post_content] ;;;
    print Stdout [PStr (py "Fetching LinkedIn user info...")] ;;;
    user_info <- fetch_linkedin_userinfo w access_token ;;
    if negb (truthy user_info) then
      raise (Exn ValueError (py "Failed to fetch LinkedIn user info"))
    else
      print Stdout [PStr (py "User Info:"); user_info] ;;;
      print Stdout [PStr (py "Creating LinkedIn post...")] ;;;
      author_id <- lift (subscript user_info (py "sub")) ;;
      post_response <- post_linkedin_ugc w access_token author_id
                         post_content ;;
      print Stdout [PStr (py "Post successfully created:"); post_response].

(** How the process ends. *)
Inductive exit : Type :=
| Exit (status : Z)          (* normal end (0) or [sys.exit(status)] *)
| Unhandled (e : exn).       (* a traceback *)

(** The [except] clauses of [main], in their order. *)
Definition main_handlers : list (handler_class * pystr) :=
  [ (Exactly LinkedInAuthError, py "Authentication Error: ");
    (Exactly LinkedInAPIError, py "LinkedIn API Error: ");
    (Exactly ValueError, py "Configuration Error: ");
    (Exception, py "Unexpected Error: ") ].

Fixpoint handle (e : exn) (clauses : list (handler_class * pystr))
    (t : trace) : exit * trace :=
  match clauses with
  | [] => (Unhandled e, t)
  | (h, label) :: rest =>
      if isinstance (exn_cls e) h then
        (Exit 1, t ++ [EvPrint Stderr [PStr (label ++ exn_str e)]])
      else handle e rest t
  end.

(** [main], run from the empty trace. *)
Definition main (w : world) : exit * trace :=
  match main_body w [] with
  | (Ok _, t) => (Exit 0, t)
  | (Raise e, t) => handle e main_handlers t
  end.

End Program.

(** ** [autogen_gemini_service.py]: the function outside the class *)

Section Helper.

Variable json_loads : pystr -> result pyval.
Variable str_of_value : pyval -> pystr.

(** [convert_json_to_linkedInPost]: no [try], no check of the fields; the
    f-string formats title and content, the hashtags are joined before. *)
Definition convert_json_to_linkedInPost (cleaned_summary : pystr)
    : result pystr :=
  summary_dict <-r json_loads cleaned_summary ;;
  post_title <-r subscript summary_dict (py "title") ;;
  post_content <-r subscript summary_dict (py "content") ;;
  hashtags <-r subscript summary_dict (py "hashtags") ;;
  post_hashtags <-r str_join (py " ") hashtags ;;
  let linkedin_post :=
    format_value str_of_value post_title ++ [NL; NL]
    ++ format_value str_of_value post_content ++ [NL; NL]
    ++ post_hashtags in
  Ok linkedin_post.

End Helper.

(** * Notions used by the statements, and example data *)

(** ** Fence stripping *)

(** A run of white space. *)
Definition all_space (w : pystr) : Prop := forallb is_space w = true.










(** ** Rendering *)

(** The structured record of the data model: [code] is optional. *)
Record PostDraft : Type := MkPostDraft {
  title : pystr;
  content : pystr;
  code : option pystr;
  hashtags : list pystr;
  question : pystr
}.

(** The parsed JSON object [d] holds the record [r]; an absent [code] is a
    missing key, [null] or any other value that counts as false. *)
Definition holds_record (d : pydict) (r : PostDraft) : Prop :=
  dict_get (py "title") d = Some (PStr (title r))
  /\ dict_get (py "content") d = Some (PStr (content r))
  /\ dict_get (py "hashtags") d = Some (PList (map PStr (hashtags r)))
  /\ dict_get (py "question") d = Some (PStr (question r))
  /\ match code r with
     | Some c => dict_get (py "code") d = Some (PStr c)
     | None => truthy (get_or_none (py "code") d) = false
     end.

(** The fenced block of a code snippet that is present and non-empty. *)
Definition code_block (c : option pystr) : pystr :=
  match c with
  | Some (x :: xs) => [NL; NL] ++ py "```c#" ++ [NL] ++ (x :: xs) ++ [NL] ++ py "```"
  | _ => []
  end.

(** The rendered post, in the words of the specification. *)
Definition rendered (r : PostDraft) : pystr :=
  title r ++ [NL; NL] ++ content r ++ code_block (code r)
  ++ [NL; NL] ++ question r ++ [NL; NL] ++ join (py " ") (hashtags r).

(** The required fields that [d] lacks, in the order of the source. *)
Definition missing_in (d : pydict) : list pystr :=
  filter (fun field => negb (truthy (get_or_none field d))) required_fields.

(** The message of the validation error. *)
Definition missing_fields_message (missing : list pystr) : pystr :=
  py "Missing required fields: " ++ join (py ", ") missing.

(** ** The [json] module of the examples *)

(** A stand-in for [json.dumps], for the examples: values are printed in
    its layout; strings are printed as they are, which is right for those
    that need no escape. *)
Fixpoint example_dumps (v : pyval) : pystr :=
  match v with
  | PNone => py "null"
  | PBool true => py "true"
  | PBool false => py "false"
  | PInt z => str_of_Z z
  | PFloat _ => py "NaN"
  | PStr s => [DQ] ++ s ++ [DQ]
  | PList l => py "[" ++ join (py ", ") (map example_dumps l) ++ py "]"
  | PDict d =>
      py "{"
      ++ join (py ", ")
           (map (fun kv => [DQ] ++ fst kv ++ [DQ] ++ py ": "
                           ++ example_dumps (snd kv)) d)
      ++ py "}"
  end.

(** A stand-in for [json.loads]: the inverse of the printer on a given list
    of known values; any other text is rejected. *)
Definition example_loads (known : list pyval) (s : pystr) : result pyval :=
  match find (fun v => pystr_eqb (example_dumps v) s) known with
  | Some v => Ok v
  | None =>
      Raise (Exn JSONDecodeError
               (py "Expecting value: line 1 column 1 (char 0)"))
  end.

(** A complete draft, as the writer agent would send it. *)
Definition example_draft : pydict :=
  [ (py "title", PStr (py "Generics in C#"));
    (py "content", PStr (py "Generics give type safety without casts."));
    (py "code", PStr (py "var xs = new List<int>();"));
    (py "hashtags", PList [PStr (py "#csharp"); PStr (py "#dotnet")]);
    (py "question", PStr (py "Where do you use generics?")) ].

(** The record it holds. *)
Definition example_record : PostDraft :=
  MkPostDraft (py "Generics in C#")
    (py "Generics give type safety without casts.")
    (Some (py "var xs = new List<int>();"))
    [py "#csharp"; py "#dotnet"]
    (py "Where do you use generics?").

(** A draft without question and with an empty title. *)
Definition example_incomplete : pydict :=
  [ (py "title", PStr []);
    (py "content", PStr (py "Generics give type safety without casts."));
    (py "hashtags", PList [PStr (py "#csharp")]) ].

(** ** Disclosure injection *)

(** The hashtags a record has before the injection: those of a list, none
    when the key is absent or bound to something that is not a list. *)
Definition old_hashtags (d : pydict) : list pyval :=
  match get_or_none (py "hashtags") d with
  | PList l => l
  | _ => []
  end.

(** The record after one injection, [c] being its content before. *)
Definition injected (c : pystr) (d : pydict) : pydict :=
  dict_set (py "hashtags") (PList (old_hashtags d ++ ai_hashtags))
    (dict_set (py "content") (PStr (c ++ disclosure)) d).

(** The example draft after one injection. *)
Definition example_disclosed : pydict :=
  injected (py "Generics give type safety without casts.") example_draft.

(** The stand-in parser that knows the example draft before and after the
    injection. *)
Definition example_json_loads : pystr -> result pyval :=
  example_loads [PDict example_draft; PDict example_disclosed].

(** ** Prompt and conversation *)

(** The JSON template at the end of the prompt, with its five keys. *)
Definition json_template : pystr :=
  py "{" ++ qq "title" ++ py ": " ++ qq "" ++ py ", "
  ++ qq "content" ++ py ": " ++ qq "" ++ py ", "
  ++ qq "code" ++ py ": " ++ qq "" ++ py ", "
  ++ qq "hashtags" ++ py ": [], "
  ++ qq "question" ++ py ": " ++ qq "" ++ py "}".

(** The conversation [generate_post] starts for a topic. *)
Definition chat_for (self : LinkedInPostGenerator) (topic : pystr)
    : chat_request :=
  ChatRequest (snd (_create_agents self)) (fst (_create_agents self))
    (_create_linkedin_prompt topic) 2 (py "last_msg").

(** ** Configuration *)

(** The variables each configuration requires. *)
Definition linkedin_names : list pystr :=
  [ py "LINKEDIN_API_URL"; py "LINKEDIN_CLIENT_ID";
    py "LINKEDIN_CLIENT_SECRET"; py "LINKEDIN_REDIRECT_URI" ].

Definition gemini_names : list pystr :=
  [ py "GEMINI_API_KEY"; py "GEMINI_MODEL" ].

(** A variable is missing when it is unset or set to the empty string. *)
Definition missing_var (w : world) (name : pystr) : bool :=
  negb (is_set (environ w name)).

(** The missing variables among [names], in their order. *)
Definition missing_among (w : world) (names : list pystr) : list pystr :=
  filter (missing_var w) names.

(** ** Runs of [main] *)

(** The first line [main] prints. *)
Definition generating_line : event :=
  EvPrint Stdout [PStr (py "Generating LinkedIn post about C# generics...")].

(** The start of a run whose configuration is complete. *)
Record ready (w : world) (cfg : LinkedInConfig)
    (gen : LinkedInPostGenerator) (token : pystr) : Prop := Ready {
  ready_linkedin : LinkedInConfig_from_env w = Ok cfg;
  ready_generator : LinkedInPostGenerator_init w = Ok gen;
  ready_token : getenv w "LINKEDIN_ACCESS_TOKEN" = Some token;
  ready_token_set : token <> []
}.

(** [str(e)] of the [HTTPError] of a 4xx or 5xx response. *)
Definition http_error_message (r : response) : pystr :=
  str_of_Z (status_code r)
  ++ (if (status_code r <? 500)%Z
      then py " Client Error: " else py " Server Error: ")
  ++ reason r ++ py " for url: " ++ resp_url r.

(** The request of [create_linkedin_ugc_post]. *)
Definition ugc_request (str_of_value : pyval -> pystr)
    (cfg : LinkedInConfig) (access_token : pystr) (author_id : pyval)
    (text : pystr) : request :=
  PostJson (api_url cfg ++ py "/v2/ugcPosts") (ugc_headers access_token)
    (ugc_payload str_of_value author_id text).

(** What [main] prints between generation and user-info fetch, and between
    the fetch and the publication. *)
Definition generated_lines (post_content : pystr) : list event :=
  [ EvPrint Stdout [PStr (py "Generated Post:" ++ [NL]); PStr post_content];
    EvPrint Stdout [PStr (py "Fetching LinkedIn user info...")] ].

Definition creating_lines (user_info : pyval) : list event :=
  [ EvPrint Stdout [PStr (py "User Info:"); user_info];
    EvPrint Stdout [PStr (py "Creating LinkedIn post...")] ].

(** Two environments that bind the four [LINKEDIN_*] variables alike. *)
Definition same_linkedin_env (e1 e2 : pystr -> option pystr) : Prop :=
  forall name, In name linkedin_names -> e1 name = e2 name.

(** ** Example worlds *)

(** An environment given by its bindings. *)
Fixpoint env_of (vars : list (string * string)) (name : pystr)
    : option pystr :=
  match vars with
  | [] => None
  | (k, v) :: rest =>
      if pystr_eqb name (py k) then Some (py v) else env_of rest name
  end.

Definition complete_vars : list (string * string) :=
  [ ("LINKEDIN_API_URL", "https://api.linkedin.com");
    ("LINKEDIN_CLIENT_ID", "client");
    ("LINKEDIN_CLIENT_SECRET", "secret");
    ("LINKEDIN_REDIRECT_URI", "https://localhost/callback");
    ("GEMINI_API_KEY", "key");
    ("GEMINI_MODEL", "gemini-pro");
    ("LINKEDIN_ACCESS_TOKEN", "token") ]%string.

(** The same without [LINKEDIN_CLIENT_ID]. *)
Definition vars_without_client_id : list (string * string) :=
  [ ("LINKEDIN_API_URL", "https://api.linkedin.com");
    ("LINKEDIN_CLIENT_SECRET", "secret");
    ("LINKEDIN_REDIRECT_URI", "https://localhost/callback");
    ("GEMINI_API_KEY", "key");
    ("GEMINI_MODEL", "gemini-pro");
    ("LINKEDIN_ACCESS_TOKEN", "token") ]%string.

(** The same as [complete_vars] with one more variable, which the program
    does not know. *)
Definition vars_with_extra : list (string * string) :=
  (("EDITOR", "vi") :: complete_vars)%string.

(** A LinkedIn service that knows the user, issues a token and answers a
    publication with the given status and reason. *)
Definition example_http (status : Z) (why : string)
    : trace -> request -> result response :=
  fun _ r =>
    match r with
    | Get url _ =>
        Ok (Response 200 (py "OK") url
              (Ok (PDict [(py "sub", PStr (py "u123"))])))
    | PostForm url _ =>
        Ok (Response 200 (py "OK") url
              (Ok (PDict [(py "access_token", PStr (py "token"))])))
    | PostJson url _ _ =>
        Ok (Response status (py why) url
              (Ok (PDict [(py "status", PInt status)])))
    end.

(** A conversation whose last message is [summary]. *)
Definition example_chat (summary : pystr)
    : trace -> chat_request -> result pystr :=
  fun _ _ => Ok summary.

(** The example draft, wrapped in a JSON fence by the writer agent. *)
Definition fenced_draft : pystr :=
  py "```json" ++ [NL] ++ example_dumps (PDict example_draft) ++ [NL]
  ++ py "```".

(** A run in which the publication is refused with status 403. *)
Definition refused_world : world :=
  World (env_of complete_vars) (example_http 403 "Forbidden")
    (example_chat fenced_draft).

(** A run in which the publication is answered with status 304. *)
Definition not_modified_world : world :=
  World (env_of complete_vars) (example_http 304 "Not Modified")
    (example_chat fenced_draft).

(** The refused run after [LINKEDIN_CLIENT_ID] was removed, and with one
    more variable. *)
Definition refused_world_without_client_id : world :=
  World (env_of vars_without_client_id) (example_http 403 "Forbidden")
    (example_chat fenced_draft).

Definition refused_world_with_extra : world :=
  World (env_of vars_with_extra) (example_http 403 "Forbidden")
    (example_chat fenced_draft).

(** A run in which the writer agent answers with the empty JSON object. *)
Definition empty_object_world : world :=
  World (env_of complete_vars) (example_http 201 "Created")
    (example_chat (py "{}")).

(** The configuration and the generator built from [complete_vars]. *)
Definition example_config : LinkedInConfig :=
  MkLinkedInConfig (py "https://api.linkedin.com") (py "client")
    (py "secret") (py "https://localhost/callback").

Definition example_generator : LinkedInPostGenerator :=
  MkGenerator [ (py "model", py "gemini-pro"); (py "api_key", py "key");
                (py "api_type", py "google") ].

(** The post rendered from the example draft after the injection. *)
Definition example_post : pystr :=
  rendered
    (MkPostDraft (py "Generics in C#")
       (py "Generics give type safety without casts." ++ disclosure)
       (Some (py "var xs = new List<int>();"))
       [py "#csharp"; py "#dotnet"; py "#AIGenerated"; py "#GeminiAI"]
       (py "Where do you use generics?")).

(** [str(e)] of the error that reaches [main] in the refused run. *)
Definition refusal_message : pystr :=
  py "Failed to create LinkedIn post: Failed to create UGC post: 403 Client Error: Forbidden for url: https://api.linkedin.com/v2/ugcPosts".

(** The user record of [example_http]. *)
Definition example_user_info : pyval := PDict [(py "sub", PStr (py "u123"))].

(** The trace of the refused run up to the publication request. *)
Definition trace_before_generated : trace :=
  [ generating_line;
    EvChat (chat_for example_generator (py "C# generics")) ].

Definition trace_before_creating : trace :=
  trace_before_generated ++ generated_lines example_post
  ++ [EvHttp (Get (py "https://api.linkedin.com/v2/userinfo")
                [(py "Authorization", py "Bearer token")])].

Definition trace_before_request : trace :=
  trace_before_creating ++ creating_lines example_user_info.

(** The publication request of the refused run. *)
Definition refused_request : request :=
  ugc_request example_dumps example_config (py "token")
    (PStr (py "u123")) example_post.

(** ** The helper outside the class *)

(** The keys the helper reads, in the order it reads them. *)
Definition helper_keys : list pystr :=
  [py "title"; py "content"; py "hashtags"].

(** The first of these keys that [d] does not have. *)
Definition first_absent (d : pydict) : option pystr :=
  find (fun key => match dict_get key d with
                   | None => true
                   | Some _ => false
                   end) helper_keys.

(** ** Records that pass or fail for their types *)

(** The hashtags of a string, as a join sees them: one per character. *)
Definition letters (s : pystr) : list pystr := map (fun c => [c]) s.

(** The record after the injection. *)
Definition with_disclosure (r : PostDraft) : PostDraft :=
  MkPostDraft (title r) (content r ++ disclosure) (code r)
    (hashtags r ++ [py "#AIGenerated"; py "#GeminiAI"]) (question r).

(** [d] has the key [k]. *)
Definition has_key (k : pystr) (d : pydict) : bool :=
  match dict_get k d with
  | Some _ => true
  | None => false
  end.

(** ** The LinkedIn client *)

(** A response for which [raise_for_status] raises nothing. *)
Definition accepted (r : response) : Prop :=
  (status_code r < 400 \/ 600 <= status_code r)%Z.

(** The request of [get_linkedin_access_token]. *)
Definition token_request (cfg : LinkedInConfig) (code : pystr) : request :=
  PostForm (api_url cfg ++ py "/oauth/v2/accessToken")
    [ (py "grant_type", py "authorization_code");
      (py "code", code);
      (py "redirect_uri", redirect_uri cfg);
      (py "client_id", client_id cfg);
      (py "client_secret", client_secret cfg) ].

(** The request of [get_linkedin_userinfo]. *)
Definition userinfo_request (cfg : LinkedInConfig) (access_token : pystr)
    : request :=
  Get (api_url cfg ++ py "/v2/userinfo")
    [(py "Authorization", py "Bearer " ++ access_token)].

(** The trace [t'] is [t] followed by at most one request. *)
Definition at_most_one_request (t t' : trace) : Prop :=
  t' = t \/ exists r, t' = t ++ [EvHttp r].

(** The classes an [except Exception] does not catch. *)
Definition not_an_exception (e : exn) : Prop :=
  exn_cls e = KeyboardInterrupt.

(** ** The run of [main] *)

(** What [main] finds wrong in the environment before it does anything
    else, in the order it looks: the LinkedIn variables, the generator's
    variables, the access token. *)
Definition configuration_error (w : world) : option pystr :=
  match missing_among w linkedin_names with
  | (_ :: _) as missing => Some (missing_vars_message missing)
  | [] =>
      match missing_among w gemini_names with
      | (_ :: _) as missing => Some (missing_vars_message missing)
      | [] =>
          if is_set (getenv w "LINKEDIN_ACCESS_TOKEN") then None
          else Some (py "LINKEDIN_ACCESS_TOKEN environment variable is not set")
      end
  end.

(** The only line of a run that fails: a label and the text of the error,
    on the error stream. *)
Definition error_line (label : string) (message : pystr) : event :=
  EvPrint Stderr [PStr (py label ++ message)].

(** The last line of a run that succeeds. *)
Definition created_line (post_response : pyval) : event :=
  EvPrint Stdout [PStr (py "Post successfully created:"); post_response].

(** ** Classes of exceptions *)

(** The exceptions the program and the interpreter raise by themselves on
    the way from the last message to the post. *)
Definition interpreter_error (e : exn) : bool :=
  match exn_cls e with
  | ValueError | KeyError | TypeError | AttributeError => true
  | _ => false
  end.

(** The exceptions the first two clauses of the handler of [main] are
    for. *)
Definition linkedin_error (e : exn) : bool :=
  isinstance (exn_cls e) (Exactly LinkedInAPIError).

(** The conversation and the [json] module raise none of the LinkedIn
    errors: these classes are defined by this program. *)
Definition foreign_errors_only (json_loads : pystr -> result pyval)
    (w : world) : Prop :=
  (forall t c e, chat w t c = Raise e -> linkedin_error e = false)
  /\ (forall post_json e,
         json_loads post_json = Raise e -> linkedin_error e = false).

(** ** More example data *)

(** A draft whose hashtags are one string. *)
Definition draft_with_string_hashtags : pydict :=
  [ (py "title", PStr (py "Generics in C#"));
    (py "content", PStr (py "Generics give type safety without casts."));
    (py "hashtags", PStr (py "#go"));
    (py "question", PStr (py "Where do you use generics?")) ].

(** A draft whose title is a number. *)
Definition draft_with_number_title : pydict :=
  [ (py "title", PInt 2024);
    (py "content", PStr (py "Generics give type safety without casts."));
    (py "hashtags", PList [PStr (py "#csharp")]);
    (py "question", PStr (py "Where do you use generics?")) ].

(** A run in which the publication is answered with status 201. *)
Definition published_world : world :=
  World (env_of complete_vars) (example_http 201 "Created")
    (example_chat fenced_draft).

(** The answers of [example_http]. *)
Definition token_response : response :=
  Response 200 (py "OK") (py "https://api.linkedin.com/oauth/v2/accessToken")
    (Ok (PDict [(py "access_token", PStr (py "token"))])).

Definition userinfo_response : response :=
  Response 200 (py "OK") (py "https://api.linkedin.com/v2/userinfo")
    (Ok example_user_info).

Definition created_response : response :=
  Response 201 (py "Created") (py "https://api.linkedin.com/v2/ugcPosts")
    (Ok (PDict [(py "status", PInt 201)])).

(** A run in which the writer agent answers with a sentence. *)
Definition garbled_world : world :=
  World (env_of complete_vars) (example_http 201 "Created")
    (example_chat (py "Sorry, no post today.")).

(** The trace of the published run up to the publication request, and the
    request. *)
Definition published_before_request : trace :=
  trace_before_generated ++ generated_lines example_post
  ++ [EvHttp (userinfo_request example_config (py "token"))]
  ++ creating_lines example_user_info.

Definition published_request : request :=
  ugc_request example_dumps example_config (py "token") (PStr (py "u123"))
    example_post.

(** * Properties *)

(** ** Strings *)

Lemma strip_prefix_app p s : strip_prefix p (p ++ s) = Some s.
Proof.
  induction p as [|a p IH]; simpl; [reflexivity|].
  rewrite N.eqb_refl. exact IH.
Qed.

Lemma strip_prefix_sound p s r : strip_prefix p s = Some r -> s = p ++ r.
Proof.
  revert s; induction p as [|a p IH]; intros s; simpl.
  - intros [= <-]. reflexivity.
  - destruct s as [|b s]; [discriminate|].
    destruct (N.eqb a b) eqn:E; [|discriminate].
    apply N.eqb_eq in E. subst b.
    intros H. rewrite (IH _ H). reflexivity.
Qed.

Lemma is_infix_unfold n h :
  is_infix n h =
  match strip_prefix n h with
  | Some _ => true
  | None => match h with
            | [] => false
            | _ :: h' => is_infix n h'
            end
  end.
Proof. destruct h; reflexivity. Qed.

Lemma is_infix_sound n h : is_infix n h = true -> infix_of n h.
Proof.
  induction h as [|c h IH]; rewrite is_infix_unfold;
    destruct (strip_prefix n _) as [r|] eqn:E.
  - intros _. apply strip_prefix_sound in E. exists [], r. exact E.
  - discriminate.
  - intros _. apply strip_prefix_sound in E. exists [], r. exact E.
  - intros H. destruct (IH H) as (a & b & ->).
    exists (c :: a), b. reflexivity.
Qed.

Lemma is_infix_complete n h : infix_of n h -> is_infix n h = true.
Proof.
  intros (a & b & ->).
  induction a as [|c a IH]; rewrite is_infix_unfold.
  - simpl. rewrite strip_prefix_app. reflexivity.
  - destruct (strip_prefix n _); [reflexivity|]. exact IH.
Qed.

Lemma is_infix_iff n h : is_infix n h = true <-> infix_of n h.
Proof. split; [apply is_infix_sound | apply is_infix_complete]. Qed.

Lemma is_infix_tail n c h : is_infix n (c :: h) = false -> is_infix n h = false.
Proof.
  rewrite (is_infix_unfold n (c :: h)).
  destruct (strip_prefix n (c :: h)); [discriminate|]. trivial.
Qed.

Lemma infix_of_app_l n a h : infix_of n h -> infix_of n (a ++ h).
Proof.
  intros (x & y & ->). exists (a ++ x), y. rewrite app_assoc. reflexivity.
Qed.

(** ** Fence stripping *)

Lemma strip_fences_drop c t rest :
  match_fence (c :: t) = Some rest ->
  strip_fences (c :: t) = strip_fences rest.
Proof.
  intros H. simp strip_fences.
  generalize (inspect (match_fence (c :: t))).
  intros [[r|] E]; [|congruence].
  cbn. f_equal. congruence.
Qed.

Lemma strip_fences_keep c t :
  match_fence (c :: t) = None ->
  strip_fences (c :: t) = c :: strip_fences t.
Proof.
  intros H. simp strip_fences.
  generalize (inspect (match_fence (c :: t))).
  intros [[r|] E]; [congruence|].
  reflexivity.
Qed.

Lemma skip_spaces_split s :
  exists w, all_space w /\ s = w ++ skip_spaces s.
Proof.
  induction s as [|c s (w & Hw & E)].
  - exists []. split; reflexivity.
  - simpl. destruct (is_space c) eqn:Hc.
    + exists (c :: w). split.
      * unfold all_space. simpl. rewrite Hc. exact Hw.
      * simpl. rewrite <- E. reflexivity.
    + exists []. split; reflexivity.
Qed.


Lemma match_fence_sound s rest :
  match_fence s = Some rest ->
  exists w, all_space w
            /\ (s = fence_json ++ w ++ rest \/ s = w ++ fence ++ rest).
Proof.
  rewrite match_fence_eq.
  destruct (strip_prefix fence_json s) as [r|] eqn:E.
  - intros [= <-]. apply strip_prefix_sound in E.
    destruct (skip_spaces_split r) as (w & Hw & Er).
    exists w. split; [exact Hw|]. left. rewrite <- Er. exact E.
  - intros H. apply strip_prefix_sound in H.
    destruct (skip_spaces_split s) as (w & Hw & Es).
    exists w. split; [exact Hw|]. right. rewrite <- H. exact Es.
Qed.

Lemma no_fence_no_match s : is_infix fence s = false -> match_fence s = None.
Proof.
  intros H. destruct (match_fence s) as [rest|] eqn:E; [|reflexivity].
  apply match_fence_sound in E. destruct E as (w & _ & [-> | ->]).
  - rewrite is_infix_complete in H; [discriminate|].
    exists [], (py "json" ++ w ++ rest). reflexivity.
  - rewrite is_infix_complete in H; [discriminate|].
    exists w, rest. reflexivity.
Qed.

Lemma strip_fences_no_fence s : is_infix fence s = false -> strip_fences s = s.
Proof.
  induction s as [|c s IH]; intros H.
  - reflexivity.
  - rewrite strip_fences_keep by (apply no_fence_no_match; exact H).
    rewrite IH; [reflexivity|]. apply is_infix_tail with c. exact H.
Qed.














(** ** Rendering *)

Lemma falsy_fields_dict d fields :
  falsy_fields (PDict d) fields
  = Ok (filter (fun field => negb (truthy (get_or_none field d))) fields).
Proof.
  induction fields as [|f fields IH]; [reflexivity|].
  cbn [falsy_fields method_get rbind filter]. rewrite IH. cbn [rbind].
  destruct (truthy (get_or_none f d)); reflexivity.
Qed.

Lemma expect_strs_strs i l : expect_strs i (map PStr l) = Ok l.
Proof.
  revert i; induction l as [|s l IH]; intros i; [reflexivity|].
  cbn [map expect_strs]. rewrite IH. reflexivity.
Qed.

Lemma str_join_strs sep l : str_join sep (PList (map PStr l)) = Ok (join sep l).
Proof.
  unfold str_join. cbn [iterate]. rewrite expect_strs_strs. reflexivity.
Qed.

Lemma join_nil_sep l : join [] l = concat l.
Proof.
  induction l as [|a l IH]; [reflexivity|].
  destruct l as [|b l].
  - simpl. rewrite app_nil_r. reflexivity.
  - change (join [] (a :: b :: l)) with (a ++ [] ++ join [] (b :: l)).
    rewrite IH. reflexivity.
Qed.

Lemma join_In sep f l : In f l -> infix_of f (join sep l).
Proof.
  induction l as [|a l IH]; [contradiction|].
  intros [-> | H].
  - destruct l as [|b l].
    + exists [], []. simpl. rewrite app_nil_r. reflexivity.
    + exists [], (sep ++ join sep (b :: l)). reflexivity.
  - destruct l as [|b l]; [contradiction|].
    change (join sep (a :: b :: l)) with (a ++ sep ++ join sep (b :: l)).
    apply infix_of_app_l. apply infix_of_app_l. apply IH. exact H.
Qed.

Lemma get_or_none_some k d v : dict_get k d = Some v -> get_or_none k d = v.
Proof. unfold get_or_none. intros ->. reflexivity. Qed.

Lemma truthy_str s : s <> [] -> truthy (PStr s) = true.
Proof. destruct s; [congruence | reflexivity]. Qed.

Lemma truthy_strs l : l <> [] -> truthy (PList (map PStr l)) = true.
Proof. destruct l; [congruence | reflexivity]. Qed.

Section Rendering.

Variable json_loads : pystr -> result pyval.

(** C1: for a record whose title, content, hashtags and question are not
    empty, rendering returns (it does not raise); the result is the title, a
    blank line, the content, the code (if present and not empty) in a block
    fenced with the tag [c#] after a blank line, a blank line, the question,
    a blank line and the hashtags separated by single spaces; so title,
    content and question occur in it in this order. *)
Theorem convert_renders_valid_record post_json d r :
  json_loads post_json = Ok (PDict d) ->
  holds_record d r ->
  title r <> [] -> content r <> [] -> hashtags r <> [] -> question r <> [] ->
  _convert_to_linkedin_post json_loads post_json = Ok (rendered r)
  /\ exists a b c e,
       rendered r = a ++ title r ++ b ++ content r ++ c ++ question r ++ e.
Proof.
  intros Hloads (Ht & Hc & Hh & Hq & Hcode) Nt Nc Nh Nq.
  split.
  - unfold _convert_to_linkedin_post. rewrite Hloads.
    cbn [rbind]. rewrite falsy_fields_dict.
    assert (Hmiss : filter (fun field => negb (truthy (get_or_none field d)))
                      required_fields = []).
    { unfold required_fields. cbn [filter].
      rewrite (get_or_none_some _ _ _ Ht), (get_or_none_some _ _ _ Hc),
        (get_or_none_some _ _ _ Hh), (get_or_none_some _ _ _ Hq).
      rewrite (truthy_str _ Nt), (truthy_str _ Nc), (truthy_strs _ Nh),
        (truthy_str _ Nq). reflexivity. }
    rewrite Hmiss. cbn [rbind subscript method_get].
    rewrite Ht, Hc, Hq, Hh. cbn [rbind].
    rewrite str_join_strs. unfold rendered.
    destruct (code r) as [[|x xs]|].
    + rewrite (get_or_none_some _ _ _ Hcode). cbn [truthy rbind].
      cbn [try_except str_join iterate expect_strs rbind app].
      rewrite join_nil_sep. cbn [concat code_block]. rewrite app_nil_r.
      reflexivity.
    + rewrite (get_or_none_some _ _ _ Hcode). cbn [truthy rbind].
      rewrite Hcode.
      cbn [try_except str_join iterate expect_strs rbind app].
      rewrite join_nil_sep. cbn [concat code_block]. rewrite app_nil_r.
      rewrite <- !app_assoc. reflexivity.
    + rewrite Hcode.
      cbn [try_except str_join iterate expect_strs rbind app].
      rewrite join_nil_sep. cbn [concat code_block]. rewrite app_nil_r.
      reflexivity.
  - unfold rendered.
    exists [], [NL; NL], (code_block (code r) ++ [NL; NL]),
      ([NL; NL] ++ join (py " ") (hashtags r)).
    rewrite <- !app_assoc. reflexivity.
Qed.

(** C2: when at least one of the required fields is absent or counts as
    false, rendering raises a [ValueError] whose message lists every such
    field (all of them, in the order title, content, hashtags, question), so
    each missing field is named in it. *)
Theorem convert_reports_all_missing_fields post_json d :
  json_loads post_json = Ok (PDict d) ->
  missing_in d <> [] ->
  _convert_to_linkedin_post json_loads post_json
  = Raise (Exn ValueError (missing_fields_message (missing_in d)))
  /\ (forall field,
         In field required_fields ->
         truthy (get_or_none field d) = false ->
         In field (missing_in d)
         /\ infix_of field (missing_fields_message (missing_in d)))
  /\ (forall field,
         In field (missing_in d) ->
         In field required_fields /\ truthy (get_or_none field d) = false).
Proof.
  intros Hloads Hne. split; [|split].
  - unfold _convert_to_linkedin_post. rewrite Hloads.
    cbn [rbind]. rewrite falsy_fields_dict.
    fold (missing_in d). destruct (missing_in d) as [|m ms]; [congruence|].
    reflexivity.
  - intros field Hin Hfalse.
    assert (Hm : In field (missing_in d)).
    { apply filter_In. split; [exact Hin|]. rewrite Hfalse. reflexivity. }
    split; [exact Hm|].
    unfold missing_fields_message. apply infix_of_app_l.
    apply join_In. exact Hm.
  - intros field Hin. apply filter_In in Hin. destruct Hin as [Hin Hf].
    split; [exact Hin|]. apply negb_true_iff. exact Hf.
Qed.

End Rendering.

Lemma convert_renders_valid_record_witness :
  _convert_to_linkedin_post (example_loads [PDict example_draft])
    (example_dumps (PDict example_draft))
  = Ok (rendered example_record)
  /\ exists a b c e,
       rendered example_record
       = a ++ title example_record ++ b ++ content example_record ++ c
           ++ question example_record ++ e.
Proof.
  apply (convert_renders_valid_record
           (example_loads [PDict example_draft])
           (example_dumps (PDict example_draft)) example_draft
           example_record).
  - reflexivity.
  - repeat split; reflexivity.
  - discriminate.
  - discriminate.
  - discriminate.
  - discriminate.
Defined.

Lemma convert_reports_all_missing_fields_witness :
  missing_in example_incomplete = [py "title"; py "question"]
  /\ _convert_to_linkedin_post (example_loads [PDict example_incomplete])
       (example_dumps (PDict example_incomplete))
     = Raise (Exn ValueError (py "Missing required fields: title, question")).
Proof.
  split; [reflexivity|].
  apply (convert_reports_all_missing_fields
           (example_loads [PDict example_incomplete])
           (example_dumps (PDict example_incomplete)) example_incomplete).
  - reflexivity.
  - discriminate.
Defined.

(** ** Disclosure injection *)

Lemma dict_get_set_same k v d : dict_get k (dict_set k v d) = Some v.
Proof.
  induction d as [|[k' v'] d IH]; cbn [dict_set dict_get].
  - rewrite pystr_eqb_refl. reflexivity.
  - destruct (pystr_eqb k k') eqn:E; cbn [dict_get]; rewrite E;
      [reflexivity | exact IH].
Qed.

Lemma dict_get_set_other k k' v d :
  k <> k' -> dict_get k (dict_set k' v d) = dict_get k d.
Proof.
  intros Hne. induction d as [|[k0 v0] d IH]; cbn [dict_set dict_get].
  - apply pystr_eqb_neq in Hne. rewrite Hne. reflexivity.
  - destruct (pystr_eqb k' k0) eqn:E; cbn [dict_get].
    + apply pystr_eqb_eq in E. subst k0.
      apply pystr_eqb_neq in Hne. rewrite Hne. reflexivity.
    + destruct (pystr_eqb k k0); [reflexivity | exact IH].
Qed.

Lemma injected_content c d :
  dict_get (py "content") (injected c d) = Some (PStr (c ++ disclosure)).
Proof.
  unfold injected. rewrite dict_get_set_other by discriminate.
  apply dict_get_set_same.
Qed.

Lemma injected_hashtags c d :
  dict_get (py "hashtags") (injected c d)
  = Some (PList (old_hashtags d ++ ai_hashtags)).
Proof. apply dict_get_set_same. Qed.

Lemma injected_other c d k :
  k <> py "content" -> k <> py "hashtags" ->
  dict_get k (injected c d) = dict_get k d.
Proof.
  intros H1 H2. unfold injected.
  rewrite !dict_get_set_other by assumption. reflexivity.
Qed.

Lemma old_hashtags_injected c d :
  old_hashtags (injected c d) = old_hashtags d ++ ai_hashtags.
Proof.
  unfold old_hashtags at 1, get_or_none.
  rewrite injected_hashtags. reflexivity.
Qed.

Section Disclosure.

Variable json_loads : pystr -> result pyval.
Variable json_dumps : pyval -> pystr.

Lemma add_ai_disclosure_dict post_json d c :
  json_loads post_json = Ok (PDict d) ->
  dict_get (py "content") d = Some (PStr c) ->
  _add_ai_disclosure json_loads json_dumps post_json
  = Ok (json_dumps (PDict (injected c d))).
Proof.
  intros Hloads Hc. unfold _add_ai_disclosure. rewrite Hloads.
  cbn [rbind subscript]. rewrite Hc.
  cbn [rbind iadd_str setitem method_get].
  unfold injected, old_hashtags.
  assert (E : get_or_none (py "hashtags")
                (dict_set (py "content") (PStr (c ++ disclosure)) d)
              = get_or_none (py "hashtags") d).
  { unfold get_or_none. rewrite dict_get_set_other by discriminate.
    reflexivity. }
  rewrite E.
  destruct (get_or_none (py "hashtags") d); reflexivity.
Qed.

(** C4: on a record (a JSON object) whose [content] is a string, one
    injection appends the disclosure paragraph once to [content] and the two
    hashtags [#AIGenerated] and [#GeminiAI] to the hashtags, which start
    from the empty sequence when the key is absent or not bound to a list;
    no other field changes.  A second injection, on the text the first
    returned, appends the paragraph and the two hashtags again: the content
    then ends with two paragraphs and there are four more hashtags, so the
    injection is not idempotent. *)
Theorem add_ai_disclosure_appends post_json d c :
  json_loads post_json = Ok (PDict d) ->
  dict_get (py "content") d = Some (PStr c) ->
  let d1 := injected c d in
  let d2 := injected (c ++ disclosure) d1 in
  (_add_ai_disclosure json_loads json_dumps post_json
   = Ok (json_dumps (PDict d1))
   /\ dict_get (py "content") d1 = Some (PStr (c ++ disclosure))
   /\ dict_get (py "hashtags") d1
      = Some (PList (old_hashtags d
                     ++ [PStr (py "#AIGenerated"); PStr (py "#GeminiAI")]))
   /\ ((forall l, get_or_none (py "hashtags") d <> PList l) ->
       dict_get (py "hashtags") d1
       = Some (PList [PStr (py "#AIGenerated"); PStr (py "#GeminiAI")]))
   /\ (forall k, k <> py "content" -> k <> py "hashtags" ->
                 dict_get k d1 = dict_get k d))
  /\ (json_loads (json_dumps (PDict d1)) = Ok (PDict d1) ->
      rbind (_add_ai_disclosure json_loads json_dumps post_json)
        (_add_ai_disclosure json_loads json_dumps)
      = Ok (json_dumps (PDict d2))
      /\ dict_get (py "content") d2
         = Some (PStr (c ++ disclosure ++ disclosure))
      /\ dict_get (py "hashtags") d2
         = Some (PList (old_hashtags d
                        ++ [PStr (py "#AIGenerated"); PStr (py "#GeminiAI");
                            PStr (py "#AIGenerated"); PStr (py "#GeminiAI")]))
      /\ (forall k, k <> py "content" -> k <> py "hashtags" ->
                    dict_get k d2 = dict_get k d)
      /\ dict_get (py "content") d2 <> dict_get (py "content") d1).
Proof.
  intros Hloads Hc d1 d2. split.
  - split; [apply add_ai_disclosure_dict; assumption|].
    split; [apply injected_content|].
    split; [apply injected_hashtags|].
    split.
    + intros Hnot. subst d1. rewrite injected_hashtags.
      unfold old_hashtags.
      destruct (get_or_none (py "hashtags") d) eqn:E; try reflexivity.
      exfalso. apply (Hnot l). reflexivity.
    + intros k H1 H2. apply injected_other; assumption.
  - intros Hround.
    split.
    { rewrite (add_ai_disclosure_dict _ _ _ Hloads Hc). cbn [rbind].
      apply add_ai_disclosure_dict; [exact Hround | apply injected_content]. }
    split.
    { subst d2. rewrite injected_content, <- app_assoc. reflexivity. }
    split.
    { subst d2 d1. rewrite injected_hashtags, old_hashtags_injected.
      rewrite <- app_assoc. reflexivity. }
    split.
    { intros k H1 H2. subst d2 d1. rewrite !injected_other by assumption.
      reflexivity. }
    subst d2 d1. rewrite !injected_content.
    intros [= E]. rewrite <- app_assoc in E.
    apply app_inv_head in E.
    apply (f_equal (@length _)) in E. rewrite length_app in E.
    vm_compute in E. discriminate.
Qed.

(** A JSON object without a [content] key makes the injector raise
    [KeyError('content')]: its handler only wraps [JSONDecodeError]. *)
Lemma add_ai_disclosure_key_error post_json d :
  json_loads post_json = Ok (PDict d) ->
  dict_get (py "content") d = None ->
  _add_ai_disclosure json_loads json_dumps post_json
  = Raise (Exn KeyError (py "'content'")).
Proof.
  intros Hloads Hc. unfold _add_ai_disclosure. rewrite Hloads.
  cbn [rbind subscript]. rewrite Hc. reflexivity.
Qed.

End Disclosure.

Lemma add_ai_disclosure_appends_witness :
  _add_ai_disclosure example_json_loads example_dumps
    (example_dumps (PDict example_draft))
  = Ok (example_dumps (PDict example_disclosed))
  /\ dict_get (py "hashtags") example_disclosed
     = Some (PList [PStr (py "#csharp"); PStr (py "#dotnet");
                    PStr (py "#AIGenerated"); PStr (py "#GeminiAI")])
  /\ rbind (_add_ai_disclosure example_json_loads example_dumps
              (example_dumps (PDict example_draft)))
       (_add_ai_disclosure example_json_loads example_dumps)
     = Ok (example_dumps
             (PDict (injected
                       (py "Generics give type safety without casts."
                        ++ disclosure) example_disclosed))).
Proof.
  destruct (add_ai_disclosure_appends example_json_loads example_dumps
              (example_dumps (PDict example_draft)) example_draft
              (py "Generics give type safety without casts."))
    as [(H1 & _ & H3 & _) H2].
  - reflexivity.
  - reflexivity.
  - split; [exact H1|]. split; [exact H3|].
    apply H2. reflexivity.
Defined.

(** ** The prompt and the empty topic *)

(** C5: the prompt is a function of the topic alone (the text of the source
    with the topic in its hole); for the topic [C# generics] it contains the
    topic, the word-count range [150-200], the fence tag [```c#] and the JSON
    template with the keys title, content, code, hashtags, question in this
    order.  Generation with an empty topic raises [ValueError("Topic is
    required")] before anything is sent to the backend: the trace is left as
    it was.  With a topic, the conversation is started with that prompt. *)
Theorem prompt_of_topic json_loads json_dumps w self disclose t :
  (forall topic,
      _create_linkedin_prompt topic = prompt_head ++ topic ++ prompt_tail)
  /\ (let prompt := _create_linkedin_prompt (py "C# generics") in
      is_infix (py "C# generics") prompt = true
      /\ is_infix (py "150-200") prompt = true
      /\ is_infix (py "```c#") prompt = true
      /\ is_infix json_template prompt = true)
  /\ generate_post json_loads json_dumps w self [] disclose t
     = (Raise (Exn ValueError (py "Topic is required")), t)
  /\ (forall c topic,
         exists r,
           generate_post json_loads json_dumps w self (c :: topic) disclose t
           = (r, t ++ [EvChat (chat_for self (c :: topic))])).
Proof.
  split; [reflexivity|].
  split; [repeat split; vm_compute; reflexivity|].
  split; [reflexivity|].
  intros c topic. unfold generate_post, chat_for.
  cbn [_create_agents fst snd bind initiate_chat].
  destruct (chat w t _) as [summary|e]; [|eexists; reflexivity].
  destruct disclose.
  - unfold lift.
    destruct (_add_ai_disclosure json_loads json_dumps (strip_fences summary));
      eexists; reflexivity.
  - cbn [ret]. eexists; reflexivity.
Qed.

(** ** Input validation before any request *)

(** C7: with the empty access token, the user-info fetch raises
    [ValueError("Access token is required")], in the wrapper of [main.py]
    and in the client operation alike, whatever the environment and the
    collaborators are, and the trace is left as it was: no request is
    sent. *)
Theorem userinfo_rejects_empty_token w t :
  fetch_linkedin_userinfo w [] t
  = (Raise (Exn ValueError (py "Access token is required")), t)
  /\ get_linkedin_userinfo w [] t
     = (Raise (Exn ValueError (py "Access token is required")), t).
Proof. split; reflexivity. Qed.

(** ** Configuration *)

Lemma missing_of_linkedin_vars w :
  missing_of (linkedin_vars w) = missing_among w linkedin_names.
Proof.
  unfold missing_of, linkedin_vars, missing_among, linkedin_names,
    missing_var, getenv.
  cbn [filter map snd fst].
  destruct (is_set (environ w (py "LINKEDIN_API_URL")));
    destruct (is_set (environ w (py "LINKEDIN_CLIENT_ID")));
    destruct (is_set (environ w (py "LINKEDIN_CLIENT_SECRET")));
    destruct (is_set (environ w (py "LINKEDIN_REDIRECT_URI")));
    reflexivity.
Qed.

Lemma missing_among_In w names name :
  In name (missing_among w names)
  <-> In name names /\ is_set (environ w name) = false.
Proof.
  unfold missing_among, missing_var. rewrite filter_In, negb_true_iff.
  reflexivity.
Qed.

Lemma linkedin_message_names w name :
  In name linkedin_names ->
  is_infix name (missing_vars_message (missing_among w linkedin_names))
  = missing_var w name.
Proof.
  unfold missing_among, linkedin_names. cbn [filter].
  intros Hin.
  destruct (missing_var w (py "LINKEDIN_API_URL")) eqn:E1;
    destruct (missing_var w (py "LINKEDIN_CLIENT_ID")) eqn:E2;
    destruct (missing_var w (py "LINKEDIN_CLIENT_SECRET")) eqn:E3;
    destruct (missing_var w (py "LINKEDIN_REDIRECT_URI")) eqn:E4;
    destruct Hin as [<- | [<- | [<- | [<- | []]]]];
    (rewrite E1 || rewrite E2 || rewrite E3 || rewrite E4);
    vm_compute; reflexivity.
Qed.

Lemma gemini_message_names w name :
  In name gemini_names ->
  is_infix name (missing_vars_message (missing_among w gemini_names))
  = missing_var w name.
Proof.
  unfold missing_among, gemini_names. cbn [filter].
  intros Hin.
  destruct (missing_var w (py "GEMINI_API_KEY")) eqn:E1;
    destruct (missing_var w (py "GEMINI_MODEL")) eqn:E2;
    destruct Hin as [<- | [<- | []]];
    (rewrite E1 || rewrite E2);
    vm_compute; reflexivity.
Qed.

(** C8: both configurations look at all their variables at once.  When
    none is missing (unset or empty) the configuration is built from their
    values; otherwise construction raises a [ValueError] whose message is
    the fixed prefix followed by the missing variables, all of them and no
    other: a required name occurs in the message exactly when its variable
    is missing.  With [LINKEDIN_CLIENT_ID] unset the LinkedIn configuration
    fails and names it. *)
Theorem config_names_exactly_missing_variables w :
  (LinkedInConfig_from_env w
   = match missing_among w linkedin_names with
     | [] =>
         Ok (MkLinkedInConfig
               (env_value (getenv w "LINKEDIN_API_URL"))
               (env_value (getenv w "LINKEDIN_CLIENT_ID"))
               (env_value (getenv w "LINKEDIN_CLIENT_SECRET"))
               (env_value (getenv w "LINKEDIN_REDIRECT_URI")))
     | missing => Raise (Exn ValueError (missing_vars_message missing))
     end
   /\ (forall name,
          In name (missing_among w linkedin_names)
          <-> In name linkedin_names /\ is_set (environ w name) = false)
   /\ (forall name,
          In name linkedin_names ->
          is_infix name
            (missing_vars_message (missing_among w linkedin_names))
          = negb (is_set (environ w name)))
   /\ (environ w (py "LINKEDIN_CLIENT_ID") = None ->
       exists missing,
         LinkedInConfig_from_env w
         = Raise (Exn ValueError (missing_vars_message missing))
         /\ In (py "LINKEDIN_CLIENT_ID") missing))
  /\ (GeminiConfig_from_env w
      = match missing_among w gemini_names with
        | [] =>
            Ok (MkGeminiConfig (env_value (getenv w "GEMINI_API_KEY"))
                  (env_value (getenv w "GEMINI_MODEL")))
        | missing => Raise (Exn ValueError (missing_vars_message missing))
        end
      /\ (forall name,
             In name (missing_among w gemini_names)
             <-> In name gemini_names /\ is_set (environ w name) = false)
      /\ (forall name,
             In name gemini_names ->
             is_infix name
               (missing_vars_message (missing_among w gemini_names))
             = negb (is_set (environ w name)))).
Proof.
  assert (HL : LinkedInConfig_from_env w
               = match missing_among w linkedin_names with
                 | [] =>
                     Ok (MkLinkedInConfig
                           (env_value (getenv w "LINKEDIN_API_URL"))
                           (env_value (getenv w "LINKEDIN_CLIENT_ID"))
                           (env_value (getenv w "LINKEDIN_CLIENT_SECRET"))
                           (env_value (getenv w "LINKEDIN_REDIRECT_URI")))
                 | missing =>
                     Raise (Exn ValueError (missing_vars_message missing))
                 end).
  { unfold LinkedInConfig_from_env. cbv zeta.
    rewrite missing_of_linkedin_vars.
    destruct (missing_among w linkedin_names); reflexivity. }
  split; [split; [exact HL | split; [|split]]|split; [|split]].
  - intros name. apply missing_among_In.
  - intros name Hin. apply linkedin_message_names. exact Hin.
  - intros Hunset.
    assert (Hin : In (py "LINKEDIN_CLIENT_ID")
                    (missing_among w linkedin_names)).
    { apply missing_among_In. split.
      - right. left. reflexivity.
      - rewrite Hunset. reflexivity. }
    rewrite HL. destruct (missing_among w linkedin_names) as [|m ms].
    + contradiction.
    + exists (m :: ms). split; [reflexivity | exact Hin].
  - unfold GeminiConfig_from_env, missing_among, gemini_names, missing_var,
      getenv. cbn [filter].
    destruct (is_set (environ w (py "GEMINI_API_KEY")));
      destruct (is_set (environ w (py "GEMINI_MODEL"))); reflexivity.
  - intros name. apply missing_among_In.
  - intros name Hin. apply gemini_message_names. exact Hin.
Qed.

(** ** The top-level handler *)

Section EndToEnd.

Variable json_loads : pystr -> result pyval.
Variable json_dumps : pyval -> pystr.
Variable str_of_value : pyval -> pystr.

Lemma main_body_ready w cfg gen token :
  ready w cfg gen token ->
  main_body json_loads json_dumps str_of_value w []
  = bind (generate_post json_loads json_dumps w gen (py "C# generics") true)
      (fun post_content =>
         print Stdout [PStr (py "Generated Post:" ++ [NL]); PStr post_content] ;;;
         print Stdout [PStr (py "Fetching LinkedIn user info...")] ;;;
         user_info <- fetch_linkedin_userinfo w token ;;
         if negb (truthy user_info) then
           raise (Exn ValueError (py "Failed to fetch LinkedIn user info"))
         else
           print Stdout [PStr (py "User Info:"); user_info] ;;;
           print Stdout [PStr (py "Creating LinkedIn post...")] ;;;
           author_id <- lift (subscript user_info (py "sub")) ;;
           post_response <- post_linkedin_ugc str_of_value w token author_id
                              post_content ;;
           print Stdout [PStr (py "Post successfully created:"); post_response])
      [generating_line].
Proof.
  intros [Hcfg Hgen Htok Hset].
  unfold main_body. unfold bind at 1, lift at 1. rewrite Hcfg.
  unfold bind at 1, lift at 1. rewrite Hgen.
  rewrite Htok.
  destruct token as [|c token]; [congruence|].
  cbn [is_set negb env_value].
  unfold bind at 1. reflexivity.
Qed.

(** C10: a text that parses as a JSON object without a [content] key makes
    the injector raise [KeyError('content')].  The injector only catches
    JSON-decode failures (re-raised as [ValueError]); a [KeyError] is neither
    a [ValueError] nor one of the LinkedIn error classes, so the input leaves
    the documented error kinds: it goes through [generate_post] unchanged
    and, in a run of [main], is caught by the last clause of the top-level
    handler, which prints [Unexpected Error: 'content'] and exits with
    status 1. *)
Theorem missing_content_is_unexpected_error post_json d :
  json_loads post_json = Ok (PDict d) ->
  dict_get (py "content") d = None ->
  _add_ai_disclosure json_loads json_dumps post_json
  = Raise (Exn KeyError (py "'content'"))
  /\ (isinstance KeyError (Exactly ValueError) = false
      /\ isinstance KeyError (Exactly LinkedInAPIError) = false
      /\ isinstance KeyError (Exactly LinkedInAuthError) = false
      /\ isinstance KeyError (Exactly LinkedInPostError) = false)
  /\ (forall s e,
         json_loads s = Raise e ->
         isinstance (exn_cls e) (Exactly JSONDecodeError) = true ->
         _add_ai_disclosure json_loads json_dumps s
         = Raise (Exn ValueError (py "Invalid JSON format: " ++ exn_str e)))
  /\ (forall w gen topic t summary,
         topic <> [] ->
         chat w t (chat_for gen topic) = Ok summary ->
         strip_fences summary = post_json ->
         generate_post json_loads json_dumps w gen topic true t
         = (Raise (Exn KeyError (py "'content'")),
            t ++ [EvChat (chat_for gen topic)]))
  /\ (forall w cfg gen token summary,
         ready w cfg gen token ->
         chat w [generating_line] (chat_for gen (py "C# generics"))
         = Ok summary ->
         strip_fences summary = post_json ->
         main json_loads json_dumps str_of_value w
         = (Exit 1,
            [ generating_line;
              EvChat (chat_for gen (py "C# generics"));
              EvPrint Stderr [PStr (py "Unexpected Error: 'content'")] ])).
Proof.
  intros Hloads Hc.
  pose proof (add_ai_disclosure_key_error json_loads json_dumps _ _
                Hloads Hc) as Hkey.
  assert (Hgen : forall w gen topic t summary,
             topic <> [] ->
             chat w t (chat_for gen topic) = Ok summary ->
             strip_fences summary = post_json ->
             generate_post json_loads json_dumps w gen topic true t
             = (Raise (Exn KeyError (py "'content'")),
                t ++ [EvChat (chat_for gen topic)])).
  { intros w gen topic t summary Hne Hchat Hstrip.
    destruct topic as [|c topic]; [congruence|].
    unfold generate_post, chat_for in *.
    cbn [_create_agents fst snd] in *.
    unfold bind at 1, initiate_chat. rewrite Hchat.
    unfold bind at 1, lift at 1. rewrite Hstrip, Hkey. reflexivity. }
  split; [exact Hkey|].
  split; [repeat split; reflexivity|].
  split.
  { intros s e Hs He. unfold _add_ai_disclosure. rewrite Hs.
    cbn [rbind try_except]. rewrite He. reflexivity. }
  split; [exact Hgen|].
  intros w cfg gen token summary Hready Hchat Hstrip.
  unfold main. rewrite (main_body_ready _ _ _ _ Hready).
  unfold bind at 1.
  assert (Hne : py "C# generics" <> []) by discriminate.
  rewrite (Hgen _ _ _ _ _ Hne Hchat Hstrip).
  reflexivity.
Qed.

(** ** A failed publication *)

Lemma raise_for_status_error r :
  (400 <= status_code r < 600)%Z ->
  raise_for_status r = Raise (Exn HTTPError (http_error_message r)).
Proof.
  intros [Hlo Hhi]. unfold raise_for_status, http_error_message.
  destruct (status_code r <? 500)%Z eqn:E.
  - replace (400 <=? status_code r)%Z with true
      by (symmetry; apply Z.leb_le; exact Hlo).
    reflexivity.
  - replace (400 <=? status_code r)%Z with true
      by (symmetry; apply Z.leb_le; exact Hlo).
    cbn [andb].
    replace (500 <=? status_code r)%Z with true
      by (symmetry; apply Z.leb_le; apply Z.ltb_ge; exact E).
    replace (status_code r <? 600)%Z with true
      by (symmetry; apply Z.ltb_lt; exact Hhi).
    reflexivity.
Qed.

Lemma all_required_given token author_id text :
  token <> [] -> truthy author_id = true -> text <> [] ->
  forallb truthy [PStr token; author_id; PStr text] = true.
Proof.
  intros Ht Ha Hx. cbn [forallb].
  rewrite (truthy_str _ Ht), Ha, (truthy_str _ Hx). reflexivity.
Qed.

Lemma create_ugc_post_http_error w cfg token author_id text t resp :
  LinkedInConfig_from_env w = Ok cfg ->
  token <> [] -> truthy author_id = true -> text <> [] ->
  http w t (ugc_request str_of_value cfg token author_id text) = Ok resp ->
  (400 <= status_code resp < 600)%Z ->
  create_linkedin_ugc_post str_of_value w token author_id text t
  = (Raise (Exn LinkedInPostError
              (py "Failed to create UGC post: " ++ http_error_message resp)),
     t ++ [EvHttp (ugc_request str_of_value cfg token author_id text)]).
Proof.
  intros Hcfg Ht Ha Hx Hhttp Hstatus.
  unfold create_linkedin_ugc_post.
  rewrite (all_required_given _ _ _ Ht Ha Hx). cbn [negb].
  unfold bind at 1, lift at 1. rewrite Hcfg.
  unfold try_catch, bind at 1, requests_send.
  fold (ugc_request str_of_value cfg token author_id text). rewrite Hhttp.
  unfold bind at 1, lift at 1.
  rewrite (raise_for_status_error _ Hstatus). reflexivity.
Qed.

Lemma post_ugc_http_error w cfg token author_id text t resp :
  LinkedInConfig_from_env w = Ok cfg ->
  token <> [] -> truthy author_id = true -> text <> [] ->
  http w t (ugc_request str_of_value cfg token author_id text) = Ok resp ->
  (400 <= status_code resp < 600)%Z ->
  post_linkedin_ugc str_of_value w token author_id text t
  = (Raise (Exn ValueError
              (py "Failed to create LinkedIn post: "
               ++ py "Failed to create UGC post: "
               ++ http_error_message resp)),
     t ++ [EvHttp (ugc_request str_of_value cfg token author_id text)]).
Proof.
  intros Hcfg Ht Ha Hx Hhttp Hstatus.
  unfold post_linkedin_ugc.
  rewrite (all_required_given _ _ _ Ht Ha Hx). cbn [negb].
  unfold try_catch, bind at 1.
  rewrite (create_ugc_post_http_error _ _ _ _ _ _ _ Hcfg Ht Ha Hx Hhttp
             Hstatus).
  reflexivity.
Qed.

(** What [fetch_linkedin_userinfo] returns counts as true. *)
Lemma fetch_userinfo_truthy w token t user_info t' :
  fetch_linkedin_userinfo w token t = (Ok user_info, t') ->
  truthy user_info = true.
Proof.
  unfold fetch_linkedin_userinfo. destruct token as [|c token].
  - discriminate.
  - unfold try_catch, bind at 1.
    destruct (get_linkedin_userinfo w (c :: token) t) as [[u|e] t1].
    + destruct (truthy u) eqn:Hu.
      * cbn [negb]. unfold bind at 1, lift at 1.
        destruct (contains_str (py "sub") u) as [present|e].
        -- unfold bind, ret, raise. destruct present; cbn; intros H;
             [injection H as <- _; exact Hu | discriminate H].
        -- unfold bind, raise. cbv beta iota.
           destruct (isinstance (exn_cls e) Exception); discriminate.
      * cbn [negb]. unfold bind, ret, raise. cbn. discriminate.
    + unfold raise.
      destruct (isinstance (exn_cls e) Exception); discriminate.
Qed.

(** C6 (amended): when the request of the UGC post is answered with a 4xx
    or 5xx status, [create_linkedin_ugc_post] catches the [HTTPError] and
    raises [LinkedInPostError], whose message holds the status code and the
    reason of the response; the wrapper [post_linkedin_ugc] of [main.py]
    catches that error in turn and raises a [ValueError] with the same text
    inside; [main], which called the wrapper, catches the [ValueError],
    prints it on the error stream and exits with status 1: nothing is left
    unhandled. *)
Theorem ugc_http_error_surfaces_as_value_error
    w cfg token author_id text t resp :
  LinkedInConfig_from_env w = Ok cfg ->
  token <> [] -> truthy author_id = true -> text <> [] ->
  http w t (ugc_request str_of_value cfg token author_id text) = Ok resp ->
  (400 <= status_code resp < 600)%Z ->
  let at_origin := py "Failed to create UGC post: " ++ http_error_message resp in
  let at_wrapper := py "Failed to create LinkedIn post: " ++ at_origin in
  let sent := t ++ [EvHttp (ugc_request str_of_value cfg token author_id text)] in
  create_linkedin_ugc_post str_of_value w token author_id text t
  = (Raise (Exn LinkedInPostError at_origin), sent)
  /\ infix_of (str_of_Z (status_code resp)) at_origin
  /\ infix_of (reason resp) at_origin
  /\ post_linkedin_ugc str_of_value w token author_id text t
     = (Raise (Exn ValueError at_wrapper), sent)
  /\ infix_of at_origin at_wrapper
  /\ (forall gen t1 t2 user_info,
         ready w cfg gen token ->
         generate_post json_loads json_dumps w gen (py "C# generics") true
           [generating_line]
         = (Ok text, t1) ->
         fetch_linkedin_userinfo w token (t1 ++ generated_lines text)
         = (Ok user_info, t2) ->
         subscript user_info (py "sub") = Ok author_id ->
         t = t2 ++ creating_lines user_info ->
         main json_loads json_dumps str_of_value w
         = (Exit 1,
            sent ++ [EvPrint Stderr
                       [PStr (py "Configuration Error: " ++ at_wrapper)]])).
Proof.
  intros Hcfg Ht Ha Hx Hhttp Hstatus at_origin at_wrapper sent.
  split; [apply create_ugc_post_http_error; assumption|].
  split.
  { exists (py "Failed to create UGC post: "),
      ((if (status_code resp <? 500)%Z
        then py " Client Error: " else py " Server Error: ")
       ++ reason resp ++ py " for url: " ++ resp_url resp).
    reflexivity. }
  split.
  { exists (py "Failed to create UGC post: " ++ str_of_Z (status_code resp)
            ++ (if (status_code resp <? 500)%Z
                then py " Client Error: " else py " Server Error: ")),
      (py " for url: " ++ resp_url resp).
    subst at_origin. unfold http_error_message.
    rewrite <- !app_assoc. reflexivity. }
  split; [apply post_ugc_http_error; assumption|].
  split.
  { exists (py "Failed to create LinkedIn post: "), [].
    rewrite app_nil_r. reflexivity. }
  intros gen t1 t2 user_info Hready Hgen Hfetch Hsub Htrace.
  pose proof (fetch_userinfo_truthy _ _ _ _ _ Hfetch) as Htruthy.
  unfold main. rewrite (main_body_ready _ _ _ _ Hready).
  unfold bind at 1. rewrite Hgen.
  unfold bind at 1, print at 1, emit at 1.
  unfold bind at 1, print at 1, emit at 1.
  unfold bind at 1.
  replace ((t1 ++ [EvPrint Stdout
                    [PStr (py "Generated Post:" ++ [NL]); PStr text]])
           ++ [EvPrint Stdout [PStr (py "Fetching LinkedIn user info...")]])
    with (t1 ++ generated_lines text)
    by (unfold generated_lines; rewrite <- app_assoc; reflexivity).
  rewrite Hfetch. rewrite Htruthy. cbn [negb].
  unfold bind at 1, print at 1, emit at 1.
  unfold bind at 1, print at 1, emit at 1.
  unfold bind at 1, lift at 1. rewrite Hsub.
  unfold bind at 1.
  replace ((t2 ++ [EvPrint Stdout [PStr (py "User Info:"); user_info]])
           ++ [EvPrint Stdout [PStr (py "Creating LinkedIn post...")]])
    with t
    by (subst t; unfold creating_lines; rewrite <- app_assoc; reflexivity).
  rewrite (post_ugc_http_error _ _ _ _ _ _ _ Hcfg Ht Ha Hx Hhttp Hstatus).
  reflexivity.
Qed.

End EndToEnd.

(** ** The environment is read at every call *)

Lemma from_env_same_linkedin_env e1 e2 h c :
  same_linkedin_env e1 e2 ->
  LinkedInConfig_from_env (World e1 h c)
  = LinkedInConfig_from_env (World e2 h c).
Proof.
  intros Hsame.
  assert (E : linkedin_vars (World e1 h c) = linkedin_vars (World e2 h c)).
  { unfold linkedin_vars, getenv. cbn [environ].
    rewrite !(Hsame _) by (unfold linkedin_names; simpl; tauto).
    reflexivity. }
  unfold LinkedInConfig_from_env. rewrite E. reflexivity.
Qed.

Lemma from_env_missing w :
  missing_among w linkedin_names <> [] ->
  LinkedInConfig_from_env w
  = Raise (Exn ValueError
             (missing_vars_message (missing_among w linkedin_names))).
Proof.
  intros Hne. unfold LinkedInConfig_from_env. cbv zeta.
  rewrite missing_of_linkedin_vars.
  destruct (missing_among w linkedin_names); [congruence | reflexivity].
Qed.

(** C9 (amended): every LinkedIn client operation builds its configuration
    from the environment during the call, after the check of its arguments:
    with arguments that pass the check and a [LINKEDIN_*] variable missing
    at that time, the operation raises the configuration error and sends no
    request.  Two runs with the same arguments, trace and collaborators
    behave identically when the environments at call time agree on the four
    [LINKEDIN_*] variables; no other variable is read. *)
Theorem operations_read_environment_at_call str_of_value e1 e2 h c :
  same_linkedin_env e1 e2 ->
  (forall code t,
      get_linkedin_access_token (World e1 h c) code t
      = get_linkedin_access_token (World e2 h c) code t)
  /\ (forall access_token t,
         get_linkedin_userinfo (World e1 h c) access_token t
         = get_linkedin_userinfo (World e2 h c) access_token t)
  /\ (forall access_token author_id text t,
         create_linkedin_ugc_post str_of_value (World e1 h c) access_token
           author_id text t
         = create_linkedin_ugc_post str_of_value (World e2 h c) access_token
             author_id text t)
  /\ (forall w t,
         missing_among w linkedin_names <> [] ->
         let failure :=
           Exn ValueError
             (missing_vars_message (missing_among w linkedin_names)) in
         (forall code,
             code <> [] ->
             get_linkedin_access_token w code t = (Raise failure, t))
         /\ (forall access_token,
                access_token <> [] ->
                get_linkedin_userinfo w access_token t = (Raise failure, t))
         /\ (forall access_token author_id text,
                access_token <> [] -> truthy author_id = true ->
                text <> [] ->
                create_linkedin_ugc_post str_of_value w access_token
                  author_id text t
                = (Raise failure, t))).
Proof.
  intros Hsame.
  pose proof (from_env_same_linkedin_env e1 e2 h c Hsame) as E.
  split; [|split; [|split]].
  - intros [|x code] t; [reflexivity|].
    unfold get_linkedin_access_token. unfold bind at 1 3, lift.
    rewrite E. reflexivity.
  - intros [|x token] t; [reflexivity|].
    unfold get_linkedin_userinfo. unfold bind at 1 3, lift.
    rewrite E. reflexivity.
  - intros token author_id text t.
    unfold create_linkedin_ugc_post.
    destruct (negb (forallb truthy [PStr token; author_id; PStr text]));
      [reflexivity|].
    unfold bind at 1 3, lift. rewrite E. reflexivity.
  - intros w t Hmiss failure. pose proof (from_env_missing w Hmiss) as F.
    split; [|split].
    + intros [|x code] Hne; [congruence|].
      unfold get_linkedin_access_token. unfold bind at 1, lift.
      rewrite F. reflexivity.
    + intros [|x token] Hne; [congruence|].
      unfold get_linkedin_userinfo. unfold bind at 1, lift.
      rewrite F. reflexivity.
    + intros token author_id text Ht Ha Hx.
      unfold create_linkedin_ugc_post.
      rewrite (all_required_given _ _ _ Ht Ha Hx). cbn [negb].
      unfold bind at 1, lift. rewrite F. reflexivity.
Qed.

(** ** Example runs *)

(** C6, as stated, fails: in the run refused with status 403, the error
    that reaches [main] from the wrapper is a [ValueError], not the
    [LinkedInPostError] of the client; the failure was caught and wrapped
    twice on its way (two prefixes before the text of the HTTP error), and
    the handler of [main] that fires is the one for [ValueError], which
    prints a line starting with [Configuration Error].  A 304 answer, which
    is not a 2xx one, raises nothing at all: the client returns the body. *)
Lemma refused_post_reaches_main_as_value_error :
  post_linkedin_ugc example_dumps refused_world (py "token")
    (PStr (py "u123")) example_post []
  = (Raise (Exn ValueError refusal_message),
     [EvHttp (ugc_request example_dumps example_config (py "token")
                (PStr (py "u123")) example_post)])
  /\ isinstance ValueError (Exactly LinkedInPostError) = false
  /\ isinstance ValueError (Exactly LinkedInAPIError) = false
  /\ fst (main example_json_loads example_dumps example_dumps refused_world)
     = Exit 1
  /\ last (snd (main example_json_loads example_dumps example_dumps
                  refused_world)) generating_line
     = EvPrint Stderr [PStr (py "Configuration Error: " ++ refusal_message)]
  /\ fst (create_linkedin_ugc_post example_dumps not_modified_world
            (py "token") (PStr (py "u123")) example_post [])
     = Ok (PDict [(py "status", PInt 304)]).
Proof. vm_compute. repeat split. Qed.

Lemma ready_refused_world :
  ready refused_world example_config example_generator (py "token").
Proof. split; [reflexivity | reflexivity | reflexivity | discriminate]. Qed.

Lemma ugc_http_error_surfaces_as_value_error_witness :
  create_linkedin_ugc_post example_dumps refused_world (py "token")
    (PStr (py "u123")) example_post trace_before_request
  = (Raise (Exn LinkedInPostError
              (py "Failed to create UGC post: 403 Client Error: Forbidden for url: https://api.linkedin.com/v2/ugcPosts")),
     trace_before_request ++ [EvHttp refused_request])
  /\ main example_json_loads example_dumps example_dumps refused_world
     = (Exit 1,
        (trace_before_request ++ [EvHttp refused_request])
        ++ [EvPrint Stderr
              [PStr (py "Configuration Error: " ++ refusal_message)]]).
Proof.
  destruct (ugc_http_error_surfaces_as_value_error
              example_json_loads example_dumps example_dumps
              refused_world example_config (py "token") (PStr (py "u123"))
              example_post trace_before_request
              (Response 403 (py "Forbidden")
                 (py "https://api.linkedin.com/v2/ugcPosts")
                 (Ok (PDict [(py "status", PInt 403)]))))
    as (Hcreate & _ & _ & _ & _ & Hmain).
  - reflexivity.
  - discriminate.
  - reflexivity.
  - discriminate.
  - reflexivity.
  - cbn [status_code]. lia.
  - split; [exact Hcreate|].
    apply (Hmain example_generator trace_before_generated
             trace_before_creating example_user_info).
    + exact ready_refused_world.
    + vm_compute. reflexivity.
    + vm_compute. reflexivity.
    + reflexivity.
    + reflexivity.
Defined.

(** C9, as stated, fails: the configuration was built from the complete
    environment, and the collaborators are the same in both runs; the run
    of the user-info fetch under the complete environment sends its request
    and returns, the run after [LINKEDIN_CLIENT_ID] was removed reads the
    environment again, raises the configuration error and sends nothing. *)
Lemma removed_variable_changes_the_call :
  LinkedInConfig_from_env refused_world = Ok example_config
  /\ http refused_world = http refused_world_without_client_id
  /\ chat refused_world = chat refused_world_without_client_id
  /\ get_linkedin_userinfo refused_world (py "token") []
     = (Ok example_user_info,
        [EvHttp (Get (py "https://api.linkedin.com/v2/userinfo")
                   [(py "Authorization", py "Bearer token")])])
  /\ get_linkedin_userinfo refused_world_without_client_id (py "token") []
     = (Raise (Exn ValueError
                 (py "Missing required environment variables: LINKEDIN_CLIENT_ID")),
        []).
Proof. repeat split. Qed.

Lemma operations_read_environment_at_call_witness :
  (env_of complete_vars (py "EDITOR") = None
   /\ env_of vars_with_extra (py "EDITOR") = Some (py "vi"))
  /\ get_linkedin_userinfo refused_world (py "token") []
     = get_linkedin_userinfo refused_world_with_extra (py "token") []
  /\ get_linkedin_userinfo refused_world_without_client_id (py "token") []
     = (Raise (Exn ValueError
                 (missing_vars_message [py "LINKEDIN_CLIENT_ID"])), []).
Proof.
  destruct (operations_read_environment_at_call example_dumps
              (env_of complete_vars) (env_of vars_with_extra)
              (example_http 403 "Forbidden") (example_chat fenced_draft))
    as (_ & Huser & _ & Hmissing).
  - intros name [<- | [<- | [<- | [<- | []]]]]; reflexivity.
  - split; [split; reflexivity|].
    split; [apply Huser|].
    apply (Hmissing refused_world_without_client_id []);
      discriminate.
Defined.

Lemma config_names_exactly_missing_variables_witness :
  LinkedInConfig_from_env refused_world_without_client_id
  = Raise (Exn ValueError
             (py "Missing required environment variables: LINKEDIN_CLIENT_ID"))
  /\ is_infix (py "LINKEDIN_CLIENT_SECRET")
       (py "Missing required environment variables: LINKEDIN_CLIENT_ID")
     = false.
Proof.
  destruct (config_names_exactly_missing_variables
              refused_world_without_client_id)
    as [(Hfail & _ & Hnames & _) _].
  split; [exact Hfail|].
  apply (Hnames (py "LINKEDIN_CLIENT_SECRET")).
  right. right. left. reflexivity.
Defined.

Lemma missing_content_is_unexpected_error_witness :
  _add_ai_disclosure (example_loads [PDict []]) example_dumps (py "{}")
  = Raise (Exn KeyError (py "'content'"))
  /\ main (example_loads [PDict []]) example_dumps example_dumps
       empty_object_world
     = (Exit 1,
        [ generating_line;
          EvChat (chat_for example_generator (py "C# generics"));
          EvPrint Stderr [PStr (py "Unexpected Error: 'content'")] ]).
Proof.
  destruct (missing_content_is_unexpected_error
              (example_loads [PDict []]) example_dumps example_dumps
              (py "{}") [])
    as (Hkey & _ & _ & _ & Hmain).
  - reflexivity.
  - reflexivity.
  - split; [exact Hkey|].
    apply (Hmain empty_object_world example_config example_generator
             (py "token") (py "{}")).
    + split; [reflexivity | reflexivity | reflexivity | discriminate].
    + reflexivity.
    + reflexivity.
Defined.

(** * Further properties of the code *)

(** ** Fence stripping: when it changes the text *)

Lemma strip_fences_length s : length (strip_fences s) <= length s.
Proof.
  assert (H : forall n s, length s < n ->
                          length (strip_fences s) <= length s).
  { induction n as [|n IH]; intros t Hn; [lia|].
    destruct t as [|c t].
    - rewrite strip_fences_equation_1. simpl. lia.
    - destruct (match_fence (c :: t)) as [rest|] eqn:E.
      + rewrite (strip_fences_drop _ _ _ E).
        pose proof (match_fence_shorter _ _ E) as Hlt.
        assert (Hr : length rest < n) by lia.
        pose proof (IH rest Hr). lia.
      + rewrite (strip_fences_keep _ _ E).
        assert (Ht : length t < n) by (simpl in Hn; lia).
        pose proof (IH t Ht). simpl. lia. }
  apply (H (S (length s))). lia.
Qed.

Lemma fence_prefix_matches s r :
  strip_prefix fence s = Some r -> match_fence s <> None.
Proof.
  intros H. rewrite match_fence_eq.
  destruct (strip_prefix fence_json s); [discriminate|].
  apply strip_prefix_sound in H. subst s.
  change (fence ++ r) with (BQ :: [BQ; BQ] ++ r).
  cbn [skip_spaces]. change (is_space BQ) with false. cbv iota.
  change (BQ :: [BQ; BQ] ++ r) with (fence ++ r).
  rewrite strip_prefix_app. discriminate.
Qed.

Lemma strip_fences_shrinks s :
  is_infix fence s = true -> length (strip_fences s) < length s.
Proof.
  induction s as [|c t IH]; intros H.
  - discriminate.
  - destruct (match_fence (c :: t)) as [rest|] eqn:E.
    + rewrite (strip_fences_drop _ _ _ E).
      pose proof (match_fence_shorter _ _ E).
      pose proof (strip_fences_length rest). lia.
    + rewrite (strip_fences_keep _ _ E).
      rewrite is_infix_unfold in H.
      destruct (strip_prefix fence (c :: t)) as [r|] eqn:P.
      * exfalso. apply (fence_prefix_matches _ _ P). exact E.
      * apply IH in H. simpl. lia.
Qed.

(** X1: fence stripping never makes the text longer, and it gives the text
    back unchanged exactly when the text has no three backticks in a row:
    any such run, wherever it is, makes the result shorter. *)
Theorem strip_fences_identity_iff s :
  length (strip_fences s) <= length s
  /\ (strip_fences s = s <-> is_infix fence s = false)
  /\ (is_infix fence s = true -> length (strip_fences s) < length s).
Proof.
  split; [apply strip_fences_length|].
  split; [|apply strip_fences_shrinks].
  split.
  - intros E. destruct (is_infix fence s) eqn:H; [|reflexivity].
    apply strip_fences_shrinks in H. rewrite E in H. lia.
  - apply strip_fences_no_fence.
Qed.

(** ** The helper [convert_json_to_linkedInPost] *)

Section HelperFacts.

Variable json_loads : pystr -> result pyval.
Variable str_of_value : pyval -> pystr.

(** X2: on a JSON object that holds a record, the helper returns title,
    blank line, content, blank line and the hashtags separated by spaces,
    whether or not the fields are empty; this is the text of the renderer
    with the code block, the blank line and the question cut out. *)
Theorem helper_leaves_out_question_and_code cleaned_summary d r :
  json_loads cleaned_summary = Ok (PDict d) ->
  holds_record d r ->
  exists before after,
    convert_json_to_linkedInPost json_loads str_of_value cleaned_summary
    = Ok (before ++ after)
    /\ before = title r ++ [NL; NL] ++ content r
    /\ after = [NL; NL] ++ join (py " ") (hashtags r)
    /\ rendered r
       = before ++ (code_block (code r) ++ [NL; NL] ++ question r) ++ after.
Proof.
  intros Hloads (Ht & Hc & Hh & _ & _).
  exists (title r ++ [NL; NL] ++ content r),
    ([NL; NL] ++ join (py " ") (hashtags r)).
  split; [|split; [reflexivity|split; [reflexivity|]]].
  - unfold convert_json_to_linkedInPost. rewrite Hloads.
    cbn [rbind subscript]. rewrite Ht, Hc, Hh. cbn [rbind].
    rewrite str_join_strs. cbn [rbind format_value].
    rewrite <- !app_assoc. reflexivity.
  - unfold rendered. rewrite <- !app_assoc. reflexivity.
Qed.

(** X3: the helper neither validates nor wraps.  An exception of
    [json.loads], a decode error included, leaves it as it is, where the
    renderer turns a decode error into a [ValueError]; when one of the keys
    [title], [content], [hashtags] is absent, the helper raises a [KeyError]
    naming the first absent one, where the renderer raises the [ValueError]
    that lists the missing fields, this one among them. *)
Theorem helper_does_not_validate s :
  (forall e,
      json_loads s = Raise e ->
      convert_json_to_linkedInPost json_loads str_of_value s = Raise e
      /\ (exn_cls e = JSONDecodeError ->
          _convert_to_linkedin_post json_loads s = Raise (invalid_json e)))
  /\ (forall d key,
         json_loads s = Ok (PDict d) ->
         first_absent d = Some key ->
         convert_json_to_linkedInPost json_loads str_of_value s
         = Raise (Exn KeyError (quoted key))
         /\ _convert_to_linkedin_post json_loads s
            = Raise (Exn ValueError (missing_fields_message (missing_in d)))
         /\ In key (missing_in d)).
Proof.
  split.
  - intros e H. split.
    + unfold convert_json_to_linkedInPost. rewrite H. reflexivity.
    + intros Hcls. unfold _convert_to_linkedin_post. rewrite H.
      cbn [rbind try_except]. rewrite Hcls. reflexivity.
  - intros d key Hloads Hfirst.
    assert (Hnone : dict_get key d = None /\ In key helper_keys).
    { unfold first_absent in Hfirst. apply find_some in Hfirst.
      destruct Hfirst as [Hin Hk].
      destruct (dict_get key d); [discriminate | tauto]. }
    destruct Hnone as [Hnone Hin].
    assert (Hmiss : In key (missing_in d)).
    { apply filter_In. split.
      - unfold required_fields.
        destruct Hin as [<- | [<- | [<- | []]]]; simpl; tauto.
      - unfold get_or_none. rewrite Hnone. reflexivity. }
    split; [|split; [|exact Hmiss]].
    + unfold convert_json_to_linkedInPost. rewrite Hloads.
      cbn [rbind subscript].
      unfold first_absent, helper_keys in Hfirst. cbn [find] in Hfirst.
      destruct (dict_get (py "title") d);
        [|injection Hfirst as <-; reflexivity].
      destruct (dict_get (py "content") d);
        [|injection Hfirst as <-; reflexivity].
      destruct (dict_get (py "hashtags") d);
        [discriminate | injection Hfirst as <-; reflexivity].
    + unfold _convert_to_linkedin_post. rewrite Hloads.
      cbn [rbind]. rewrite falsy_fields_dict. fold (missing_in d).
      destruct (missing_in d); [contradiction | reflexivity].
Qed.

End HelperFacts.

(** ** Rendering and injection at the edges *)

Lemma expect_strs_chars i s : expect_strs i (chars_of s) = Ok (letters s).
Proof.
  revert i; induction s as [|c s IH]; intros i; [reflexivity|].
  cbn [chars_of map expect_strs]. fold (chars_of s). rewrite IH.
  reflexivity.
Qed.

Lemma holds_record_injected d r :
  holds_record d r ->
  holds_record (injected (content r) d) (with_disclosure r).
Proof.
  intros (Ht & Hc & Hh & Hq & Hcode).
  unfold holds_record, with_disclosure.
  cbn [title content hashtags question code].
  split; [rewrite injected_other by discriminate; exact Ht|].
  split; [apply injected_content|].
  split.
  { rewrite injected_hashtags. unfold old_hashtags.
    rewrite (get_or_none_some _ _ _ Hh), map_app. reflexivity. }
  split; [rewrite injected_other by discriminate; exact Hq|].
  destruct (code r).
  - rewrite injected_other by discriminate. exact Hcode.
  - unfold get_or_none in *. rewrite injected_other by discriminate.
    exact Hcode.
Qed.

Lemma dict_keys_set k v d :
  dict_keys (dict_set k v d)
  = dict_keys d ++ (if has_key k d then [] else [k]).
Proof.
  unfold has_key, dict_keys.
  induction d as [|[k' v'] d IH]; cbn [dict_set dict_get map fst app].
  - reflexivity.
  - destruct (pystr_eqb k k') eqn:E; cbn [map fst].
    + rewrite app_nil_r. reflexivity.
    + rewrite IH. reflexivity.
Qed.

Section Edges.

Variable json_loads : pystr -> result pyval.
Variable json_dumps : pyval -> pystr.
Variable str_of_value : pyval -> pystr.

Lemma main_when_generation_fails w cfg gen token e t1 :
  ready w cfg gen token ->
  generate_post json_loads json_dumps w gen (py "C# generics") true
    [generating_line]
  = (Raise e, t1) ->
  main json_loads json_dumps str_of_value w = handle e main_handlers t1.
Proof.
  intros Hready Hgen. unfold main.
  rewrite (main_body_ready _ _ _ _ _ _ _ Hready).
  unfold bind at 1. rewrite Hgen. reflexivity.
Qed.

Lemma generate_post_steps w gen topic disclose t summary :
  topic <> [] ->
  chat w t (chat_for gen topic) = Ok summary ->
  generate_post json_loads json_dumps w gen topic disclose t
  = ((if disclose
      then rbind (_add_ai_disclosure json_loads json_dumps
                    (strip_fences summary))
             (_convert_to_linkedin_post json_loads)
      else _convert_to_linkedin_post json_loads (strip_fences summary)),
     t ++ [EvChat (chat_for gen topic)]).
Proof.
  intros Hne Hchat. destruct topic as [|c topic]; [congruence|].
  unfold generate_post, chat_for in *. cbn [_create_agents fst snd] in *.
  unfold bind at 1, initiate_chat. rewrite Hchat.
  destruct disclose.
  - unfold bind, lift.
    destruct (_add_ai_disclosure json_loads json_dumps
                (strip_fences summary)); reflexivity.
  - unfold bind, ret, lift. reflexivity.
Qed.

(** X4: a text that parses as JSON but not as an object (a list, a string,
    a number, [null]) is not rejected as a format error.  The renderer
    raises the [AttributeError] of the missing [get] method and the injector
    the [TypeError] of the failed subscript; neither is caught before the
    top-level handler, so a run of [main] on such an answer of the writer
    prints [Unexpected Error] and exits with status 1. *)
Theorem non_object_json_is_unexpected post_json v :
  json_loads post_json = Ok v ->
  (forall d, v <> PDict d) ->
  _convert_to_linkedin_post json_loads post_json
  = Raise (Exn AttributeError
             (quoted (type_name v) ++ py " object has no attribute 'get'"))
  /\ exists message,
       _add_ai_disclosure json_loads json_dumps post_json
       = Raise (Exn TypeError message)
       /\ subscript v (py "content") = Raise (Exn TypeError message)
       /\ forall w cfg gen token summary,
            ready w cfg gen token ->
            chat w [generating_line] (chat_for gen (py "C# generics"))
            = Ok summary ->
            strip_fences summary = post_json ->
            main json_loads json_dumps str_of_value w
            = (Exit 1,
               [ generating_line;
                 EvChat (chat_for gen (py "C# generics"));
                 EvPrint Stderr
                   [PStr (py "Unexpected Error: " ++ message)] ]).
Proof.
  intros Hloads Hv.
  assert (Hsub : exists message,
             subscript v (py "content") = Raise (Exn TypeError message)).
  { destruct v; try (eexists; reflexivity). exfalso. apply (Hv d).
    reflexivity. }
  destruct Hsub as [message Hsub].
  assert (Hinj : _add_ai_disclosure json_loads json_dumps post_json
                 = Raise (Exn TypeError message)).
  { unfold _add_ai_disclosure. rewrite Hloads. cbn [rbind].
    rewrite Hsub. reflexivity. }
  split.
  - unfold _convert_to_linkedin_post. rewrite Hloads.
    cbn [rbind required_fields falsy_fields].
    destruct v; try reflexivity. exfalso. apply (Hv d). reflexivity.
  - exists message. split; [exact Hinj|]. split; [exact Hsub|].
    intros w cfg gen token summary Hready Hchat Hstrip.
    assert (Hne : py "C# generics" <> []) by discriminate.
    rewrite (main_when_generation_fails w cfg gen token
               (Exn TypeError message)
               ([generating_line]
                ++ [EvChat (chat_for gen (py "C# generics"))]) Hready).
    + reflexivity.
    + rewrite (generate_post_steps _ _ _ _ _ _ Hne Hchat).
      rewrite Hstrip, Hinj. reflexivity.
Qed.

(** X5: the renderer tests the required fields for truth, not for their
    type.  When [hashtags] is a non-empty string instead of a list, the
    record passes and the string is spelled out: its characters are joined
    with spaces at the end of the post. *)
Theorem string_hashtags_are_spelled_out post_json d t c q h :
  json_loads post_json = Ok (PDict d) ->
  dict_get (py "title") d = Some (PStr t) -> t <> [] ->
  dict_get (py "content") d = Some (PStr c) -> c <> [] ->
  dict_get (py "question") d = Some (PStr q) -> q <> [] ->
  dict_get (py "hashtags") d = Some (PStr h) -> h <> [] ->
  truthy (get_or_none (py "code") d) = false ->
  _convert_to_linkedin_post json_loads post_json
  = Ok (t ++ [NL; NL] ++ c ++ [NL; NL] ++ q ++ [NL; NL]
        ++ join (py " ") (letters h)).
Proof.
  intros Hloads Ht Nt Hc Nc Hq Nq Hh Nh Hcode.
  unfold _convert_to_linkedin_post. rewrite Hloads.
  cbn [rbind]. rewrite falsy_fields_dict.
  assert (Hmiss : filter (fun field => negb (truthy (get_or_none field d)))
                    required_fields = []).
  { unfold required_fields. cbn [filter].
    rewrite (get_or_none_some _ _ _ Ht), (get_or_none_some _ _ _ Hc),
      (get_or_none_some _ _ _ Hh), (get_or_none_some _ _ _ Hq).
    rewrite !truthy_str by assumption. reflexivity. }
  rewrite Hmiss. cbn [rbind subscript method_get].
  rewrite Ht, Hc, Hq, Hh, Hcode. cbn [rbind].
  unfold str_join at 1. cbn [iterate]. rewrite expect_strs_chars.
  cbn [try_except str_join iterate expect_strs rbind app].
  rewrite join_nil_sep. cbn [concat]. rewrite app_nil_r.
  reflexivity.
Qed.

(** X6: a title that counts as true without being a string (a number, a
    list, [true]) passes the check of the required fields and then breaks
    the final join: the renderer raises a [TypeError] about item 0 instead
    of a validation error. *)
Theorem non_string_title_is_type_error post_json d v c q tags :
  json_loads post_json = Ok (PDict d) ->
  dict_get (py "title") d = Some v ->
  truthy v = true -> (forall s, v <> PStr s) ->
  dict_get (py "content") d = Some (PStr c) -> c <> [] ->
  dict_get (py "question") d = Some (PStr q) -> q <> [] ->
  dict_get (py "hashtags") d = Some (PList (map PStr tags)) -> tags <> [] ->
  truthy (get_or_none (py "code") d) = false ->
  _convert_to_linkedin_post json_loads post_json
  = Raise (Exn TypeError
             (py "sequence item 0: expected str instance, " ++ type_name v
              ++ py " found")).
Proof.
  intros Hloads Ht Tv Nv Hc Nc Hq Nq Hh Nh Hcode.
  unfold _convert_to_linkedin_post. rewrite Hloads.
  cbn [rbind]. rewrite falsy_fields_dict.
  assert (Hmiss : filter (fun field => negb (truthy (get_or_none field d)))
                    required_fields = []).
  { unfold required_fields. cbn [filter].
    rewrite (get_or_none_some _ _ _ Ht), (get_or_none_some _ _ _ Hc),
      (get_or_none_some _ _ _ Hh), (get_or_none_some _ _ _ Hq).
    rewrite Tv, (truthy_str _ Nc), (truthy_strs _ Nh), (truthy_str _ Nq).
    reflexivity. }
  rewrite Hmiss. cbn [rbind subscript method_get].
  rewrite Ht, Hc, Hq, Hh, Hcode. cbn [rbind].
  rewrite str_join_strs. cbn [rbind app].
  unfold str_join. cbn [iterate].
  destruct v; try reflexivity. exfalso. apply (Nv s). reflexivity.
Qed.

End Edges.

(** ** Generation as a whole *)

Section Generation.

Variable json_loads : pystr -> result pyval.
Variable json_dumps : pyval -> pystr.

Lemma convert_valid_record post_json d r :
  json_loads post_json = Ok (PDict d) ->
  holds_record d r ->
  title r <> [] -> content r <> [] -> hashtags r <> [] -> question r <> [] ->
  _convert_to_linkedin_post json_loads post_json = Ok (rendered r).
Proof.
  intros Hloads (Ht & Hc & Hh & Hq & Hcode) Nt Nc Nh Nq.
  unfold _convert_to_linkedin_post. rewrite Hloads.
  cbn [rbind]. rewrite falsy_fields_dict.
  assert (Hmiss : filter (fun field => negb (truthy (get_or_none field d)))
                    required_fields = []).
  { unfold required_fields. cbn [filter].
    rewrite (get_or_none_some _ _ _ Ht), (get_or_none_some _ _ _ Hc),
      (get_or_none_some _ _ _ Hh), (get_or_none_some _ _ _ Hq).
    rewrite (truthy_str _ Nt), (truthy_str _ Nc), (truthy_strs _ Nh),
      (truthy_str _ Nq). reflexivity. }
  rewrite Hmiss. cbn [rbind subscript method_get].
  rewrite Ht, Hc, Hq, Hh. cbn [rbind].
  rewrite str_join_strs. unfold rendered.
  destruct (code r) as [[|x xs]|].
  - rewrite (get_or_none_some _ _ _ Hcode). cbn [truthy rbind].
    cbn [try_except str_join iterate expect_strs rbind app].
    rewrite join_nil_sep. cbn [concat code_block]. rewrite app_nil_r.
    reflexivity.
  - rewrite (get_or_none_some _ _ _ Hcode). cbn [truthy rbind].
    rewrite Hcode.
    cbn [try_except str_join iterate expect_strs rbind app].
    rewrite join_nil_sep. cbn [concat code_block]. rewrite app_nil_r.
    rewrite <- !app_assoc. reflexivity.
  - rewrite Hcode.
    cbn [try_except str_join iterate expect_strs rbind app].
    rewrite join_nil_sep. cbn [concat code_block]. rewrite app_nil_r.
    reflexivity.
Qed.

(** X7: generation does not retry and does not parse after a failure.  When
    the conversation raises, [generate_post] raises the same exception after
    that single call; when the last message, once stripped, is not JSON,
    the decode error becomes [ValueError("Invalid JSON format: ...")] with
    or without disclosure. *)
Theorem generation_failures_propagate w gen topic disclose t :
  topic <> [] ->
  (forall e,
      chat w t (chat_for gen topic) = Raise e ->
      generate_post json_loads json_dumps w gen topic disclose t
      = (Raise e, t ++ [EvChat (chat_for gen topic)]))
  /\ (forall summary e,
         chat w t (chat_for gen topic) = Ok summary ->
         json_loads (strip_fences summary) = Raise e ->
         exn_cls e = JSONDecodeError ->
         generate_post json_loads json_dumps w gen topic disclose t
         = (Raise (Exn ValueError (py "Invalid JSON format: " ++ exn_str e)),
            t ++ [EvChat (chat_for gen topic)])).
Proof.
  intros Hne. split.
  - intros e Hchat. destruct topic as [|c topic]; [congruence|].
    unfold generate_post, chat_for in *. cbn [_create_agents fst snd] in *.
    unfold bind at 1, initiate_chat. rewrite Hchat. reflexivity.
  - intros summary e Hchat Hloads Hcls.
    rewrite (generate_post_steps _ _ _ _ _ _ _ _ Hne Hchat).
    unfold _add_ai_disclosure, _convert_to_linkedin_post.
    rewrite Hloads. cbn [rbind try_except]. rewrite Hcls.
    destruct disclose; reflexivity.
Qed.

(** X8: generation with disclosure on a fenced record.  When the last
    message, once stripped, parses as an object that holds a record with a
    title and a question, and the text the injector returns parses back to
    the object it printed, [generate_post] returns the post rendered from
    the record with the disclosure at the end of its content and the two
    hashtags at the end of its hashtags; the content and the hashtags of
    the draft may even be empty. *)
Theorem generate_post_with_disclosure w gen topic t summary d r :
  topic <> [] ->
  chat w t (chat_for gen topic) = Ok summary ->
  json_loads (strip_fences summary) = Ok (PDict d) ->
  holds_record d r ->
  title r <> [] -> question r <> [] ->
  json_loads (json_dumps (PDict (injected (content r) d)))
  = Ok (PDict (injected (content r) d)) ->
  generate_post json_loads json_dumps w gen topic true t
  = (Ok (rendered (with_disclosure r)), t ++ [EvChat (chat_for gen topic)])
  /\ infix_of disclosure (rendered (with_disclosure r))
  /\ exists before,
       rendered (with_disclosure r)
       = before ++ py "#AIGenerated #GeminiAI".
Proof.
  intros Hne Hchat Hloads Hrec Nt Nq Hround.
  assert (Hc : dict_get (py "content") d = Some (PStr (content r)))
    by (destruct Hrec as (_ & Hc & _); exact Hc).
  split; [|split].
  - rewrite (generate_post_steps _ _ _ _ _ _ _ _ Hne Hchat).
    rewrite (add_ai_disclosure_dict _ _ _ _ _ Hloads Hc). cbn [rbind].
    rewrite (convert_valid_record _ _ _ Hround
               (holds_record_injected _ _ Hrec)).
    + reflexivity.
    + exact Nt.
    + cbn [with_disclosure content]. unfold disclosure.
      destruct (content r); discriminate.
    + cbn [with_disclosure hashtags]. destruct (hashtags r); discriminate.
    + exact Nq.
  - unfold rendered. cbn [with_disclosure title content].
    exists (title r ++ [NL; NL] ++ content r),
      (code_block (code (with_disclosure r)) ++ [NL; NL]
       ++ question (with_disclosure r) ++ [NL; NL]
       ++ join (py " ") (hashtags (with_disclosure r))).
    rewrite <- !app_assoc. reflexivity.
  - unfold rendered. cbn [with_disclosure title content code question
                            hashtags].
    assert (J : forall l,
               exists b, join (py " ") (l ++ [py "#AIGenerated"; py "#GeminiAI"])
                         = b ++ py "#AIGenerated #GeminiAI").
    { induction l as [|a l [b IH]].
      - exists []. reflexivity.
      - destruct l as [|a' l].
        + exists (a ++ py " "). cbn [app join].
          rewrite <- app_assoc. reflexivity.
        + exists (a ++ py " " ++ b).
          change ((a :: a' :: l) ++ [py "#AIGenerated"; py "#GeminiAI"])
            with (a :: (a' :: l) ++ [py "#AIGenerated"; py "#GeminiAI"]).
          change (join (py " ")
                    (a :: (a' :: l) ++ [py "#AIGenerated"; py "#GeminiAI"]))
            with (a ++ py " "
                  ++ join (py " ")
                       ((a' :: l) ++ [py "#AIGenerated"; py "#GeminiAI"])).
          rewrite IH, <- !app_assoc. reflexivity. }
    destruct (J (hashtags r)) as [b Hb]. rewrite Hb.
    eexists. rewrite !app_assoc. reflexivity.
Qed.

Lemma missing_after_injection c d field :
  In field (missing_in (injected c d)) ->
  (field = py "title" \/ field = py "question") /\ In field (missing_in d).
Proof.
  assert (Hc : truthy (get_or_none (py "content") (injected c d)) = true).
  { unfold get_or_none. rewrite injected_content.
    unfold disclosure. destruct c; reflexivity. }
  assert (Hh : truthy (get_or_none (py "hashtags") (injected c d)) = true).
  { unfold get_or_none. rewrite injected_hashtags.
    destruct (old_hashtags d); reflexivity. }
  intros H. apply filter_In in H. destruct H as [Hin Hf].
  unfold required_fields in Hin.
  destruct Hin as [<- | [<- | [<- | [<- | []]]]].
  - split; [left; reflexivity|]. apply filter_In.
    split; [simpl; tauto|]. unfold get_or_none in *.
    rewrite injected_other in Hf by discriminate. exact Hf.
  - rewrite Hc in Hf. discriminate.
  - rewrite Hh in Hf. discriminate.
  - split; [right; reflexivity|]. apply filter_In.
    split; [simpl; tauto|]. unfold get_or_none in *.
    rewrite injected_other in Hf by discriminate. exact Hf.
Qed.

(** X9: the injection hides an empty content and empty hashtags from the
    validation that follows it.  When the injector ran on an object whose
    content is a string and the renderer then reports missing fields, the
    fields it lists are among [title] and [question] and were missing before
    the injection; [content] and [hashtags] are never listed, whatever they
    were, because the appended disclosure and hashtags make both count as
    true. *)
Theorem injection_hides_empty_content post_json d c :
  json_loads post_json = Ok (PDict d) ->
  dict_get (py "content") d = Some (PStr c) ->
  json_loads (json_dumps (PDict (injected c d))) = Ok (PDict (injected c d)) ->
  let missing := missing_in (injected c d) in
  (missing <> [] ->
   rbind (_add_ai_disclosure json_loads json_dumps post_json)
     (_convert_to_linkedin_post json_loads)
   = Raise (Exn ValueError (missing_fields_message missing)))
  /\ ~ In (py "content") missing
  /\ ~ In (py "hashtags") missing
  /\ (forall field,
         In field missing ->
         (field = py "title" \/ field = py "question")
         /\ In field (missing_in d)).
Proof.
  intros Hloads Hc Hround missing.
  split; [|split; [|split]].
  - intros Hne.
    rewrite (add_ai_disclosure_dict _ _ _ _ _ Hloads Hc). cbn [rbind].
    unfold _convert_to_linkedin_post. rewrite Hround.
    cbn [rbind]. rewrite falsy_fields_dict.
    fold (missing_in (injected c d)). fold missing.
    destruct missing; [congruence | reflexivity].
  - intros H. apply missing_after_injection in H.
    destruct H as [[H | H] _]; discriminate.
  - intros H. apply missing_after_injection in H.
    destruct H as [[H | H] _]; discriminate.
  - intros field. apply missing_after_injection.
Qed.

(** X10: the injector keeps the keys of the record in their order.  On an
    object whose content is a string it returns the text of an object with
    the same keys in the same order, followed by [hashtags] when the record
    had no such key. *)
Theorem injection_keeps_key_order post_json d c :
  json_loads post_json = Ok (PDict d) ->
  dict_get (py "content") d = Some (PStr c) ->
  exists d1,
    _add_ai_disclosure json_loads json_dumps post_json
    = Ok (json_dumps (PDict d1))
    /\ dict_keys d1
       = dict_keys d
         ++ (if has_key (py "hashtags") d then [] else [py "hashtags"]).
Proof.
  intros Hloads Hc. exists (injected c d).
  split; [apply add_ai_disclosure_dict; assumption|].
  unfold injected. rewrite !dict_keys_set.
  assert (E1 : has_key (py "content") d = true)
    by (unfold has_key; rewrite Hc; reflexivity).
  assert (E2 : has_key (py "hashtags")
                 (dict_set (py "content") (PStr (c ++ disclosure)) d)
               = has_key (py "hashtags") d)
    by (unfold has_key; rewrite dict_get_set_other by discriminate;
        reflexivity).
  rewrite E1, E2, app_nil_r. reflexivity.
Qed.

End Generation.

(** ** The LinkedIn client and its wrappers *)

Lemma raise_for_status_accepted r : accepted r -> raise_for_status r = Ok tt.
Proof.
  intros [H | H]; unfold raise_for_status.
  - replace (status_code r <? 500)%Z with true
      by (symmetry; apply Z.ltb_lt; lia).
    replace (400 <=? status_code r)%Z with false
      by (symmetry; apply Z.leb_gt; lia).
    cbn [andb].
    replace (status_code r <? 600)%Z with true
      by (symmetry; apply Z.ltb_lt; lia).
    replace (500 <=? status_code r)%Z with false
      by (symmetry; apply Z.leb_gt; lia).
    reflexivity.
  - replace (status_code r <? 500)%Z with false
      by (symmetry; apply Z.ltb_ge; lia).
    rewrite andb_false_r.
    replace (status_code r <? 600)%Z with false
      by (symmetry; apply Z.ltb_ge; lia).
    rewrite andb_false_r. reflexivity.
Qed.

Lemma contains_key k d v :
  dict_get k d = Some v -> contains_str k (PDict d) = Ok true.
Proof.
  intros H. cbn [contains_str]. f_equal. unfold dict_keys.
  induction d as [|[k' v'] d IH]; [discriminate|].
  cbn [dict_get] in H. cbn [map fst existsb].
  destruct (pystr_eqb k k'); [reflexivity|]. apply IH. exact H.
Qed.

Lemma contains_no_key k d :
  dict_get k d = None -> contains_str k (PDict d) = Ok false.
Proof.
  intros H. cbn [contains_str]. f_equal. unfold dict_keys.
  induction d as [|[k' v'] d IH]; [reflexivity|].
  cbn [dict_get] in H. cbn [map fst existsb].
  destruct (pystr_eqb k k'); [discriminate|]. apply IH. exact H.
Qed.

Lemma truthy_with_key k d v : dict_get k d = Some v -> truthy (PDict d) = true.
Proof. destruct d; [discriminate | reflexivity]. Qed.

Lemma outside_exception c :
  isinstance c Exception = false -> c = KeyboardInterrupt.
Proof. destruct c; cbn; intros H; congruence. Qed.

Lemma token_exchange_ok w cfg code t resp d token :
  code <> [] ->
  LinkedInConfig_from_env w = Ok cfg ->
  http w t (token_request cfg code) = Ok resp ->
  accepted resp ->
  resp_json resp = Ok (PDict d) ->
  dict_get (py "access_token") d = Some token ->
  get_linkedin_access_token w code t
  = (Ok token, t ++ [EvHttp (token_request cfg code)]).
Proof.
  intros Hne Hcfg Hhttp Hacc Hjson Hkey.
  destruct code as [|c code]; [congruence|].
  unfold get_linkedin_access_token.
  unfold bind at 1, lift at 1. rewrite Hcfg.
  unfold try_catch, bind at 1, requests_send.
  fold (token_request cfg (c :: code)). rewrite Hhttp.
  unfold bind at 1, lift at 1. rewrite (raise_for_status_accepted _ Hacc).
  unfold bind at 1, lift at 1. rewrite Hjson.
  unfold bind at 1, lift at 1. rewrite (contains_key _ _ _ Hkey).
  cbn [negb]. unfold lift. cbn [subscript]. rewrite Hkey. reflexivity.
Qed.

(** X11: the token exchange on its good path.  With a code, a complete
    configuration, and an answer that is no 4xx or 5xx and whose JSON object
    has the key [access_token], the client returns the value of that key
    after one form-encoded request built from the code and the
    configuration; [linkedin_auth] and [authenticate_linkedin] return it in
    a one-key dictionary. *)
Theorem token_exchange_returns_token w cfg code t resp d token :
  code <> [] ->
  LinkedInConfig_from_env w = Ok cfg ->
  http w t (token_request cfg code) = Ok resp ->
  accepted resp ->
  resp_json resp = Ok (PDict d) ->
  dict_get (py "access_token") d = Some token ->
  let sent := t ++ [EvHttp (token_request cfg code)] in
  get_linkedin_access_token w code t = (Ok token, sent)
  /\ linkedin_auth w code t
     = (Ok (PDict [(py "access_token", token)]), sent)
  /\ authenticate_linkedin w code t
     = (Ok (PDict [(py "access_token", token)]), sent).
Proof.
  intros Hne Hcfg Hhttp Hacc Hjson Hkey sent.
  pose proof (token_exchange_ok _ _ _ _ _ _ _ Hne Hcfg Hhttp Hacc Hjson
                Hkey) as E.
  assert (L : linkedin_auth w code t
              = (Ok (PDict [(py "access_token", token)]), sent)).
  { unfold linkedin_auth, bind. rewrite E. reflexivity. }
  split; [exact E|]. split; [exact L|].
  unfold authenticate_linkedin, try_catch. unfold bind at 1. rewrite L.
  reflexivity.
Qed.

(** X12: how the token exchange fails, for a code and a complete
    configuration.  A 4xx or 5xx answer, and an exception of the request
    that is a [RequestException], become a [LinkedInAuthError] that starts
    with [Failed to get access token: ]; a JSON object without the key
    [access_token] is the [LinkedInAuthError] [Access token not found in
    response]; a JSON body that is a number or [null] is a [TypeError],
    which the client lets through and [authenticate_linkedin] wraps.  In
    each case exactly one request was sent. *)
Theorem token_exchange_failures w cfg code t :
  code <> [] ->
  LinkedInConfig_from_env w = Ok cfg ->
  let sent := t ++ [EvHttp (token_request cfg code)] in
  (forall resp,
      http w t (token_request cfg code) = Ok resp ->
      (400 <= status_code resp < 600)%Z ->
      get_linkedin_access_token w code t
      = (Raise (Exn LinkedInAuthError
                  (py "Failed to get access token: "
                   ++ http_error_message resp)), sent))
  /\ (forall e,
         http w t (token_request cfg code) = Raise e ->
         isinstance (exn_cls e) (Exactly RequestException) = true ->
         get_linkedin_access_token w code t
         = (Raise (Exn LinkedInAuthError
                     (py "Failed to get access token: " ++ exn_str e)),
            sent))
  /\ (forall resp d,
         http w t (token_request cfg code) = Ok resp ->
         accepted resp ->
         resp_json resp = Ok (PDict d) ->
         dict_get (py "access_token") d = None ->
         get_linkedin_access_token w code t
         = (Raise (Exn LinkedInAuthError
                     (py "Access token not found in response")), sent))
  /\ (forall resp v,
         http w t (token_request cfg code) = Ok resp ->
         accepted resp ->
         resp_json resp = Ok v ->
         iterate v = None ->
         let e := Exn TypeError
                    (py "argument of type " ++ quoted (type_name v)
                     ++ py " is not iterable") in
         get_linkedin_access_token w code t = (Raise e, sent)
         /\ authenticate_linkedin w code t
            = (Raise (Exn LinkedInAuthError
                        (py "LinkedIn authentication failed: " ++ exn_str e)),
               sent)).
Proof.
  intros Hne Hcfg sent.
  destruct code as [|c code]; [congruence|].
  assert (Start : forall r,
             http w t (token_request cfg (c :: code)) = r ->
             get_linkedin_access_token w (c :: code) t
             = try_catch
                 (fun t0 =>
                    match r with
                    | Ok response =>
                        (lift (raise_for_status response) ;;;
                         token_data <- lift (resp_json response) ;;
                         present <- lift (contains_str (py "access_token")
                                            token_data) ;;
                         if negb present then
                           raise (Exn LinkedInAuthError
                                    (py "Access token not found in response"))
                         else lift (subscript token_data (py "access_token")))
                          sent
                    | Raise e => (Raise e, sent)
                    end)
                 (Exactly RequestException)
                 (fun e =>
                    raise (Exn LinkedInAuthError
                             (py "Failed to get access token: "
                              ++ exn_str e))) t).
  { intros r Hr. unfold get_linkedin_access_token.
    unfold bind at 1, lift at 1. rewrite Hcfg.
    unfold try_catch, bind at 1, requests_send.
    fold (token_request cfg (c :: code)). rewrite Hr.
    destruct r; reflexivity. }
  split; [|split; [|split]].
  - intros resp Hhttp Hstatus. rewrite (Start _ Hhttp).
    unfold try_catch, bind at 1, lift at 1.
    rewrite (raise_for_status_error _ Hstatus). reflexivity.
  - intros e Hhttp Hcls. rewrite (Start _ Hhttp).
    unfold try_catch. rewrite Hcls. reflexivity.
  - intros resp d Hhttp Hacc Hjson Hkey. rewrite (Start _ Hhttp).
    unfold try_catch, bind at 1, lift at 1.
    rewrite (raise_for_status_accepted _ Hacc).
    unfold bind at 1, lift at 1. rewrite Hjson.
    unfold bind at 1, lift at 1. rewrite (contains_no_key _ _ Hkey).
    reflexivity.
  - intros resp v Hhttp Hacc Hjson Hiter e.
    assert (G : get_linkedin_access_token w (c :: code) t = (Raise e, sent)).
    { rewrite (Start _ Hhttp).
      unfold try_catch, bind at 1, lift at 1.
      rewrite (raise_for_status_accepted _ Hacc).
      unfold bind at 1, lift at 1. rewrite Hjson.
      unfold bind at 1, lift at 1.
      destruct v; try discriminate; reflexivity. }
    split; [exact G|].
    unfold authenticate_linkedin, try_catch. unfold bind at 1.
    unfold linkedin_auth, bind at 1. rewrite G. reflexivity.
Qed.

Lemma bind_ok_inv {A B} (m : M A) (f : A -> M B) t b t' :
  bind m f t = (Ok b, t') ->
  exists a t1, m t = (Ok a, t1) /\ f a t1 = (Ok b, t').
Proof.
  unfold bind. destruct (m t) as [[a|e] t1]; intros H.
  - exists a, t1. split; [reflexivity | exact H].
  - discriminate.
Qed.

Lemma try_catch_wraps {A} (m : M A) (wrap : exn -> exn) t :
  try_catch m Exception (fun e => raise (wrap e)) t
  = match m t with
    | (Ok a, t') => (Ok a, t')
    | (Raise e, t') =>
        if isinstance (exn_cls e) Exception then (Raise (wrap e), t')
        else (Raise e, t')
    end.
Proof.
  unfold try_catch, raise. destruct (m t) as [[a|e] t']; reflexivity.
Qed.

(** Unfold the monad and split on every test that is left. *)
Ltac run_all :=
  unfold try_catch, bind, lift, ret, raise, requests_send;
  repeat (cbv beta iota;
          match goal with
          | |- context [match ?x with _ => _ end] =>
              lazymatch x with
              | context [match _ with _ => _ end] => fail
              | _ => destruct x eqn:?
              end
          end);
  cbn [fst snd].

Lemma token_exchange_one_request w code t :
  at_most_one_request t (snd (get_linkedin_access_token w code t)).
Proof.
  unfold at_most_one_request, get_linkedin_access_token.
  run_all; first [left; reflexivity | right; eexists; reflexivity].
Qed.

Lemma userinfo_one_request w access_token t :
  at_most_one_request t (snd (get_linkedin_userinfo w access_token t)).
Proof.
  unfold at_most_one_request, get_linkedin_userinfo.
  run_all; first [left; reflexivity | right; eexists; reflexivity].
Qed.

Lemma ugc_one_request str_of_value w access_token author_id text t :
  at_most_one_request t
    (snd (create_linkedin_ugc_post str_of_value w access_token author_id
            text t)).
Proof.
  unfold at_most_one_request, create_linkedin_ugc_post.
  run_all; first [left; reflexivity | right; eexists; reflexivity].
Qed.

Lemma authenticate_outcome w code t :
  match authenticate_linkedin w code t with
  | (Ok response, t') =>
      (exists token, response = PDict [(py "access_token", token)])
      /\ t' = snd (get_linkedin_access_token w code t)
  | (Raise e, t') =>
      (exn_cls e = LinkedInAuthError \/ not_an_exception e)
      /\ t' = snd (get_linkedin_access_token w code t)
  end.
Proof.
  unfold authenticate_linkedin. rewrite try_catch_wraps.
  unfold linkedin_auth. unfold bind at 1 2.
  destruct (get_linkedin_access_token w code t) as [[token|e] t1].
  - unfold ret. cbn [truthy negb contains_str dict_keys map fst existsb].
    unfold bind, lift, ret. rewrite pystr_eqb_refl. cbn [negb orb].
    split; [exists token; reflexivity | reflexivity].
  - cbn [snd]. destruct (isinstance (exn_cls e) Exception) eqn:E.
    + split; [left; reflexivity | reflexivity].
    + split; [right; apply outside_exception; exact E | reflexivity].
Qed.

(** X13: however the token exchange ends, [authenticate_linkedin] returns
    a dictionary with the single key [access_token], or raises a
    [LinkedInAuthError] (every exception an [except Exception] catches is
    turned into one); it sends at most one request and never repeats it.
    An empty code is refused without any request, whatever the environment
    is. *)
Theorem authenticate_raises_only_auth_errors w code t :
  match authenticate_linkedin w code t with
  | (Ok response, t') =>
      (exists token, response = PDict [(py "access_token", token)])
      /\ at_most_one_request t t'
  | (Raise e, t') =>
      (exn_cls e = LinkedInAuthError \/ not_an_exception e)
      /\ at_most_one_request t t'
  end
  /\ get_linkedin_access_token w [] t
     = (Raise (Exn ValueError (py "Authorization code is required")), t)
  /\ authenticate_linkedin w [] t
     = (Raise (Exn LinkedInAuthError
                 (py "LinkedIn authentication failed: Authorization code is required")),
        t).
Proof.
  split; [|split; reflexivity].
  pose proof (authenticate_outcome w code t) as H.
  pose proof (token_exchange_one_request w code t) as T.
  destruct (authenticate_linkedin w code t) as [[r|e] t'];
    destruct H as [H ->]; split; assumption.
Qed.

Lemma userinfo_ok w cfg access_token t resp body :
  access_token <> [] ->
  LinkedInConfig_from_env w = Ok cfg ->
  http w t (userinfo_request cfg access_token) = Ok resp ->
  accepted resp ->
  resp_json resp = Ok body ->
  get_linkedin_userinfo w access_token t
  = (Ok body, t ++ [EvHttp (userinfo_request cfg access_token)]).
Proof.
  intros Hne Hcfg Hhttp Hacc Hjson.
  destruct access_token as [|c token]; [congruence|].
  unfold get_linkedin_userinfo.
  unfold bind at 1, lift at 1. rewrite Hcfg.
  unfold try_catch, bind at 1, requests_send.
  fold (userinfo_request cfg (c :: token)). rewrite Hhttp.
  unfold bind at 1, lift at 1. rewrite (raise_for_status_accepted _ Hacc).
  unfold lift. rewrite Hjson. reflexivity.
Qed.

Lemma fetch_userinfo_ok w cfg access_token t resp d sub :
  access_token <> [] ->
  LinkedInConfig_from_env w = Ok cfg ->
  http w t (userinfo_request cfg access_token) = Ok resp ->
  accepted resp ->
  resp_json resp = Ok (PDict d) ->
  dict_get (py "sub") d = Some sub ->
  fetch_linkedin_userinfo w access_token t
  = (Ok (PDict d), t ++ [EvHttp (userinfo_request cfg access_token)]).
Proof.
  intros Hne Hcfg Hhttp Hacc Hjson Hsub.
  pose proof (userinfo_ok _ _ _ _ _ _ Hne Hcfg Hhttp Hacc Hjson) as G.
  destruct access_token as [|c token]; [congruence|].
  unfold fetch_linkedin_userinfo, try_catch. unfold bind at 1.
  rewrite G. rewrite (truthy_with_key _ _ _ Hsub). cbn [negb].
  unfold bind, lift, ret. rewrite (contains_key _ _ _ Hsub). reflexivity.
Qed.

(** X14: the user-info fetch on its good path.  With a token, a complete
    configuration and an answer that is no 4xx or 5xx, the client returns
    the JSON body as it is after one GET request that carries the token as
    bearer; the wrapper of [main.py] returns the same when the body is an
    object with the key [sub]. *)
Theorem userinfo_returns_body w cfg access_token t resp d sub :
  access_token <> [] ->
  LinkedInConfig_from_env w = Ok cfg ->
  http w t (userinfo_request cfg access_token) = Ok resp ->
  accepted resp ->
  resp_json resp = Ok (PDict d) ->
  dict_get (py "sub") d = Some sub ->
  let sent := t ++ [EvHttp (userinfo_request cfg access_token)] in
  get_linkedin_userinfo w access_token t = (Ok (PDict d), sent)
  /\ fetch_linkedin_userinfo w access_token t = (Ok (PDict d), sent)
  /\ subscript (PDict d) (py "sub") = Ok sub.
Proof.
  intros Hne Hcfg Hhttp Hacc Hjson Hsub sent.
  split; [exact (userinfo_ok _ _ _ _ _ _ Hne Hcfg Hhttp Hacc Hjson)|].
  split;
    [exact (fetch_userinfo_ok _ _ _ _ _ _ _ Hne Hcfg Hhttp Hacc Hjson Hsub)|].
  cbn [subscript]. rewrite Hsub. reflexivity.
Qed.

Lemma fetch_outcome w access_token t :
  match fetch_linkedin_userinfo w access_token t with
  | (Ok user_info, t') =>
      (truthy user_info = true
       /\ contains_str (py "sub") user_info = Ok true)
      /\ t' = snd (get_linkedin_userinfo w access_token t)
  | (Raise e, t') =>
      (exn_cls e = ValueError \/ not_an_exception e)
      /\ t' = snd (get_linkedin_userinfo w access_token t)
  end.
Proof.
  unfold fetch_linkedin_userinfo. destruct access_token as [|c token].
  - split; [left; reflexivity | reflexivity].
  - rewrite try_catch_wraps. unfold bind at 1.
    destruct (get_linkedin_userinfo w (c :: token) t) as [[u|e] t1].
    + cbn [snd]. destruct (truthy u) eqn:Hu; cbn [negb].
      * unfold bind at 1, lift at 1.
        destruct (contains_str (py "sub") u) as [present|e] eqn:Hp.
        -- unfold bind, ret, raise. destruct present; cbn [negb].
           ++ repeat split; reflexivity || assumption.
           ++ split; [left; reflexivity | reflexivity].
        -- unfold bind.
           destruct (isinstance (exn_cls e) Exception) eqn:E.
           ++ split; [left; reflexivity | reflexivity].
           ++ split; [right; apply outside_exception; exact E | reflexivity].
      * unfold bind, ret, raise.
        split; [left; reflexivity | reflexivity].
    + cbn [snd]. destruct (isinstance (exn_cls e) Exception) eqn:E.
      * split; [left; reflexivity | reflexivity].
      * split; [right; apply outside_exception; exact E | reflexivity].
Qed.

(** X15: whatever the client and the service do, [fetch_linkedin_userinfo]
    returns only a value that counts as true and contains [sub], and raises
    only [ValueError]: the [LinkedInAuthError] of the client never leaves
    it.  It sends at most one request. *)
Theorem fetch_raises_only_value_errors w access_token t :
  match fetch_linkedin_userinfo w access_token t with
  | (Ok user_info, t') =>
      truthy user_info = true
      /\ contains_str (py "sub") user_info = Ok true
      /\ at_most_one_request t t'
  | (Raise e, t') =>
      (exn_cls e = ValueError \/ not_an_exception e)
      /\ at_most_one_request t t'
  end.
Proof.
  pose proof (fetch_outcome w access_token t) as H.
  pose proof (userinfo_one_request w access_token t) as T.
  destruct (fetch_linkedin_userinfo w access_token t) as [[u|e] t'].
  - destruct H as [[H1 H2] ->]. repeat split; assumption.
  - destruct H as [H ->]. split; assumption.
Qed.

(** X16: how the user-info fetch fails in the wrapper of [main.py], for a
    token.  Every failure is a [ValueError] that starts with [Failed to
    fetch LinkedIn user info: ], also the wrapper's own complaint about a
    body that is empty or has no [sub], which is raised inside the [try] and
    wrapped like the others; a 4xx or 5xx answer carries the text of the
    client's error inside; a configuration that is incomplete at the time
    of the call is reported the same way, without any request. *)
Theorem fetch_failures_are_wrapped w access_token t :
  access_token <> [] ->
  let wrapped := fun message =>
    Exn ValueError (py "Failed to fetch LinkedIn user info: " ++ message) in
  (forall cfg resp body,
      LinkedInConfig_from_env w = Ok cfg ->
      http w t (userinfo_request cfg access_token) = Ok resp ->
      accepted resp ->
      resp_json resp = Ok body ->
      truthy body = false \/ contains_str (py "sub") body = Ok false ->
      fetch_linkedin_userinfo w access_token t
      = (Raise (wrapped (py "Invalid user info response from LinkedIn")),
         t ++ [EvHttp (userinfo_request cfg access_token)]))
  /\ (forall cfg resp,
         LinkedInConfig_from_env w = Ok cfg ->
         http w t (userinfo_request cfg access_token) = Ok resp ->
         (400 <= status_code resp < 600)%Z ->
         get_linkedin_userinfo w access_token t
         = (Raise (Exn LinkedInAuthError
                     (py "Failed to fetch userinfo: "
                      ++ http_error_message resp)),
            t ++ [EvHttp (userinfo_request cfg access_token)])
         /\ fetch_linkedin_userinfo w access_token t
            = (Raise (wrapped (py "Failed to fetch userinfo: "
                               ++ http_error_message resp)),
               t ++ [EvHttp (userinfo_request cfg access_token)]))
  /\ (missing_among w linkedin_names <> [] ->
      fetch_linkedin_userinfo w access_token t
      = (Raise (wrapped (missing_vars_message
                           (missing_among w linkedin_names))), t)).
Proof.
  intros Hne wrapped. destruct access_token as [|c token]; [congruence|].
  split; [|split].
  - intros cfg resp body Hcfg Hhttp Hacc Hjson Hbad.
    assert (Hne' : c :: token <> []) by discriminate.
    pose proof (userinfo_ok _ _ _ _ _ _ Hne' Hcfg Hhttp Hacc Hjson) as G.
    unfold fetch_linkedin_userinfo. rewrite try_catch_wraps.
    unfold bind at 1. rewrite G.
    destruct (truthy body) eqn:Hb; cbn [negb].
    + destruct Hbad as [Hbad | Hbad]; [discriminate|].
      unfold bind, lift, ret, raise. rewrite Hbad. reflexivity.
    + unfold bind, ret, raise. reflexivity.
  - intros cfg resp Hcfg Hhttp Hstatus.
    assert (G : get_linkedin_userinfo w (c :: token) t
                = (Raise (Exn LinkedInAuthError
                            (py "Failed to fetch userinfo: "
                             ++ http_error_message resp)),
                   t ++ [EvHttp (userinfo_request cfg (c :: token))])).
    { unfold get_linkedin_userinfo.
      unfold bind at 1, lift at 1. rewrite Hcfg.
      unfold try_catch, bind at 1, requests_send.
      fold (userinfo_request cfg (c :: token)). rewrite Hhttp.
      unfold bind at 1, lift at 1.
      rewrite (raise_for_status_error _ Hstatus). reflexivity. }
    split; [exact G|].
    unfold fetch_linkedin_userinfo. rewrite try_catch_wraps.
    unfold bind at 1. rewrite G. reflexivity.
  - intros Hmiss.
    unfold fetch_linkedin_userinfo. rewrite try_catch_wraps.
    unfold bind at 1. unfold get_linkedin_userinfo.
    unfold bind at 1, lift at 1. rewrite (from_env_missing _ Hmiss).
    reflexivity.
Qed.

Section Publication.

Variable str_of_value : pyval -> pystr.

(** X17: the publication checks its three arguments before anything else.
    With an empty token, an author that counts as false or an empty text,
    the client and the wrapper of [main.py] each raise their own
    [ValueError]; the environment is not read and no request is sent, so a
    broken configuration does not show. *)
Theorem publication_checks_arguments_first w access_token author_id text t :
  access_token = [] \/ truthy author_id = false \/ text = [] ->
  create_linkedin_ugc_post str_of_value w access_token author_id text t
  = (Raise (Exn ValueError
              (py "access_token, author_id, and text are all required")), t)
  /\ post_linkedin_ugc str_of_value w access_token author_id text t
     = (Raise (Exn ValueError
                 (py "Access token, author ID, and text are all required")),
        t).
Proof.
  intros H.
  assert (E : forallb truthy [PStr access_token; author_id; PStr text]
              = false).
  { cbn [forallb].
    destruct H as [-> | [H | ->]].
    - reflexivity.
    - rewrite H. apply andb_false_r.
    - cbn [truthy]. rewrite !andb_false_r. reflexivity. }
  unfold create_linkedin_ugc_post, post_linkedin_ugc. rewrite E.
  split; reflexivity.
Qed.

Lemma create_ugc_post_ok w cfg access_token author_id text t resp body :
  LinkedInConfig_from_env w = Ok cfg ->
  access_token <> [] -> truthy author_id = true -> text <> [] ->
  http w t (ugc_request str_of_value cfg access_token author_id text)
  = Ok resp ->
  accepted resp ->
  resp_json resp = Ok body ->
  create_linkedin_ugc_post str_of_value w access_token author_id text t
  = (Ok body,
     t ++ [EvHttp (ugc_request str_of_value cfg access_token author_id
                     text)]).
Proof.
  intros Hcfg Ht Ha Hx Hhttp Hacc Hjson.
  unfold create_linkedin_ugc_post.
  rewrite (all_required_given _ _ _ Ht Ha Hx). cbn [negb].
  unfold bind at 1, lift at 1. rewrite Hcfg.
  unfold try_catch, bind at 1, requests_send.
  fold (ugc_request str_of_value cfg access_token author_id text).
  rewrite Hhttp.
  unfold bind at 1, lift at 1. rewrite (raise_for_status_accepted _ Hacc).
  unfold lift. rewrite Hjson. reflexivity.
Qed.

Lemma post_ugc_ok w cfg access_token author_id text t resp body :
  LinkedInConfig_from_env w = Ok cfg ->
  access_token <> [] -> truthy author_id = true -> text <> [] ->
  http w t (ugc_request str_of_value cfg access_token author_id text)
  = Ok resp ->
  accepted resp ->
  resp_json resp = Ok body ->
  post_linkedin_ugc str_of_value w access_token author_id text t
  = (Ok body,
     t ++ [EvHttp (ugc_request str_of_value cfg access_token author_id
                     text)]).
Proof.
  intros Hcfg Ht Ha Hx Hhttp Hacc Hjson.
  unfold post_linkedin_ugc.
  rewrite (all_required_given _ _ _ Ht Ha Hx). cbn [negb].
  unfold try_catch, bind at 1.
  rewrite (create_ugc_post_ok _ _ _ _ _ _ _ _ Hcfg Ht Ha Hx Hhttp Hacc
             Hjson).
  reflexivity.
Qed.

(** X18: the publication on its good path.  With the three arguments, a
    complete configuration and an answer that is no 4xx or 5xx, the client
    and the wrapper return the JSON body of the answer after one request.
    In the payload of that request the author is the person URN of the
    author id and the commentary is the text, unchanged. *)
Theorem publication_returns_body w cfg access_token author_id text t resp
    body :
  LinkedInConfig_from_env w = Ok cfg ->
  access_token <> [] -> truthy author_id = true -> text <> [] ->
  http w t (ugc_request str_of_value cfg access_token author_id text)
  = Ok resp ->
  accepted resp ->
  resp_json resp = Ok body ->
  let request := ugc_request str_of_value cfg access_token author_id text in
  create_linkedin_ugc_post str_of_value w access_token author_id text t
  = (Ok body, t ++ [EvHttp request])
  /\ post_linkedin_ugc str_of_value w access_token author_id text t
     = (Ok body, t ++ [EvHttp request])
  /\ exists payload,
       request = PostJson (api_url cfg ++ py "/v2/ugcPosts")
                   (ugc_headers access_token) payload
       /\ subscript payload (py "author")
          = Ok (PStr (py "urn:li:person:"
                      ++ format_value str_of_value author_id))
       /\ (content <-r subscript payload (py "specificContent") ;;
           share <-r subscript content (py "com.linkedin.ugc.ShareContent") ;;
           commentary <-r subscript share (py "shareCommentary") ;;
           subscript commentary (py "text"))
          = Ok (PStr text).
Proof.
  intros Hcfg Ht Ha Hx Hhttp Hacc Hjson request.
  split; [apply (create_ugc_post_ok _ _ _ _ _ _ resp); assumption|].
  split; [apply (post_ugc_ok _ _ _ _ _ _ resp); assumption|].
  exists (ugc_payload str_of_value author_id text).
  repeat split.
Qed.

Lemma post_outcome w access_token author_id text t :
  match post_linkedin_ugc str_of_value w access_token author_id text t with
  | (Ok post_response, t') =>
      create_linkedin_ugc_post str_of_value w access_token author_id text t
      = (Ok post_response, t')
  | (Raise e, t') =>
      (exn_cls e = ValueError \/ not_an_exception e)
      /\ t' = snd (create_linkedin_ugc_post str_of_value w access_token
                     author_id text t)
  end.
Proof.
  unfold post_linkedin_ugc.
  destruct (negb (forallb truthy [PStr access_token; author_id; PStr text]))
    eqn:V.
  - unfold raise. split; [left; reflexivity|].
    unfold create_linkedin_ugc_post. rewrite V. reflexivity.
  - rewrite try_catch_wraps. unfold bind at 1.
    destruct (create_linkedin_ugc_post str_of_value w access_token author_id
                text t) as [[r|e] t1].
    + reflexivity.
    + cbn [snd]. destruct (isinstance (exn_cls e) Exception) eqn:E.
      * split; [left; reflexivity | reflexivity].
      * split; [right; apply outside_exception; exact E | reflexivity].
Qed.

(** X19: whatever the client and the service do, [post_linkedin_ugc]
    returns exactly what the client returned, and raises only [ValueError]:
    the [LinkedInPostError] of the client never leaves it.  An answer whose
    body is not JSON, where [response.json()] raises a [RequestException],
    is such a case.  At most one request is sent. *)
Theorem post_raises_only_value_errors w access_token author_id text t :
  match post_linkedin_ugc str_of_value w access_token author_id text t with
  | (Ok post_response, t') =>
      create_linkedin_ugc_post str_of_value w access_token author_id text t
      = (Ok post_response, t')
      /\ at_most_one_request t t'
  | (Raise e, t') =>
      (exn_cls e = ValueError \/ not_an_exception e)
      /\ at_most_one_request t t'
  end
  /\ (forall cfg resp e,
         LinkedInConfig_from_env w = Ok cfg ->
         access_token <> [] -> truthy author_id = true -> text <> [] ->
         http w t (ugc_request str_of_value cfg access_token author_id text)
         = Ok resp ->
         accepted resp ->
         resp_json resp = Raise e ->
         isinstance (exn_cls e) (Exactly RequestException) = true ->
         create_linkedin_ugc_post str_of_value w access_token author_id
           text t
         = (Raise (Exn LinkedInPostError
                     (py "Failed to create UGC post: " ++ exn_str e)),
            t ++ [EvHttp (ugc_request str_of_value cfg access_token
                            author_id text)])
         /\ post_linkedin_ugc str_of_value w access_token author_id text t
            = (Raise (Exn ValueError
                        (py "Failed to create LinkedIn post: "
                         ++ py "Failed to create UGC post: " ++ exn_str e)),
               t ++ [EvHttp (ugc_request str_of_value cfg access_token
                               author_id text)])).
Proof.
  split.
  - pose proof (post_outcome w access_token author_id text t) as H.
    pose proof (ugc_one_request str_of_value w access_token author_id text t)
      as T.
    destruct (post_linkedin_ugc str_of_value w access_token author_id text t)
      as [[r|e] t'].
    + split; [exact H|]. rewrite H in T. exact T.
    + destruct H as [H ->]. split; assumption.
  - intros cfg resp e Hcfg Ht Ha Hx Hhttp Hacc Hjson Hcls.
    assert (G : create_linkedin_ugc_post str_of_value w access_token
                  author_id text t
                = (Raise (Exn LinkedInPostError
                            (py "Failed to create UGC post: " ++ exn_str e)),
                   t ++ [EvHttp (ugc_request str_of_value cfg access_token
                                   author_id text)])).
    { unfold create_linkedin_ugc_post.
      rewrite (all_required_given _ _ _ Ht Ha Hx). cbn [negb].
      unfold bind at 1, lift at 1. rewrite Hcfg.
      unfold try_catch, bind at 1, requests_send.
      fold (ugc_request str_of_value cfg access_token author_id text).
      rewrite Hhttp.
      unfold bind at 1, lift at 1.
      rewrite (raise_for_status_accepted _ Hacc).
      unfold lift. rewrite Hjson, Hcls. reflexivity. }
    split; [exact G|].
    unfold post_linkedin_ugc.
    rewrite (all_required_given _ _ _ Ht Ha Hx). cbn [negb].
    rewrite try_catch_wraps. unfold bind at 1. rewrite G. reflexivity.
Qed.

End Publication.

(** ** Runs of [main] *)

Lemma from_env_complete w :
  missing_among w linkedin_names = [] ->
  LinkedInConfig_from_env w
  = Ok (MkLinkedInConfig
          (env_value (getenv w "LINKEDIN_API_URL"))
          (env_value (getenv w "LINKEDIN_CLIENT_ID"))
          (env_value (getenv w "LINKEDIN_CLIENT_SECRET"))
          (env_value (getenv w "LINKEDIN_REDIRECT_URI"))).
Proof.
  intros H. unfold LinkedInConfig_from_env. cbv zeta.
  rewrite missing_of_linkedin_vars, H. reflexivity.
Qed.

Lemma gemini_from_env_cases w :
  GeminiConfig_from_env w
  = match missing_among w gemini_names with
    | [] =>
        Ok (MkGeminiConfig (env_value (getenv w "GEMINI_API_KEY"))
              (env_value (getenv w "GEMINI_MODEL")))
    | missing => Raise (Exn ValueError (missing_vars_message missing))
    end.
Proof.
  unfold GeminiConfig_from_env, missing_among, gemini_names, missing_var,
    getenv. cbn [filter].
  destruct (is_set (environ w (py "GEMINI_API_KEY")));
    destruct (is_set (environ w (py "GEMINI_MODEL"))); reflexivity.
Qed.

Section Runs.

Variable json_loads : pystr -> result pyval.
Variable json_dumps : pyval -> pystr.
Variable str_of_value : pyval -> pystr.

(** X20: [main] fails fast on its configuration.  When a LinkedIn
    variable, a generator variable or the access token is missing, in this
    order of precedence, the run consists of a single line on the error
    stream, [Configuration Error: ] followed by the complaint, and ends
    with status 1: no conversation is started and no request is sent.
    When nothing is missing the run gets to the generation. *)
Theorem main_fails_fast_on_configuration w :
  match configuration_error w with
  | Some complaint =>
      main json_loads json_dumps str_of_value w
      = (Exit 1, [error_line "Configuration Error: " complaint])
  | None =>
      exists cfg gen token, ready w cfg gen token
  end.
Proof.
  unfold configuration_error.
  destruct (missing_among w linkedin_names) as [|m ms] eqn:L.
  - pose proof (from_env_complete w L) as HL.
    pose proof (gemini_from_env_cases w) as HG.
    destruct (missing_among w gemini_names) as [|g gs] eqn:G.
    + destruct (is_set (getenv w "LINKEDIN_ACCESS_TOKEN")) eqn:T.
      * destruct (getenv w "LINKEDIN_ACCESS_TOKEN") as [[|c token]|] eqn:E;
          try discriminate.
        eexists _, _, (c :: token). split.
        -- exact HL.
        -- unfold LinkedInPostGenerator_init. rewrite HG. reflexivity.
        -- exact E.
        -- discriminate.
      * unfold main, main_body. unfold bind at 1, lift at 1. rewrite HL.
        unfold bind at 1, lift at 1.
        unfold LinkedInPostGenerator_init. rewrite HG. cbn [rbind].
        rewrite T. reflexivity.
    + unfold main, main_body. unfold bind at 1, lift at 1. rewrite HL.
      unfold bind at 1, lift at 1.
      unfold LinkedInPostGenerator_init. rewrite HG. reflexivity.
  - unfold main, main_body. unfold bind at 1, lift at 1.
    rewrite from_env_missing by (rewrite L; discriminate).
    rewrite L. reflexivity.
Qed.

Lemma generate_post_trace w gen topic disclose t :
  topic <> [] ->
  snd (generate_post json_loads json_dumps w gen topic disclose t)
  = t ++ [EvChat (chat_for gen topic)].
Proof.
  intros Hne. destruct topic as [|c topic]; [congruence|].
  unfold generate_post, chat_for. cbn [_create_agents fst snd].
  unfold bind at 1, initiate_chat.
  destruct (chat w t _) as [summary|e]; [|reflexivity].
  destruct disclose.
  - unfold bind, lift.
    destruct (_add_ai_disclosure json_loads json_dumps (strip_fences summary));
      reflexivity.
  - unfold bind, ret, lift. reflexivity.
Qed.

Lemma handle_trace e t :
  snd (handle e main_handlers t) = t
  \/ exists label,
       snd (handle e main_handlers t) = t ++ [error_line label (exn_str e)].
Proof.
  unfold main_handlers. cbn [handle].
  destruct (isinstance (exn_cls e) (Exactly LinkedInAuthError));
    [right; exists "Authentication Error: "%string; reflexivity|].
  destruct (isinstance (exn_cls e) (Exactly LinkedInAPIError));
    [right; exists "LinkedIn API Error: "%string; reflexivity|].
  destruct (isinstance (exn_cls e) (Exactly ValueError));
    [right; exists "Configuration Error: "%string; reflexivity|].
  destruct (isinstance (exn_cls e) Exception);
    [right; exists "Unexpected Error: "%string; reflexivity|].
  left. reflexivity.
Qed.

(** X21: nothing is sent to LinkedIn when the generation fails.  In a run
    with a complete configuration in which [generate_post] raises, the
    trace is the first line, the one conversation and at most one line on
    the error stream: there is no request in it. *)
Theorem failed_generation_sends_nothing w cfg gen token e t1 :
  ready w cfg gen token ->
  generate_post json_loads json_dumps w gen (py "C# generics") true
    [generating_line]
  = (Raise e, t1) ->
  let conversation :=
    [generating_line; EvChat (chat_for gen (py "C# generics"))] in
  main json_loads json_dumps str_of_value w
  = handle e main_handlers conversation
  /\ (snd (main json_loads json_dumps str_of_value w) = conversation
      \/ exists label,
           snd (main json_loads json_dumps str_of_value w)
           = conversation ++ [error_line label (exn_str e)])
  /\ forall request,
       ~ In (EvHttp request)
           (snd (main json_loads json_dumps str_of_value w)).
Proof.
  intros Hready Hgen conversation.
  assert (Ht1 : t1 = conversation).
  { assert (Hne : py "C# generics" <> []) by discriminate.
    pose proof (generate_post_trace w gen (py "C# generics") true
                  [generating_line] Hne) as T.
    rewrite Hgen in T. exact T. }
  subst t1.
  pose proof (main_when_generation_fails json_loads json_dumps str_of_value
                _ _ _ _ _ _ Hready Hgen) as E.
  split; [exact E|].
  pose proof (handle_trace e conversation) as T. rewrite <- E in T.
  split; [exact T|].
  intros request Hin.
  destruct T as [T | [label T]]; rewrite T in Hin.
  - cbn in Hin. destruct Hin as [Hin | [Hin | []]]; discriminate.
  - cbn in Hin. destruct Hin as [Hin | [Hin | [Hin | []]]]; discriminate.
Qed.

End Runs.

(** ** A run that succeeds *)

Lemma try_except_ok {A} (r : result A) h k a :
  (forall e, exists e', k e = Raise e') ->
  try_except r h k = Ok a -> r = Ok a.
Proof.
  intros Hk. unfold try_except. destruct r as [x|e]; [trivial|].
  destruct (isinstance (exn_cls e) h); [|discriminate].
  destruct (Hk e) as [e' ->]. discriminate.
Qed.

Lemma rbind_ok_inv {A B} (r : result A) (f : A -> result B) b :
  rbind r f = Ok b -> exists a, r = Ok a /\ f a = Ok b.
Proof.
  destruct r as [a|e]; [|discriminate]. intros H. exists a. tauto.
Qed.

Lemma join_of_second a b rest x :
  str_join [] (PList (a :: PStr b :: rest)) = Ok x ->
  exists p q, x = p ++ b ++ q.
Proof.
  unfold str_join. cbn [iterate expect_strs].
  destruct a; try discriminate.
  destruct (expect_strs (0 + 1 + 1) rest) as [strs|e]; [|discriminate].
  assert (E : join [] (s :: b :: strs) = s ++ b ++ concat strs)
    by (rewrite join_nil_sep; reflexivity).
  cbn [rbind]. intros [= <-].
  exists s, (concat strs). exact E.
Qed.

Section Success.

Variable json_loads : pystr -> result pyval.
Variable json_dumps : pyval -> pystr.
Variable str_of_value : pyval -> pystr.

Lemma convert_ok_blank_line post_json post :
  _convert_to_linkedin_post json_loads post_json = Ok post ->
  exists p q, post = p ++ [NL; NL] ++ q.
Proof.
  unfold _convert_to_linkedin_post. intros H.
  apply try_except_ok in H; [|intros e; eexists; reflexivity].
  apply rbind_ok_inv in H. destruct H as (post_dict & _ & H).
  apply rbind_ok_inv in H. destruct H as (missing & _ & H).
  destruct missing; [|discriminate].
  apply rbind_ok_inv in H. destruct H as (t & _ & H).
  apply rbind_ok_inv in H. destruct H as (c & _ & H).
  apply rbind_ok_inv in H. destruct H as (code & _ & H).
  apply rbind_ok_inv in H. destruct H as (parts & Hparts & H).
  apply rbind_ok_inv in H. destruct H as (q & _ & H).
  apply rbind_ok_inv in H. destruct H as (h & _ & H).
  apply rbind_ok_inv in H. destruct H as (tags & _ & H).
  destruct (truthy code).
  - apply rbind_ok_inv in Hparts. destruct Hparts as (code' & _ & Hparts).
    injection Hparts as <-. cbn [app] in H.
    apply join_of_second in H. exact H.
  - injection Hparts as <-. cbn [app] in H.
    apply join_of_second in H. exact H.
Qed.

Lemma generate_post_ok_rendered w gen topic disclose t post t' :
  generate_post json_loads json_dumps w gen topic disclose t = (Ok post, t') ->
  exists post_json, _convert_to_linkedin_post json_loads post_json = Ok post.
Proof.
  destruct topic as [|c topic]; [discriminate|].
  unfold generate_post. cbn [_create_agents].
  intros H. apply bind_ok_inv in H. destruct H as (summary & t1 & _ & H).
  apply bind_ok_inv in H. destruct H as (cleaned & t2 & _ & H).
  unfold lift in H. injection H as H _. exists cleaned. exact H.
Qed.

(** X22: what [generate_post] returns is never empty: every rendered post
    has a blank line in it, after whatever stands for the title.  So the
    text check of the publication cannot fail on a post that was
    generated. *)
Theorem generated_post_is_not_empty w gen topic disclose t post t' :
  generate_post json_loads json_dumps w gen topic disclose t = (Ok post, t') ->
  (exists p q, post = p ++ [NL; NL] ++ q)
  /\ post <> []
  /\ truthy (PStr post) = true.
Proof.
  intros H. apply generate_post_ok_rendered in H.
  destruct H as (post_json & H). apply convert_ok_blank_line in H.
  destruct H as (p & q & ->).
  split; [exists p, q; reflexivity|].
  assert (N : p ++ [NL; NL] ++ q <> []) by (destruct p; discriminate).
  split; [exact N | apply truthy_str; exact N].
Qed.

Lemma generate_post_ok_not_empty w gen topic disclose t post t' :
  generate_post json_loads json_dumps w gen topic disclose t = (Ok post, t') ->
  post <> [].
Proof.
  intros H. apply generate_post_ok_rendered in H.
  destruct H as (post_json & H). apply convert_ok_blank_line in H.
  destruct H as (p & q & ->). destruct p; discriminate.
Qed.

(** X23: a run of [main] that goes well.  With a complete configuration,
    a generation that returns a post, a user-info answer that is an object
    with a [sub] that counts as true, and a publication answer with a JSON
    body, neither answer being a 4xx or 5xx, the run ends with status 0.
    Its trace is, in this order: the first line, the conversation, the
    post on the output, the user-info request, the user record on the
    output, the publication request for this post and this author, and the
    answer on the output.  Nothing is written on the error stream. *)
Theorem main_publishes_the_generated_post
    w cfg gen token post t1 resp1 user sub resp2 body :
  ready w cfg gen token ->
  generate_post json_loads json_dumps w gen (py "C# generics") true
    [generating_line]
  = (Ok post, t1) ->
  let t2 := t1 ++ generated_lines post in
  http w t2 (userinfo_request cfg token) = Ok resp1 ->
  accepted resp1 ->
  resp_json resp1 = Ok (PDict user) ->
  dict_get (py "sub") user = Some sub ->
  truthy sub = true ->
  let t3 := t2 ++ [EvHttp (userinfo_request cfg token)]
               ++ creating_lines (PDict user) in
  http w t3 (ugc_request str_of_value cfg token sub post) = Ok resp2 ->
  accepted resp2 ->
  resp_json resp2 = Ok body ->
  main json_loads json_dumps str_of_value w
  = (Exit 0,
     t3 ++ [EvHttp (ugc_request str_of_value cfg token sub post);
            created_line body])
  /\ t1 = [generating_line; EvChat (chat_for gen (py "C# generics"))].
Proof.
  intros Hready Hgen t2 Hget Hacc1 Hjson1 Hsub Tsub t3 Hpost Hacc2 Hjson2.
  pose proof (generate_post_ok_not_empty _ _ _ _ _ _ _ Hgen) as Npost.
  pose proof (ready_token_set _ _ _ _ Hready) as Ntoken.
  pose proof (ready_linkedin _ _ _ _ Hready) as Hcfg.
  split.
  - unfold main. rewrite (main_body_ready _ _ _ _ _ _ _ Hready).
    unfold bind at 1. rewrite Hgen.
    unfold bind at 1, print at 1, emit at 1.
    unfold bind at 1, print at 1, emit at 1.
    unfold bind at 1.
    replace ((t1 ++ [EvPrint Stdout
                      [PStr (py "Generated Post:" ++ [NL]); PStr post]])
             ++ [EvPrint Stdout [PStr (py "Fetching LinkedIn user info...")]])
      with t2
      by (subst t2; unfold generated_lines; rewrite <- app_assoc;
          reflexivity).
    rewrite (fetch_userinfo_ok _ _ _ _ _ _ _ Ntoken Hcfg Hget Hacc1 Hjson1
               Hsub).
    rewrite (truthy_with_key _ _ _ Hsub). cbn [negb].
    unfold bind at 1, print at 1, emit at 1.
    unfold bind at 1, print at 1, emit at 1.
    unfold bind at 1, lift at 1. cbn [subscript]. rewrite Hsub.
    unfold bind at 1.
    replace (((t2 ++ [EvHttp (userinfo_request cfg token)])
              ++ [EvPrint Stdout [PStr (py "User Info:"); PDict user]])
             ++ [EvPrint Stdout [PStr (py "Creating LinkedIn post...")]])
      with t3
      by (subst t3; unfold creating_lines; rewrite <- !app_assoc;
          reflexivity).
    rewrite (post_ugc_ok _ _ _ _ _ _ _ _ _ Hcfg Ntoken Tsub Npost Hpost
               Hacc2 Hjson2).
    unfold print, emit. rewrite <- app_assoc. reflexivity.
  - assert (Hne : py "C# generics" <> []) by discriminate.
    pose proof (generate_post_trace json_loads json_dumps w gen
                  (py "C# generics") true [generating_line] Hne) as T.
    rewrite Hgen in T. exact T.
Qed.

End Success.

(** ** What can be raised, and which clause of [main] reports it *)

Lemma subscript_raises v k e :
  subscript v k = Raise e -> interpreter_error e = true.
Proof.
  destruct v; cbn [subscript]; try (intros [= <-]; reflexivity).
  destruct (dict_get k d); [discriminate | intros [= <-]; reflexivity].
Qed.

Lemma method_get_raises v k e :
  method_get v k = Raise e -> interpreter_error e = true.
Proof.
  destruct v; cbn [method_get]; intros [= <-]; reflexivity.
Qed.

Lemma setitem_raises v k x e :
  setitem v k x = Raise e -> interpreter_error e = true.
Proof.
  destruct v; cbn [setitem]; intros [= <-]; reflexivity.
Qed.

Lemma iadd_str_raises v s e :
  iadd_str v s = Raise e -> interpreter_error e = true.
Proof.
  destruct v; cbn [iadd_str]; intros [= <-]; reflexivity.
Qed.

Lemma expect_strs_raises i items e :
  expect_strs i items = Raise e -> interpreter_error e = true.
Proof.
  revert i; induction items as [|v items IH]; intros i; [discriminate|].
  cbn [expect_strs].
  destruct v; try (intros [= <-]; reflexivity).
  destruct (expect_strs (i + 1) items) eqn:E; [discriminate|].
  cbn [rbind]. intros [= <-]. apply (IH _ E).
Qed.

Lemma str_join_raises sep v e :
  str_join sep v = Raise e -> interpreter_error e = true.
Proof.
  unfold str_join. destruct (iterate v) as [items|].
  - destruct (expect_strs 0 items) eqn:E; [discriminate|].
    cbn [rbind]. intros [= <-]. apply (expect_strs_raises _ _ _ E).
  - intros [= <-]. reflexivity.
Qed.

Lemma contains_str_raises k v e :
  contains_str k v = Raise e -> interpreter_error e = true.
Proof.
  destruct v; cbn [contains_str]; intros [= <-]; reflexivity.
Qed.

Lemma interpreter_error_not_linkedin e :
  interpreter_error e = true -> linkedin_error e = false.
Proof.
  unfold interpreter_error, linkedin_error. destruct (exn_cls e);
    try discriminate; reflexivity.
Qed.

Lemma interpreter_error_not_decode e :
  interpreter_error e = true ->
  isinstance (exn_cls e) (Exactly JSONDecodeError) = false.
Proof.
  unfold interpreter_error. destruct (exn_cls e);
    try discriminate; reflexivity.
Qed.

Section Raised.

Variable json_loads : pystr -> result pyval.
Variable json_dumps : pyval -> pystr.
Variable str_of_value : pyval -> pystr.

Lemma falsy_fields_raises v fields e :
  falsy_fields v fields = Raise e -> interpreter_error e = true.
Proof.
  induction fields as [|f fields IH]; [discriminate|].
  cbn [falsy_fields].
  destruct (method_get v f) eqn:G; cbn [rbind].
  - destruct (falsy_fields v fields); cbn [rbind]; [discriminate|].
    intros [= <-]. apply IH. reflexivity.
  - intros [= <-]. apply (method_get_raises _ _ _ G).
Qed.

(** One step of a chain of [rbind]: either the head raised what the chain
    raises, or it returned and the rest raises it. *)
Ltac chain H E :=
  match type of H with
  | rbind ?r _ = Raise _ =>
      destruct r eqn:E; cbn [rbind] in H;
      [|injection H as <-]
  end.

Lemma try_except_decode_raises (r : result pystr) e post_json :
  (forall e0, r = Raise e0 ->
              interpreter_error e0 = true \/ json_loads post_json = Raise e0) ->
  try_except r (Exactly JSONDecodeError) (fun e => Raise (invalid_json e))
  = Raise e ->
  interpreter_error e = true
  \/ (json_loads post_json = Raise e
      /\ isinstance (exn_cls e) (Exactly JSONDecodeError) = false).
Proof.
  intros Hr. unfold try_except. destruct r as [x|e0]; [discriminate|].
  destruct (isinstance (exn_cls e0) (Exactly JSONDecodeError)) eqn:D.
  - intros [= <-]. left. reflexivity.
  - intros [= <-]. destruct (Hr e0 eq_refl) as [H | H]; [left; exact H|].
    right. split; assumption.
Qed.

Lemma add_ai_disclosure_raises post_json e :
  _add_ai_disclosure json_loads json_dumps post_json = Raise e ->
  interpreter_error e = true
  \/ (json_loads post_json = Raise e
      /\ isinstance (exn_cls e) (Exactly JSONDecodeError) = false).
Proof.
  unfold _add_ai_disclosure. apply try_except_decode_raises.
  intros e0 H.
  chain H E0; [|right; reflexivity].
  chain H E1; [|left; exact (subscript_raises _ _ _ E1)].
  chain H E2; [|left; exact (iadd_str_raises _ _ _ E2)].
  chain H E3; [|left; exact (setitem_raises _ _ _ _ E3)].
  chain H E4; [|left; exact (method_get_raises _ _ _ E4)].
  chain H E5; [discriminate|].
  left. destruct a3; exact (setitem_raises _ _ _ _ E5).
Qed.

Lemma convert_raises post_json e :
  _convert_to_linkedin_post json_loads post_json = Raise e ->
  interpreter_error e = true
  \/ (json_loads post_json = Raise e
      /\ isinstance (exn_cls e) (Exactly JSONDecodeError) = false).
Proof.
  unfold _convert_to_linkedin_post. apply try_except_decode_raises.
  intros e0 H.
  chain H E0; [|right; reflexivity].
  chain H E1; [|left; exact (falsy_fields_raises _ _ _ E1)].
  destruct a0; [|injection H as <-; left; reflexivity].
  chain H E2; [|left; exact (subscript_raises _ _ _ E2)].
  chain H E3; [|left; exact (subscript_raises _ _ _ E3)].
  chain H E4; [|left; exact (method_get_raises _ _ _ E4)].
  chain H E5.
  - chain H E6; [|left; exact (subscript_raises _ _ _ E6)].
    chain H E7; [|left; exact (subscript_raises _ _ _ E7)].
    chain H E8; [|left; exact (str_join_raises _ _ _ E8)].
    left. exact (str_join_raises _ _ _ H).
  - left. destruct (truthy a2); [|discriminate].
    chain E5 E9; [discriminate|]. exact (subscript_raises _ _ _ E9).
Qed.

Lemma generate_post_raises w gen topic disclose t e t' :
  generate_post json_loads json_dumps w gen topic disclose t = (Raise e, t') ->
  interpreter_error e = true
  \/ (exists post_json,
         json_loads post_json = Raise e
         /\ isinstance (exn_cls e) (Exactly JSONDecodeError) = false)
  \/ chat w t (chat_for gen topic) = Raise e.
Proof.
  destruct topic as [|c topic].
  - intros [= <- _]. left. reflexivity.
  - unfold generate_post, chat_for. cbn [_create_agents fst snd].
    unfold bind at 1, initiate_chat.
    destruct (chat w t _) as [summary|e0];
      [|intros [= <- _]; right; right; reflexivity].
    destruct disclose.
    + unfold bind, lift.
      destruct (_add_ai_disclosure json_loads json_dumps
                  (strip_fences summary)) as [cleaned|e0] eqn:A.
      * intros [= H _]. apply convert_raises in H.
        destruct H as [H | H]; [left; exact H|].
        right. left. exists cleaned. exact H.
      * intros [= <- _]. apply add_ai_disclosure_raises in A.
        destruct A as [H | H]; [left; exact H|].
        right. left. exists (strip_fences summary). exact H.
    + unfold bind, ret, lift. intros [= H _]. apply convert_raises in H.
      destruct H as [H | H]; [left; exact H|].
      right. left. exists (strip_fences summary). exact H.
Qed.

(** X24: what the way from the last message to the post can raise.  The
    injector and the renderer raise only [ValueError], [KeyError],
    [TypeError] or [AttributeError], or else pass on an exception of
    [json.loads] that is no decode error; [generate_post] adds to these only
    what the conversation raised. *)
Theorem generation_raises_few_classes w gen topic disclose t :
  (forall post_json e,
      _add_ai_disclosure json_loads json_dumps post_json = Raise e
      \/ _convert_to_linkedin_post json_loads post_json = Raise e ->
      interpreter_error e = true
      \/ (json_loads post_json = Raise e
          /\ isinstance (exn_cls e) (Exactly JSONDecodeError) = false))
  /\ (forall e t',
         generate_post json_loads json_dumps w gen topic disclose t
         = (Raise e, t') ->
         interpreter_error e = true
         \/ (exists post_json,
                json_loads post_json = Raise e
                /\ isinstance (exn_cls e) (Exactly JSONDecodeError) = false)
         \/ chat w t (chat_for gen topic) = Raise e).
Proof.
  split.
  - intros post_json e [H | H];
      [apply add_ai_disclosure_raises | apply convert_raises]; exact H.
  - intros e t'. apply generate_post_raises.
Qed.

End Raised.

Lemma bind_raise_inv {A B} (m : M A) (f : A -> M B) t e t' :
  bind m f t = (Raise e, t') ->
  m t = (Raise e, t')
  \/ exists a t1, m t = (Ok a, t1) /\ f a t1 = (Raise e, t').
Proof.
  unfold bind. destruct (m t) as [[a|e0] t1]; intros H.
  - right. exists a, t1. split; [reflexivity | exact H].
  - left. injection H as <- <-. reflexivity.
Qed.

Lemma from_env_raises w e :
  LinkedInConfig_from_env w = Raise e -> interpreter_error e = true.
Proof.
  unfold LinkedInConfig_from_env. cbv zeta.
  destruct (missing_of (linkedin_vars w)); [discriminate|].
  intros [= <-]. reflexivity.
Qed.

Lemma generator_init_raises w e :
  LinkedInPostGenerator_init w = Raise e -> interpreter_error e = true.
Proof.
  unfold LinkedInPostGenerator_init. rewrite gemini_from_env_cases.
  destruct (missing_among w gemini_names); [discriminate|].
  intros [= <-]. reflexivity.
Qed.

Lemma linkedin_error_auth e :
  linkedin_error e = false ->
  isinstance (exn_cls e) (Exactly LinkedInAuthError) = false.
Proof.
  unfold linkedin_error. destruct (exn_cls e); try discriminate; reflexivity.
Qed.

Section Handlers.

Variable json_loads : pystr -> result pyval.
Variable json_dumps : pyval -> pystr.
Variable str_of_value : pyval -> pystr.

Lemma main_body_raises w e t :
  foreign_errors_only json_loads w ->
  main_body json_loads json_dumps str_of_value w [] = (Raise e, t) ->
  linkedin_error e = false.
Proof.
  intros [Hchat Hjson] H. unfold main_body in H.
  apply bind_raise_inv in H. destruct H as [H | (cfg & t0 & _ & H)].
  { injection H as H _. apply interpreter_error_not_linkedin.
    exact (from_env_raises _ _ H). }
  apply bind_raise_inv in H. destruct H as [H | (gen & t1 & _ & H)].
  { injection H as H _. apply interpreter_error_not_linkedin.
    exact (generator_init_raises _ _ H). }
  destruct (negb (is_set (getenv w "LINKEDIN_ACCESS_TOKEN"))).
  { injection H as <- _. reflexivity. }
  apply bind_raise_inv in H. destruct H as [H | (u1 & t2 & _ & H)].
  { discriminate. }
  apply bind_raise_inv in H. destruct H as [H | (post & t3 & _ & H)].
  { apply (generate_post_raises json_loads json_dumps) in H.
    destruct H as [H | [(s & H & _) | H]].
    - apply interpreter_error_not_linkedin. exact H.
    - exact (Hjson _ _ H).
    - exact (Hchat _ _ _ H). }
  apply bind_raise_inv in H. destruct H as [H | (u2 & t4 & _ & H)].
  { discriminate. }
  apply bind_raise_inv in H. destruct H as [H | (u3 & t5 & _ & H)].
  { discriminate. }
  apply bind_raise_inv in H. destruct H as [H | (user & t6 & _ & H)].
  { pose proof (fetch_outcome w
                  (env_value (getenv w "LINKEDIN_ACCESS_TOKEN")) t5) as F.
    rewrite H in F. destruct F as [[F | F] _].
    - unfold linkedin_error. rewrite F. reflexivity.
    - unfold linkedin_error. rewrite F. reflexivity. }
  destruct (negb (truthy user)).
  { injection H as <- _. reflexivity. }
  apply bind_raise_inv in H. destruct H as [H | (u4 & t7 & _ & H)].
  { discriminate. }
  apply bind_raise_inv in H. destruct H as [H | (u5 & t8 & _ & H)].
  { discriminate. }
  apply bind_raise_inv in H. destruct H as [H | (author & t9 & _ & H)].
  { injection H as H _. apply interpreter_error_not_linkedin.
    exact (subscript_raises _ _ _ H). }
  apply bind_raise_inv in H. destruct H as [H | (r & t10 & _ & H)].
  { pose proof (post_outcome str_of_value w
                  (env_value (getenv w "LINKEDIN_ACCESS_TOKEN")) author post
                  t9) as F.
    rewrite H in F. destruct F as [[F | F] _].
    - unfold linkedin_error. rewrite F. reflexivity.
    - unfold linkedin_error. rewrite F. reflexivity. }
  discriminate.
Qed.

(** X25: the handler of [main] never takes its first two clauses.  As
    long as the conversation and [json.loads] raise no LinkedIn error, an
    exception that reaches the handler is no [LinkedInAuthError] and no
    [LinkedInAPIError], because the wrappers of [main.py] turn those of the
    client into [ValueError].  A failed run therefore prints one line that
    starts with [Configuration Error: ] (for any [ValueError], a failed
    request included) or with [Unexpected Error: ], and ends with status 1;
    only an exception that is no [Exception] is left unhandled. *)
Theorem main_reports_two_kinds_of_error w :
  foreign_errors_only json_loads w ->
  match main_body json_loads json_dumps str_of_value w [] with
  | (Ok _, t) => main json_loads json_dumps str_of_value w = (Exit 0, t)
  | (Raise e, t) =>
      linkedin_error e = false
      /\ (main json_loads json_dumps str_of_value w
          = (Exit 1, t ++ [error_line "Configuration Error: " (exn_str e)])
          \/ main json_loads json_dumps str_of_value w
             = (Exit 1, t ++ [error_line "Unexpected Error: " (exn_str e)])
          \/ (main json_loads json_dumps str_of_value w = (Unhandled e, t)
              /\ not_an_exception e))
  end.
Proof.
  intros Hforeign.
  pose proof (main_body_raises w) as R. unfold main.
  destruct (main_body json_loads json_dumps str_of_value w [])
    as [[u|e] t]; [reflexivity|].
  specialize (R e t Hforeign eq_refl). split; [exact R|].
  unfold main_handlers. cbn [handle].
  rewrite (linkedin_error_auth _ R).
  unfold linkedin_error in R. rewrite R.
  destruct (isinstance (exn_cls e) (Exactly ValueError));
    [left; reflexivity|].
  destruct (isinstance (exn_cls e) Exception) eqn:E;
    [right; left; reflexivity|].
  right. right. split; [reflexivity|]. apply outside_exception. exact E.
Qed.

End Handlers.

(** ** What a run with status 0 has done *)

Lemma handle_not_zero e t t' : handle e main_handlers t <> (Exit 0, t').
Proof.
  unfold main_handlers. cbn [handle].
  repeat (match goal with
          | |- context [if ?b then _ else _] => destruct b
          end); discriminate.
Qed.

Lemma userinfo_ok_inv w access_token t body t' :
  get_linkedin_userinfo w access_token t = (Ok body, t') ->
  exists cfg,
    LinkedInConfig_from_env w = Ok cfg
    /\ t' = t ++ [EvHttp (userinfo_request cfg access_token)].
Proof.
  unfold get_linkedin_userinfo. destruct access_token as [|c token];
    [discriminate|].
  intros H. apply bind_ok_inv in H. destruct H as (cfg & t0 & H0 & H).
  injection H0 as H0 <-. exists cfg. split; [exact H0|].
  unfold try_catch in H. fold (userinfo_request cfg (c :: token)) in H.
  unfold bind at 1, requests_send in H.
  destruct (http w t (userinfo_request cfg (c :: token))) as [resp|e].
  - unfold bind, lift in H.
    destruct (raise_for_status resp).
    + destruct (resp_json resp) as [b|e].
      * injection H as _ <-. reflexivity.
      * unfold raise in H. destruct (isinstance _ _) in H; discriminate.
    + unfold raise in H. destruct (isinstance _ _) in H; discriminate.
  - unfold raise in H. destruct (isinstance _ _) in H; discriminate.
Qed.

Lemma fetch_ok_inv w access_token t user_info t' :
  fetch_linkedin_userinfo w access_token t = (Ok user_info, t') ->
  get_linkedin_userinfo w access_token t = (Ok user_info, t').
Proof.
  unfold fetch_linkedin_userinfo. destruct access_token as [|c token];
    [discriminate|].
  rewrite try_catch_wraps. unfold bind at 1.
  destruct (get_linkedin_userinfo w (c :: token) t) as [[u|e] t1].
  - destruct (negb (truthy u)).
    + unfold bind, ret, raise. cbn. discriminate.
    + unfold bind at 1, lift at 1.
      destruct (contains_str (py "sub") u) as [present|e].
      * unfold bind, ret, raise. destruct present; cbn.
        -- intros [= <- <-]. reflexivity.
        -- discriminate.
      * unfold bind. cbv beta iota.
        destruct (isinstance (exn_cls e) Exception); discriminate.
  - destruct (isinstance (exn_cls e) Exception); discriminate.
Qed.

Section Published.

Variable json_loads : pystr -> result pyval.
Variable json_dumps : pyval -> pystr.
Variable str_of_value : pyval -> pystr.

Lemma create_ok_inv w access_token author_id text t body t' :
  create_linkedin_ugc_post str_of_value w access_token author_id text t
  = (Ok body, t') ->
  exists cfg,
    LinkedInConfig_from_env w = Ok cfg
    /\ t' = t ++ [EvHttp (ugc_request str_of_value cfg access_token
                            author_id text)].
Proof.
  unfold create_linkedin_ugc_post.
  destruct (negb (forallb truthy [PStr access_token; author_id; PStr text]));
    [discriminate|].
  intros H. apply bind_ok_inv in H. destruct H as (cfg & t0 & H0 & H).
  injection H0 as H0 <-. exists cfg. split; [exact H0|].
  unfold try_catch in H.
  fold (ugc_request str_of_value cfg access_token author_id text) in H.
  unfold bind at 1, requests_send in H.
  destruct (http w t _) as [resp|e].
  - unfold bind, lift in H.
    destruct (raise_for_status resp).
    + destruct (resp_json resp) as [b|e].
      * injection H as _ <-. reflexivity.
      * unfold raise in H. destruct (isinstance _ _) in H; discriminate.
    + unfold raise in H. destruct (isinstance _ _) in H; discriminate.
  - unfold raise in H. destruct (isinstance _ _) in H; discriminate.
Qed.

(** X26: a run of [main] that ends with status 0 has published.  Its
    configuration was complete and its trace is, in this order, the first
    line, one conversation, the post on the output, one user-info request,
    the user record on the output, one publication request whose text is
    that post and whose author is the [sub] of that record, and the answer
    on the output: one conversation and two requests, none repeated. *)
Theorem successful_run_has_published w t :
  main json_loads json_dumps str_of_value w = (Exit 0, t) ->
  exists cfg gen token post user_info author body,
    ready w cfg gen token
    /\ subscript user_info (py "sub") = Ok author
    /\ t = [generating_line; EvChat (chat_for gen (py "C# generics"))]
           ++ generated_lines post
           ++ [EvHttp (userinfo_request cfg token)]
           ++ creating_lines user_info
           ++ [EvHttp (ugc_request str_of_value cfg token author post);
               created_line body].
Proof.
  unfold main.
  destruct (main_body json_loads json_dumps str_of_value w [])
    as [[u|e] t0] eqn:B;
    [|intros H; exfalso; exact (handle_not_zero _ _ _ H)].
  intros [= <-]. unfold main_body in B.
  apply bind_ok_inv in B. destruct B as (cfg & t1 & Hcfg & B).
  injection Hcfg as Hcfg <-.
  apply bind_ok_inv in B. destruct B as (gen & t2 & Hgen & B).
  injection Hgen as Hgen <-.
  destruct (getenv w "LINKEDIN_ACCESS_TOKEN") as [[|c token]|] eqn:Htok;
    try discriminate.
  cbn [is_set negb env_value] in B.
  apply bind_ok_inv in B. destruct B as (u1 & t3 & P1 & B).
  injection P1 as _ <-.
  apply bind_ok_inv in B. destruct B as (post & t4 & Hpost & B).
  assert (Hne : py "C# generics" <> []) by discriminate.
  match type of Hpost with
  | generate_post _ _ _ _ _ _ ?t0 = _ =>
      pose proof (generate_post_trace json_loads json_dumps w gen
                    (py "C# generics") true t0 Hne) as T4
  end.
  rewrite Hpost in T4. cbn [snd] in T4. subst t4.
  apply bind_ok_inv in B. destruct B as (u2 & t5 & P2 & B).
  injection P2 as _ <-.
  apply bind_ok_inv in B. destruct B as (u3 & t6 & P3 & B).
  injection P3 as _ <-.
  apply bind_ok_inv in B. destruct B as (user_info & t7 & Hfetch & B).
  apply fetch_ok_inv in Hfetch. apply userinfo_ok_inv in Hfetch.
  destruct Hfetch as (cfg' & Hcfg' & ->).
  rewrite Hcfg in Hcfg'. injection Hcfg' as <-.
  destruct (negb (truthy user_info)); [discriminate|].
  apply bind_ok_inv in B. destruct B as (u4 & t8 & P4 & B).
  injection P4 as _ <-.
  apply bind_ok_inv in B. destruct B as (u5 & t9 & P5 & B).
  injection P5 as _ <-.
  apply bind_ok_inv in B. destruct B as (author & t10 & Hsub & B).
  injection Hsub as Hsub <-.
  apply bind_ok_inv in B. destruct B as (body & t11 & Hpub & B).
  match type of Hpub with
  | post_linkedin_ugc _ _ _ _ _ ?t0 = _ =>
      pose proof (post_outcome str_of_value w (c :: token) author post t0)
        as O
  end.
  rewrite Hpub in O. apply create_ok_inv in O.
  destruct O as (cfg' & Hcfg' & ->).
  rewrite Hcfg in Hcfg'. injection Hcfg' as <-.
  injection B as _ <-.
  exists cfg, gen, (c :: token), post, user_info, author, body.
  split; [split; [exact Hcfg | exact Hgen | exact Htok | discriminate]|].
  split; [exact Hsub|]. reflexivity.
Qed.

End Published.

(** ** Configurations that were built *)

Lemma filter_nil_In {A} (f : A -> bool) l x :
  filter f l = [] -> In x l -> f x = false.
Proof.
  induction l as [|a l IH]; [contradiction|].
  cbn [filter]. destruct (f a) eqn:E; [discriminate|].
  intros H [<- | Hin]; [exact E | exact (IH H Hin)].
Qed.

Lemma env_value_set v : is_set v = true -> v = Some (env_value v) /\ env_value v <> [].
Proof.
  destruct v as [[|c s]|]; try discriminate.
  intros _. split; [reflexivity | discriminate].
Qed.

(** X27: a configuration that was built holds the values of its variables
    as they are in the environment, and none of them is empty; the
    generator keeps the model and the key under [model] and [api_key] and
    sets [api_type] to [google]. *)
Theorem built_configuration_holds_the_environment w :
  (forall cfg,
      LinkedInConfig_from_env w = Ok cfg ->
      (environ w (py "LINKEDIN_API_URL") = Some (api_url cfg)
       /\ environ w (py "LINKEDIN_CLIENT_ID") = Some (client_id cfg)
       /\ environ w (py "LINKEDIN_CLIENT_SECRET") = Some (client_secret cfg)
       /\ environ w (py "LINKEDIN_REDIRECT_URI") = Some (redirect_uri cfg))
      /\ api_url cfg <> [] /\ client_id cfg <> []
      /\ client_secret cfg <> [] /\ redirect_uri cfg <> [])
  /\ (forall gen,
         LinkedInPostGenerator_init w = Ok gen ->
         exists model key,
           llm_config gen
           = [ (py "model", model); (py "api_key", key);
               (py "api_type", py "google") ]
           /\ environ w (py "GEMINI_MODEL") = Some model
           /\ environ w (py "GEMINI_API_KEY") = Some key
           /\ model <> [] /\ key <> []).
Proof.
  split.
  - intros cfg H.
    destruct (missing_among w linkedin_names) as [|m ms] eqn:L.
    + rewrite (from_env_complete w L) in H. injection H as <-.
      assert (S : forall name, In name linkedin_names ->
                               is_set (environ w name) = true).
      { intros name Hin. pose proof (filter_nil_In _ _ name L Hin) as F.
        unfold missing_var in F. apply negb_false_iff in F. exact F. }
      cbn [api_url client_id client_secret redirect_uri]. unfold getenv.
      destruct (env_value_set _ (S (py "LINKEDIN_API_URL")
                                   ltac:(simpl; tauto))) as [E1 N1].
      destruct (env_value_set _ (S (py "LINKEDIN_CLIENT_ID")
                                   ltac:(simpl; tauto))) as [E2 N2].
      destruct (env_value_set _ (S (py "LINKEDIN_CLIENT_SECRET")
                                   ltac:(simpl; tauto))) as [E3 N3].
      destruct (env_value_set _ (S (py "LINKEDIN_REDIRECT_URI")
                                   ltac:(simpl; tauto))) as [E4 N4].
      repeat split; assumption.
    + rewrite from_env_missing in H by (rewrite L; discriminate).
      discriminate.
  - intros gen H. unfold LinkedInPostGenerator_init in H.
    rewrite gemini_from_env_cases in H.
    destruct (missing_among w gemini_names) as [|m ms] eqn:G;
      [|discriminate].
    injection H as <-.
    assert (S : forall name, In name gemini_names ->
                             is_set (environ w name) = true).
    { intros name Hin. pose proof (filter_nil_In _ _ name G Hin) as F.
      unfold missing_var in F. apply negb_false_iff in F. exact F. }
    unfold getenv. cbn [llm_config gemini_model gemini_api_key].
    destruct (env_value_set _ (S (py "GEMINI_API_KEY")
                                 ltac:(simpl; tauto))) as [E1 N1].
    destruct (env_value_set _ (S (py "GEMINI_MODEL")
                                 ltac:(simpl; tauto))) as [E2 N2].
    eexists _, _. repeat split; try reflexivity; assumption.
Qed.

(** ** Instances of the further properties *)

Lemma helper_leaves_out_question_and_code_witness :
  exists before after,
    convert_json_to_linkedInPost (example_loads [PDict example_draft])
      example_dumps (example_dumps (PDict example_draft))
    = Ok (before ++ after)
    /\ before = title example_record ++ [NL; NL] ++ content example_record
    /\ after = [NL; NL] ++ join (py " ") (hashtags example_record)
    /\ rendered example_record
       = before
         ++ (code_block (code example_record) ++ [NL; NL]
             ++ question example_record)
         ++ after.
Proof.
  apply (helper_leaves_out_question_and_code
           (example_loads [PDict example_draft]) example_dumps
           (example_dumps (PDict example_draft)) example_draft
           example_record).
  - reflexivity.
  - repeat split; reflexivity.
Defined.

Lemma non_object_json_is_unexpected_witness :
  _convert_to_linkedin_post (example_loads [PList []]) (py "[]")
  = Raise (Exn AttributeError (py "'list' object has no attribute 'get'")).
Proof.
  apply (non_object_json_is_unexpected (example_loads [PList []])
           example_dumps example_dumps (py "[]") (PList [])).
  - reflexivity.
  - discriminate.
Defined.

Lemma string_hashtags_are_spelled_out_witness :
  _convert_to_linkedin_post
    (example_loads [PDict draft_with_string_hashtags])
    (example_dumps (PDict draft_with_string_hashtags))
  = Ok (py "Generics in C#" ++ [NL; NL]
        ++ py "Generics give type safety without casts." ++ [NL; NL]
        ++ py "Where do you use generics?" ++ [NL; NL] ++ py "# g o").
Proof.
  apply (string_hashtags_are_spelled_out
           (example_loads [PDict draft_with_string_hashtags])
           (example_dumps (PDict draft_with_string_hashtags))
           draft_with_string_hashtags
           (py "Generics in C#")
           (py "Generics give type safety without casts.")
           (py "Where do you use generics?") (py "#go"));
    try reflexivity; discriminate.
Defined.

Lemma non_string_title_is_type_error_witness :
  _convert_to_linkedin_post
    (example_loads [PDict draft_with_number_title])
    (example_dumps (PDict draft_with_number_title))
  = Raise (Exn TypeError
             (py "sequence item 0: expected str instance, int found")).
Proof.
  apply (non_string_title_is_type_error
           (example_loads [PDict draft_with_number_title])
           (example_dumps (PDict draft_with_number_title))
           draft_with_number_title (PInt 2024)
           (py "Generics give type safety without casts.")
           (py "Where do you use generics?") [py "#csharp"]);
    try reflexivity; discriminate.
Defined.

Lemma generation_failures_propagate_witness :
  generate_post example_json_loads example_dumps garbled_world
    example_generator (py "C# generics") true []
  = (Raise (Exn ValueError
              (py "Invalid JSON format: Expecting value: line 1 column 1 (char 0)")),
     [EvChat (chat_for example_generator (py "C# generics"))]).
Proof.
  destruct (generation_failures_propagate example_json_loads example_dumps
              garbled_world example_generator (py "C# generics") true [])
    as [_ H].
  - discriminate.
  - apply (H (py "Sorry, no post today.")
             (Exn JSONDecodeError
                (py "Expecting value: line 1 column 1 (char 0)")));
      reflexivity.
Defined.

Lemma generate_post_with_disclosure_witness :
  generate_post example_json_loads example_dumps refused_world
    example_generator (py "C# generics") true []
  = (Ok example_post,
     [EvChat (chat_for example_generator (py "C# generics"))]).
Proof.
  destruct (generate_post_with_disclosure example_json_loads example_dumps
              refused_world example_generator (py "C# generics") []
              fenced_draft example_draft example_record) as [H _].
  - discriminate.
  - reflexivity.
  - reflexivity.
  - repeat split; reflexivity.
  - discriminate.
  - discriminate.
  - reflexivity.
  - exact H.
Defined.

Lemma injection_hides_empty_content_witness :
  rbind (_add_ai_disclosure
           (example_loads
              [PDict [(py "content", PStr [])];
               PDict (injected [] [(py "content", PStr [])])])
           example_dumps
           (example_dumps (PDict [(py "content", PStr [])])))
    (_convert_to_linkedin_post
       (example_loads
          [PDict [(py "content", PStr [])];
           PDict (injected [] [(py "content", PStr [])])]))
  = Raise (Exn ValueError (py "Missing required fields: title, question")).
Proof.
  apply (injection_hides_empty_content
           (example_loads
              [PDict [(py "content", PStr [])];
               PDict (injected [] [(py "content", PStr [])])])
           example_dumps
           (example_dumps (PDict [(py "content", PStr [])]))
           [(py "content", PStr [])] []);
    try reflexivity.
  discriminate.
Defined.

Lemma injection_keeps_key_order_witness :
  exists d1,
    _add_ai_disclosure (example_loads [PDict example_incomplete])
      example_dumps (example_dumps (PDict example_incomplete))
    = Ok (example_dumps (PDict d1))
    /\ dict_keys d1 = [py "title"; py "content"; py "hashtags"].
Proof.
  apply (injection_keeps_key_order (example_loads [PDict example_incomplete])
           example_dumps (example_dumps (PDict example_incomplete))
           example_incomplete
           (py "Generics give type safety without casts."));
    reflexivity.
Defined.

Lemma token_exchange_returns_token_witness :
  authenticate_linkedin refused_world (py "code") []
  = (Ok (PDict [(py "access_token", PStr (py "token"))]),
     [EvHttp (token_request example_config (py "code"))]).
Proof.
  apply (token_exchange_returns_token refused_world example_config
           (py "code") [] token_response
           [(py "access_token", PStr (py "token"))] (PStr (py "token")));
    try reflexivity.
  - discriminate.
  - left. cbn [status_code token_response]. lia.
Defined.

Lemma token_exchange_failures_witness :
  get_linkedin_access_token
    (World (env_of complete_vars)
       (fun _ _ => Ok (Response 200 (py "OK") [] (Ok (PDict []))))
       (example_chat []))
    (py "code") []
  = (Raise (Exn LinkedInAuthError (py "Access token not found in response")),
     [EvHttp (token_request example_config (py "code"))]).
Proof.
  destruct (token_exchange_failures
              (World (env_of complete_vars)
                 (fun _ _ => Ok (Response 200 (py "OK") [] (Ok (PDict []))))
                 (example_chat []))
              example_config (py "code") []) as (_ & _ & H & _).
  - discriminate.
  - reflexivity.
  - apply (H (Response 200 (py "OK") [] (Ok (PDict []))) []);
      try reflexivity.
    left. cbn [status_code]. lia.
Defined.

Lemma userinfo_returns_body_witness :
  fetch_linkedin_userinfo refused_world (py "token") []
  = (Ok example_user_info,
     [EvHttp (userinfo_request example_config (py "token"))]).
Proof.
  apply (userinfo_returns_body refused_world example_config (py "token") []
           userinfo_response [(py "sub", PStr (py "u123"))]
           (PStr (py "u123")));
    try reflexivity.
  - discriminate.
  - left. cbn [status_code userinfo_response]. lia.
Defined.

Lemma fetch_failures_are_wrapped_witness :
  fetch_linkedin_userinfo refused_world_without_client_id (py "token") []
  = (Raise (Exn ValueError
              (py "Failed to fetch LinkedIn user info: Missing required environment variables: LINKEDIN_CLIENT_ID")),
     []).
Proof.
  destruct (fetch_failures_are_wrapped refused_world_without_client_id
              (py "token") []) as (_ & _ & H).
  - discriminate.
  - apply H. discriminate.
Defined.

Lemma publication_checks_arguments_first_witness :
  post_linkedin_ugc example_dumps refused_world_without_client_id
    (py "token") (PStr (py "u123")) [] []
  = (Raise (Exn ValueError
              (py "Access token, author ID, and text are all required")),
     []).
Proof.
  apply (publication_checks_arguments_first example_dumps
           refused_world_without_client_id (py "token") (PStr (py "u123"))
           [] []).
  right. right. reflexivity.
Defined.

Lemma publication_returns_body_witness :
  post_linkedin_ugc example_dumps published_world (py "token")
    (PStr (py "u123")) example_post []
  = (Ok (PDict [(py "status", PInt 201)]), [EvHttp published_request]).
Proof.
  apply (publication_returns_body example_dumps published_world
           example_config (py "token") (PStr (py "u123")) example_post []
           created_response (PDict [(py "status", PInt 201)]));
    try reflexivity; try discriminate.
  left. cbn [status_code created_response]. lia.
Defined.

Lemma failed_generation_sends_nothing_witness :
  main (example_loads [PDict []]) example_dumps example_dumps
    empty_object_world
  = handle (Exn KeyError (py "'content'")) main_handlers
      [generating_line;
       EvChat (chat_for example_generator (py "C# generics"))].
Proof.
  apply (failed_generation_sends_nothing (example_loads [PDict []])
           example_dumps example_dumps empty_object_world example_config
           example_generator (py "token") (Exn KeyError (py "'content'"))
           [generating_line;
            EvChat (chat_for example_generator (py "C# generics"))]).
  - split; [reflexivity | reflexivity | reflexivity | discriminate].
  - reflexivity.
Defined.

Lemma generated_post_is_not_empty_witness :
  (exists p q, example_post = p ++ [NL; NL] ++ q)
  /\ example_post <> []
  /\ truthy (PStr example_post) = true.
Proof.
  apply (generated_post_is_not_empty example_json_loads example_dumps
           refused_world example_generator (py "C# generics") true []
           example_post
           [EvChat (chat_for example_generator (py "C# generics"))]).
  vm_compute. reflexivity.
Defined.

Lemma ready_published_world :
  ready published_world example_config example_generator (py "token").
Proof. split; [reflexivity | reflexivity | reflexivity | discriminate]. Qed.

Lemma main_publishes_the_generated_post_witness :
  main example_json_loads example_dumps example_dumps published_world
  = (Exit 0,
     published_before_request
     ++ [EvHttp published_request;
         created_line (PDict [(py "status", PInt 201)])]).
Proof.
  apply (main_publishes_the_generated_post example_json_loads example_dumps
           example_dumps published_world example_config example_generator
           (py "token") example_post trace_before_generated
           userinfo_response [(py "sub", PStr (py "u123"))]
           (PStr (py "u123")) created_response
           (PDict [(py "status", PInt 201)])).
  - exact ready_published_world.
  - vm_compute. reflexivity.
  - reflexivity.
  - left. cbn [status_code userinfo_response]. lia.
  - reflexivity.
  - reflexivity.
  - reflexivity.
  - reflexivity.
  - left. cbn [status_code created_response]. lia.
  - reflexivity.
Defined.

Lemma example_errors_are_foreign w :
  (forall t c e, chat w t c = Raise e -> linkedin_error e = false) ->
  foreign_errors_only example_json_loads w.
Proof.
  intros Hchat. split; [exact Hchat|].
  intros post_json e. unfold example_json_loads, example_loads.
  destruct (find _ _); [discriminate|]. intros [= <-]. reflexivity.
Qed.

Lemma refused_world_errors_are_foreign :
  foreign_errors_only example_json_loads refused_world.
Proof.
  apply example_errors_are_foreign. intros t c e H. discriminate H.
Qed.

Lemma main_reports_two_kinds_of_error_witness :
  match
    main_body example_json_loads example_dumps example_dumps refused_world []
  with
  | (Ok _, t) =>
      main example_json_loads example_dumps example_dumps refused_world
      = (Exit 0, t)
  | (Raise e, t) =>
      linkedin_error e = false
      /\ (main example_json_loads example_dumps example_dumps refused_world
          = (Exit 1, t ++ [error_line "Configuration Error: " (exn_str e)])
          \/ main example_json_loads example_dumps example_dumps
               refused_world
             = (Exit 1, t ++ [error_line "Unexpected Error: " (exn_str e)])
          \/ (main example_json_loads example_dumps example_dumps
                refused_world
              = (Unhandled e, t)
              /\ not_an_exception e))
  end.
Proof.
  apply (main_reports_two_kinds_of_error example_json_loads example_dumps
           example_dumps refused_world).
  exact refused_world_errors_are_foreign.
Defined.

Lemma successful_run_has_published_witness :
  exists cfg gen token post user_info author body,
    ready published_world cfg gen token
    /\ subscript user_info (py "sub") = Ok author
    /\ published_before_request
       ++ [EvHttp published_request;
           created_line (PDict [(py "status", PInt 201)])]
       = [generating_line; EvChat (chat_for gen (py "C# generics"))]
         ++ generated_lines post
         ++ [EvHttp (userinfo_request cfg token)]
         ++ creating_lines user_info
         ++ [EvHttp (ugc_request example_dumps cfg token author post);
             created_line body].
Proof.
  apply (successful_run_has_published example_json_loads example_dumps
           example_dumps published_world).
  vm_compute. reflexivity.
Defined.
